(** * BuildPro construction-management client: model and verified properties

    The client is a set of React components (App, useData, CrudView,
    ProjectsView, ProjectDetailView, DashboardView).  Each component is
    embedded as the pure function or the effectful program it is written as:
    rendering decisions become functions of the component state, event
    handlers become programs over the effects they perform (confirm dialog,
    HTTP call, alert, state setter), and the JavaScript primitives they call
    ([toLowerCase], [includes], [parseFloat], [toFixed], [||], [&&], [===])
    are given their ECMAScript meaning on the values the data model allows.

    Strings are sequences of 8-bit characters; [toLowerCase] is the ASCII
    case mapping.  Numbers are IEEE 754 binary64 values ([spec_float] with
    53 bits of precision and exponent bound 1024). *)

From Stdlib Require Import Bool List ZArith Lia Ascii String DecimalString.
From Stdlib Require Import Floats.SpecFloat.
Import ListNotations.

Open Scope list_scope.
Open Scope string_scope.

(* ================================================================== *)
(** * JavaScript values and primitives *)

Module JS.

(** A property of a row received as JSON: absent ([undefined]), [null],
    or a value of the expected type. *)
Inductive field (A : Type) : Type :=
| Undefined
| Null
| Val (a : A).
Arguments Undefined {A}.
Arguments Null {A}.
Arguments Val {A} a.

(** Exceptions raised by the primitives. *)
Inductive exn : Type :=
| TypeError (msg : string).

(** Outcome of an evaluation that may throw. *)
Inductive result (A : Type) : Type :=
| Ok (a : A)
| Throw (e : exn).
Arguments Ok {A} a.
Arguments Throw {A} e.

Definition bind {A B} (r : result A) (k : A -> result B) : result B :=
  match r with
  | Ok a => k a
  | Throw e => Throw e
  end.

Notation "x <- r ;; k" := (bind r (fun x => k))
  (at level 61, r at next level, right associativity).

(** ** Strings *)

(** Characters are the code units U+0000..U+00FF.  The upper-case letters
    among them are A..Z and the Latin-1 capitals U+00C0..U+00DE other than
    the multiplication sign U+00D7; each lies 32 below its lower-case form. *)
Definition is_upper (c : ascii) : bool :=
  let n := nat_of_ascii c in
  ((65 <=? n) && (n <=? 90) ||
   (192 <=? n) && (n <=? 222) && negb (n =? 215))%nat.

Definition lower_char (c : ascii) : ascii :=
  if is_upper c then ascii_of_nat (nat_of_ascii c + 32) else c.

(** [String.prototype.toLowerCase] on text of these characters, where it
    is a character map; [Unicode.toLowerCase] is the function on any
    text, and [toLowerCase_latin1] shows that the two agree here. *)
Fixpoint toLowerCase (s : string) : string :=
  match s with
  | EmptyString => EmptyString
  | String c s' => String (lower_char c) (toLowerCase s')
  end.

(** [String.prototype.startsWith] *)
Fixpoint startsWith (s t : string) {struct t} : bool :=
  match t, s with
  | EmptyString, _ => true
  | String _ _, EmptyString => false
  | String b t', String a s' => Ascii.eqb a b && startsWith s' t'
  end.

(** [String.prototype.includes]: [t] occurs in [s] at some position. *)
Fixpoint includes (s t : string) : bool :=
  startsWith s t ||
  match s with
  | EmptyString => false
  | String _ s' => includes s' t
  end.

(** [String.prototype.slice(0, -1)]: all but the last character. *)
Fixpoint slice_0_m1 (s : string) : string :=
  match s with
  | EmptyString => EmptyString
  | String _ EmptyString => EmptyString
  | String c s' => String c (slice_0_m1 s')
  end.

(** ToString of an integer, as a template literal prints an id. *)
Definition string_of_Z (z : Z) : string :=
  DecimalString.NilEmpty.string_of_int (Z.to_int z).

(** ToBoolean of a string-valued property: [undefined], [null] and the
    empty string are falsy. *)
Definition truthy_str (f : field string) : bool :=
  match f with
  | Val (String _ _) => true
  | _ => false
  end.

(** [f || d] for a string [d]. *)
Definition or_else_str (f : field string) (d : string) : string :=
  match f with
  | Val (String c v) => String c v
  | _ => d
  end.

(** [f === s] for a string [s]. *)
Definition strict_eq_str (f : field string) (s : string) : bool :=
  match f with
  | Val v => String.eqb v s
  | _ => false
  end.

(** [xs.filter(cb)] where the callback may throw: elements are visited in
    order and the first exception aborts the whole call. *)
Fixpoint filter {A} (cb : A -> result bool) (xs : list A) : result (list A) :=
  match xs with
  | [] => Ok []
  | x :: xs' =>
      keep <- cb x ;;
      rest <- filter cb xs' ;;
      Ok (if keep then x :: rest else rest)
  end.

End JS.

Import JS.

(* ================================================================== *)
(** * Numbers: IEEE 754 binary64 *)

Definition number : Type := spec_float.

Module Number.

Definition prec : Z := 53.
Definition emax : Z := 1024.

Definition zero : number := S754_zero false.
Definition nan : number := S754_nan.

(** The binary64 value nearest to an integer. *)
Definition of_Z (z : Z) : number := binary_normalize prec emax z 0 false.

Definition add : number -> number -> number := SFadd prec emax.
Definition sub : number -> number -> number := SFsub prec emax.
Definition div : number -> number -> number := SFdiv prec emax.

(** [x >= y] *)
Definition geb (x y : number) : bool := SFleb y x.

(** ToBoolean: [+0], [-0] and [NaN] are falsy. *)
Definition truthy (x : number) : bool :=
  match x with
  | S754_zero _ | S754_nan => false
  | _ => true
  end.

(** ToNumber of a numeric property: [undefined] is [NaN], [null] is [+0]. *)
Definition to_number (f : field number) : number :=
  match f with
  | Val x => x
  | Null => zero
  | Undefined => nan
  end.

(** [f || 0] *)
Definition or_zero (f : field number) : number :=
  match f with
  | Val x => if truthy x then x else zero
  | _ => zero
  end.

(** ** [Number.prototype.toFixed] *)

(** The integer [n] for which [n / 10^f - m * 2^e] is closest to zero, the
    larger one when two are equally close. *)
Definition round_scaled (m : positive) (e : Z) (f : nat) : Z :=
  let num := (Zpos m * 10 ^ Z.of_nat f)%Z in
  if (0 <=? e)%Z then (num * 2 ^ e)%Z
  else let den := (2 ^ (- e))%Z in ((2 * num + den) / (2 * den))%Z.

(** [m * 2^e >= 10^21] *)
Definition ge_1e21 (m : positive) (e : Z) : bool :=
  if (0 <=? e)%Z then (10 ^ 21 <=? Zpos m * 2 ^ e)%Z
  else (10 ^ 21 * 2 ^ (- e) <=? Zpos m)%Z.

Fixpoint zeros (n : nat) : string :=
  match n with
  | O => ""
  | S n' => String "0" (zeros n')
  end.

(** Steps 9.c-9.d of toFixed: left-pad the digits of [n] with zeros to
    [f + 1] characters and put the point before the last [f]. *)
Definition with_point (digits : string) (f : nat) : string :=
  let k := String.length digits in
  let padded := if (k <=? f)%nat then zeros (f + 1 - k) ++ digits else digits in
  let k' := String.length padded in
  if (f =? 0)%nat then padded
  else substring 0 (k' - f) padded ++ "." ++ substring (k' - f) f padded.

(** Number::toString for an integer [X >= 10^21] that is the binary64
    value [x]: the shortest digit string [s] of [k] digits and the exponent
    [n] with [s * 10^(n-k)] rounding to [x], written in exponent form. *)
Definition rounds_to (v : Z) (x : number) : bool :=
  match of_Z v, x with
  | S754_finite false m1 e1, S754_finite false m2 e2 =>
      Pos.eqb m1 m2 && Z.eqb e1 e2
  | _, _ => false
  end.

Definition shortest_at (X : Z) (x : number) (nd k : nat) : option (Z * nat) :=
  let p := (10 ^ Z.of_nat (nd - k))%Z in
  let lo := (X / p)%Z in
  let hi := (lo + 1)%Z in
  let pick (s : Z) :=
    if (s =? 10 ^ Z.of_nat k)%Z then Some (10 ^ Z.of_nat (k - 1), S nd)%Z
    else Some (s, nd) in
  match rounds_to (lo * p) x, rounds_to (hi * p) x with
  | true, true =>
      let dlo := (X - lo * p)%Z in
      let dhi := (hi * p - X)%Z in
      if (dlo <? dhi)%Z then pick lo
      else if (dhi <? dlo)%Z then pick hi
      else if Z.even lo then pick lo else pick hi
  | true, false => pick lo
  | false, true => pick hi
  | false, false => None
  end.

Fixpoint shortest_from (X : Z) (x : number) (nd k fuel : nat)
  : Z * nat * nat :=
  match shortest_at X x nd k with
  | Some (s, n) => (s, n, k)
  | None =>
      match fuel with
      | O => (X, nd, nd)
      | S fuel' => shortest_from X x nd (S k) fuel'
      end
  end.

Definition exponential_string (m : positive) (e : Z) : string :=
  let X := (Zpos m * 2 ^ e)%Z in
  let nd := String.length (string_of_Z X) in
  let '(s, n, k) := shortest_from X (S754_finite false m e) nd 1 nd in
  let digits := string_of_Z s in
  let mantissa :=
    if (k =? 1)%nat then digits
    else substring 0 1 digits ++ "." ++ substring 1 (k - 1) digits in
  mantissa ++ "e+" ++ string_of_Z (Z.of_nat n - 1).

Definition toFixed (x : number) (fractionDigits : nat) : string :=
  match x with
  | S754_nan => "NaN"
  | S754_infinity s => if s then "-Infinity" else "Infinity"
  | S754_zero _ => with_point "0" fractionDigits
  | S754_finite s m e =>
      (if s then "-" else "") ++
      (if ge_1e21 m e then exponential_string m e
       else with_point (string_of_Z (round_scaled m e fractionDigits))
                       fractionDigits)
  end.

(** ** [parseFloat] *)

(** WhiteSpace and LineTerminator code units below U+0100. *)
Definition is_white_space (c : ascii) : bool :=
  let n := nat_of_ascii c in
  ((9 <=? n) && (n <=? 13) || (n =? 32) || (n =? 160))%nat.

Fixpoint trim_start (s : string) : string :=
  match s with
  | String c s' => if is_white_space c then trim_start s' else s
  | EmptyString => s
  end.

Definition is_digit (c : ascii) : bool :=
  let n := nat_of_ascii c in ((48 <=? n) && (n <=? 57))%nat.

(** The longest run of decimal digits at the front, and what follows. *)
Fixpoint span_digits (s : string) : string * string :=
  match s with
  | String c s' =>
      if is_digit c then
        let '(ds, rest) := span_digits s' in (String c ds, rest)
      else ("", s)
  | EmptyString => ("", s)
  end.

(** The integer a digit string denotes, most significant digit first. *)
Fixpoint digits_value (acc : Z) (ds : string) : Z :=
  match ds with
  | String c ds' => digits_value (10 * acc + Z.of_nat (nat_of_ascii c - 48)) ds'
  | EmptyString => acc
  end.

(** ExponentPart, if one is there: [e] or [E], an optional sign and at
    least one digit.  Without a digit there is no exponent part. *)
Definition scan_exponent (s : string) : Z :=
  match s with
  | String c s' =>
      if Ascii.eqb c "e" || Ascii.eqb c "E" then
        let '(neg, s'') :=
          match s' with
          | String "-" r => (true, r)
          | String "+" r => (false, r)
          | _ => (false, s')
          end in
        match fst (span_digits s'') with
        | EmptyString => 0%Z
        | ds => if neg then (- digits_value 0 ds)%Z else digits_value 0 ds
        end
      else 0%Z
  | EmptyString => 0%Z
  end.

(** The longest prefix that is a StrUnsignedDecimalLiteral. *)
Inductive unsigned_literal : Type :=
| LitInfinity
| LitDecimal (int_part frac_part : string) (exponent : Z).

Definition scan_unsigned (s : string) : option unsigned_literal :=
  if startsWith s "Infinity" then Some LitInfinity
  else
    let '(a, r1) := span_digits s in
    let '(b, r2) :=
      match r1 with
      | String "." r => span_digits r
      | _ => ("", r1)
      end in
    match a, b with
    | EmptyString, EmptyString => None
    | _, _ => Some (LitDecimal a b (scan_exponent r2))
    end.

(** The binary64 value nearest to [M * 10^E], ties to even. *)
Definition decimal_value (neg : bool) (M E : Z) : number :=
  match M with
  | Zpos m =>
      if (0 <=? E)%Z then
        binary_round prec emax neg (Z.to_pos (Zpos m * 10 ^ E)) 0
      else
        let '(q, e, l) :=
          SFdiv_core_binary prec emax (Zpos m) 0 (10 ^ (- E))%Z 0 in
        binary_round_aux prec emax neg q e l
  | _ => S754_zero neg
  end.

Definition parseFloat (s : string) : number :=
  let t := trim_start s in
  let '(neg, u) :=
    match t with
    | String "-" r => (true, r)
    | String "+" r => (false, r)
    | _ => (false, t)
    end in
  match scan_unsigned u with
  | None => nan
  | Some LitInfinity => S754_infinity neg
  | Some (LitDecimal a b e) =>
      decimal_value neg (digits_value 0 (a ++ b))
                    (e - Z.of_nat (String.length b))
  end.

(** [parseFloat(v) || 0] *)
Definition parseFloat_or_zero (v : string) : number :=
  let x := parseFloat v in if truthy x then x else zero.

End Number.

(* ================================================================== *)
(** * Effects of event handlers *)

Module Effects.

Inductive method : Type := GET | POST | PUT | DELETE.

(** What an axios call rejects with: [err.response] is absent on a network
    failure; the body of an error response may carry an [error] string. *)
Record error_body : Type := { body_error : field string }.
Record error_response : Type := {
  resp_status : Z;
  resp_data : option error_body
}.
Record http_error : Type := { err_response : option error_response }.

Section Programs.
(** [Body]: what a request carries; [Data]: what [response.data] holds;
    [State]: the React state the program's setters act on. *)
Context {Body Data State : Type}.

Record request : Type := {
  req_method : method;
  req_url : string;
  req_body : option Body
}.

(** Settled promise of an [await api.*(...)]. *)
Inductive outcome : Type :=
| Resolved (data : Data)
| Rejected (err : http_error).

(** An async handler: a tree of the effects it performs, each followed by
    the rest of the handler. *)
Inductive prog (A : Type) : Type :=
| Ret (a : A)
| Confirm (message : string) (k : bool -> prog A)
| Alert (message : string) (k : prog A)
| ConsoleError (message : string) (k : prog A)
| Await (req : request) (k : outcome -> prog A)
| SetState (f : State -> State) (k : prog A).
Arguments Ret {A} a.
Arguments Confirm {A} message k.
Arguments Alert {A} message k.
Arguments ConsoleError {A} message k.
Arguments Await {A} req k.
Arguments SetState {A} f k.

Fixpoint pbind {A B} (p : prog A) (f : A -> prog B) : prog B :=
  match p with
  | Ret a => f a
  | Confirm m k => Confirm m (fun b => pbind (k b) f)
  | Alert m k => Alert m (pbind k f)
  | ConsoleError m k => ConsoleError m (pbind k f)
  | Await r k => Await r (fun o => pbind (k o) f)
  | SetState g k => SetState g (pbind k f)
  end.

Definition confirm (message : string) : prog bool := Confirm message Ret.
Definition alert (message : string) : prog unit := Alert message (Ret tt).
Definition console_error (message : string) : prog unit :=
  ConsoleError message (Ret tt).
Definition await (req : request) : prog outcome := Await req Ret.
Definition set_state (f : State -> State) : prog unit := SetState f (Ret tt).

(** The environment of a run: what the user answers to a confirm dialog
    and how the server settles a request. *)
Record world : Type := {
  user_confirms : string -> bool;
  server : request -> outcome
}.

(** What an observer of the page and of the network sees. *)
Inductive event : Type :=
| Asked (message : string) (answer : bool)
| Alerted (message : string)
| Logged (message : string)
| Called (req : request).

(** Run a handler to completion: its result, the final state and the
    events in the order they happened. *)
Fixpoint run {A} (w : world) (p : prog A) (st : State)
  : A * State * list event :=
  match p with
  | Ret a => (a, st, [])
  | Confirm m k =>
      let b := user_confirms w m in
      let '(a, st', tr) := run w (k b) st in (a, st', Asked m b :: tr)
  | Alert m k =>
      let '(a, st', tr) := run w k st in (a, st', Alerted m :: tr)
  | ConsoleError m k =>
      let '(a, st', tr) := run w k st in (a, st', Logged m :: tr)
  | Await r k =>
      let '(a, st', tr) := run w (k (server w r)) st in (a, st', Called r :: tr)
  | SetState f k => run w k (f st)
  end.

Definition final_state {A} (w : world) (p : prog A) (st : State) : State :=
  snd (fst (run w p st)).
Definition trace {A} (w : world) (p : prog A) (st : State) : list event :=
  snd (run w p st).

Definition is_call (e : event) : bool :=
  match e with Called _ => true | _ => false end.
Definition is_alert (e : event) : bool :=
  match e with Alerted _ => true | _ => false end.

End Programs.

Arguments Ret {Body Data State A} a.
Arguments Confirm {Body Data State A} message k.
Arguments Alert {Body Data State A} message k.
Arguments ConsoleError {Body Data State A} message k.
Arguments Await {Body Data State A} req k.
Arguments SetState {Body Data State A} f k.
Arguments request : clear implicits.
Arguments outcome : clear implicits.
Arguments prog : clear implicits.
Arguments world : clear implicits.
Arguments event : clear implicits.

Notation "x <~ p ;; k" := (pbind p (fun x => k))
  (at level 61, p at next level, right associativity).
Notation "p ;;; k" := (pbind p (fun _ => k))
  (at level 61, right associativity).

End Effects.

Import Effects.

(* ================================================================== *)
(** * Data model *)

Record document : Type := {
  doc_id : Z;
  doc_name : field string
}.

Record bid : Type := {
  bid_id : Z;
  bid_title : field string;
  bid_amount : field number
}.

Record change_order : Type := {
  co_id : Z;
  co_title : field string;
  co_amount : field number
}.

Record inspection : Type := {
  insp_id : Z;
  insp_title : field string;
  insp_status : field string
}.

(** A project row as the client reads it.  Scalar properties may be absent
    or [null]; the nested collections are arrays. *)
Record project : Type := {
  id : Z;
  name : field string;
  description : field string;
  budget : field number;
  actual_cost : field number;
  location : field string;
  status : field string;
  phase : field string;
  progress : field number;
  documents : list document;
  bids : list bid;
  change_orders : list change_order;
  inspections : list inspection
}.

(* ================================================================== *)
(** * useData: the resource fetch hook *)

Module UseData.

Section Hook.
Context {Row : Type}.

(** The three [useState] cells of the hook. *)
Record state : Type := {
  data : list Row;
  loading : bool;
  error : option string
}.

Definition initial : state :=
  {| data := []; loading := true; error := None |}.

Definition setData (f : list Row -> list Row) (st : state) : state :=
  {| data := f (data st); loading := loading st; error := error st |}.
Definition setLoading (b : bool) (st : state) : state :=
  {| data := data st; loading := b; error := error st |}.
Definition setError (e : option string) (st : state) : state :=
  {| data := data st; loading := loading st; error := e |}.

(** [err.response?.status === code] *)
Definition status_is (err : http_error) (code : Z) : bool :=
  match err_response err with
  | Some r => Z.eqb (resp_status r) code
  | None => false
  end.

(** [err.response?.data?.error] *)
Definition server_error (err : http_error) : field string :=
  match err_response err with
  | Some r =>
      match resp_data r with
      | Some b => body_error b
      | None => Undefined
      end
  | None => Undefined
  end.

(** The message the [catch] block stores. *)
Definition error_message (endpoint : string) (err : http_error) : string :=
  if status_is err 401 then
    "Authentication failed. Your session may have expired."
  else if status_is err 422 then
    "Invalid request format for " ++ endpoint ++ "."
  else
    "Failed to fetch " ++ endpoint ++ ". " ++
    or_else_str (server_error err) "Please try again.".

Definition get (endpoint : string) : request unit :=
  {| req_method := GET; req_url := endpoint; req_body := None |}.

(** [fetchData]: try / catch / finally around the one [api.get]. *)
Definition fetchData (endpoint : string) : prog unit (list Row) state unit :=
  set_state (setLoading true) ;;;
  r <~ await (get endpoint) ;;
  match r with
  | Resolved rows =>
      set_state (setData (fun _ => rows)) ;;;
      set_state (setError None)
  | Rejected err =>
      console_error ("Error fetching " ++ endpoint ++ ":") ;;;
      set_state (setError (Some (error_message endpoint err)))
  end ;;;
  set_state (setLoading false).

(** The effect run when [endpoint] changes.  [None] is [null]; like the
    empty string it is falsy, and then nothing is fetched. *)
Definition effect (endpoint : option string)
  : prog unit (list Row) state unit :=
  match endpoint with
  | Some (String c e) => fetchData (String c e)
  | _ => set_state (setLoading false)
  end.

End Hook.

Arguments state : clear implicits.

End UseData.

(* ================================================================== *)
(** * CrudView: the generic CRUD panel *)

Module CrudView.

Section Panel.
(** The panel is generic in the rows it lists and in the object the form
    edits; all it reads off a row is its [id]. *)
Context {Item Form : Type}.
Variable item_id : Item -> Z.
Variables title endpoint : string.

Record state : Type := {
  fetched : UseData.state Item;
  showForm : bool;
  editingItem : option Item;
  formData : Form
}.

Definition data (st : state) : list Item := UseData.data (fetched st).

Definition setData (f : list Item -> list Item) (st : state) : state :=
  {| fetched := UseData.setData f (fetched st);
     showForm := showForm st;
     editingItem := editingItem st;
     formData := formData st |}.

Definition setShowForm (b : bool) (st : state) : state :=
  {| fetched := fetched st;
     showForm := b;
     editingItem := editingItem st;
     formData := formData st |}.

Definition put (url : string) (body : Form) : request Form :=
  {| req_method := PUT; req_url := url; req_body := Some body |}.
Definition post (url : string) (body : Form) : request Form :=
  {| req_method := POST; req_url := url; req_body := Some body |}.
Definition delete (url : string) : request Form :=
  {| req_method := DELETE; req_url := url; req_body := None |}.

(** [prev.map(item => item.id === editingItem.id ? response.data : item)] *)
Definition replace_by_id (edited : Item) (response_data : Item)
    (prev : list Item) : list Item :=
  map (fun item =>
         if Z.eqb (item_id item) (item_id edited) then response_data else item)
      prev.

(** [prev.filter(item => item.id !== itemId)] *)
Definition remove_by_id (itemId : Z) (prev : list Item) : list Item :=
  List.filter (fun item => negb (Z.eqb (item_id item) itemId)) prev.

(** [handleSubmit], as rendered in state [st]: the closure reads
    [editingItem] and [formData] of that render. *)
Definition handleSubmit (st : state) : prog Form Item state unit :=
  match editingItem st with
  | Some edited =>
      r <~ await (put (endpoint ++ "/" ++ string_of_Z (item_id edited))
                      (formData st)) ;;
      match r with
      | Resolved response_data =>
          set_state (setData (replace_by_id edited response_data)) ;;;
          set_state (setShowForm false)
      | Rejected _ =>
          console_error ("Failed to save " ++ title ++ ":") ;;;
          alert ("Error: Could not save the " ++ slice_0_m1 title ++ ".")
      end
  | None =>
      r <~ await (post endpoint (formData st)) ;;
      match r with
      | Resolved response_data =>
          set_state (setData (fun prev => response_data :: prev)) ;;;
          set_state (setShowForm false)
      | Rejected _ =>
          console_error ("Failed to save " ++ title ++ ":") ;;;
          alert ("Error: Could not save the " ++ slice_0_m1 title ++ ".")
      end
  end.

Definition delete_prompt : string := "Are you sure you want to delete this item?".

(** [handleDelete] *)
Definition handleDelete (itemId : Z) : prog Form Item state unit :=
  confirmed <~ confirm delete_prompt ;;
  if confirmed : bool then
    r <~ await (delete (endpoint ++ "/" ++ string_of_Z itemId)) ;;
    match r with
    | Resolved _ => set_state (setData (remove_by_id itemId))
    | Rejected _ =>
        console_error ("Failed to delete " ++ title ++ ":") ;;;
        alert ("Error: Could not delete the " ++ slice_0_m1 title ++ ".")
    end
  else Ret tt.

End Panel.

Arguments state : clear implicits.

End CrudView.

(* ================================================================== *)
(** * ProjectsView: the projects panel *)

Module ProjectsView.

(** ** The create/edit form *)

(** The [budget] property of the form object: the text [''] of a blank
    form, or a number once the row or the input supplied one. *)
Inductive budget_value : Type :=
| BudgetText (s : string)
| BudgetNumber (x : number).

(** [projectFormData].  [form_row] is the row the form was opened on, whose
    remaining properties the object still carries. *)
Record form : Type := {
  form_name : field string;
  form_description : field string;
  form_budget : field budget_value;
  form_location : field string;
  form_status : field string;
  form_progress : field number;
  form_row : option project
}.

(** The properties of the object literal the form state starts from. *)
Inductive property : Type :=
| PName | PDescription | PBudget | PLocation | PStatus | PProgress.

Definition form_properties : list property :=
  [PName; PDescription; PBudget; PLocation; PStatus; PProgress].

Definition property_name (p : property) : string :=
  match p with
  | PName => "name"
  | PDescription => "description"
  | PBudget => "budget"
  | PLocation => "location"
  | PStatus => "status"
  | PProgress => "progress"
  end.

Definition blank_form : form :=
  {| form_name := Val "";
     form_description := Val "";
     form_budget := Val (BudgetText "");
     form_location := Val "";
     form_status := Val "planning";
     form_progress := Val Number.zero;
     form_row := None |}.

Definition lift_budget (b : field number) : field budget_value :=
  match b with
  | Val x => Val (BudgetNumber x)
  | Null => Null
  | Undefined => Undefined
  end.

(** [setProjectFormData(project)] *)
Definition form_of_project (p : project) : form :=
  {| form_name := name p;
     form_description := description p;
     form_budget := lift_budget (budget p);
     form_location := location p;
     form_status := status p;
     form_progress := progress p;
     form_row := Some p |}.

(** The [onChange] handlers, each [{...projectFormData, key: value}]. *)
Definition change_name (v : string) (f : form) : form :=
  {| form_name := Val v;
     form_description := form_description f;
     form_budget := form_budget f;
     form_location := form_location f;
     form_status := form_status f;
     form_progress := form_progress f;
     form_row := form_row f |}.

Definition change_description (v : string) (f : form) : form :=
  {| form_name := form_name f;
     form_description := Val v;
     form_budget := form_budget f;
     form_location := form_location f;
     form_status := form_status f;
     form_progress := form_progress f;
     form_row := form_row f |}.

Definition change_location (v : string) (f : form) : form :=
  {| form_name := form_name f;
     form_description := form_description f;
     form_budget := form_budget f;
     form_location := Val v;
     form_status := form_status f;
     form_progress := form_progress f;
     form_row := form_row f |}.

(** [budget: parseFloat(e.target.value) || 0] *)
Definition change_budget (v : string) (f : form) : form :=
  {| form_name := form_name f;
     form_description := form_description f;
     form_budget := Val (BudgetNumber (Number.parseFloat_or_zero v));
     form_location := form_location f;
     form_status := form_status f;
     form_progress := form_progress f;
     form_row := form_row f |}.

(** The controls the [<form>] renders, in document order. *)
Inductive control_kind : Type := InputText | TextArea | InputNumber.

Record control : Type := {
  kind : control_kind;
  placeholder : string;
  required : bool;
  bound : property;
  onChange : string -> form -> form
}.

Definition form_controls : list control :=
  [ {| kind := InputText; placeholder := "Project Name"; required := true;
       bound := PName; onChange := change_name |};
    {| kind := TextArea; placeholder := "Description"; required := false;
       bound := PDescription; onChange := change_description |};
    {| kind := InputText; placeholder := "Location"; required := false;
       bound := PLocation; onChange := change_location |};
    {| kind := InputNumber; placeholder := "Budget"; required := false;
       bound := PBudget; onChange := change_budget |} ].

(** ** State and handlers *)

(** [projects] is the collection the root component owns; the panel reaches
    it through [setProjects].  The rest is the panel's own [useState]. *)
Record state : Type := {
  projects : list project;
  searchTerm : string;
  filterStatus : string;
  showForm : bool;
  editingProject : option project;
  projectFormData : form
}.

Definition setProjects (f : list project -> list project) (st : state)
  : state :=
  {| projects := f (projects st);
     searchTerm := searchTerm st;
     filterStatus := filterStatus st;
     showForm := showForm st;
     editingProject := editingProject st;
     projectFormData := projectFormData st |}.

Definition setShowForm (b : bool) (st : state) : state :=
  {| projects := projects st;
     searchTerm := searchTerm st;
     filterStatus := filterStatus st;
     showForm := b;
     editingProject := editingProject st;
     projectFormData := projectFormData st |}.

Definition setProjectFormData (f : form) (st : state) : state :=
  {| projects := projects st;
     searchTerm := searchTerm st;
     filterStatus := filterStatus st;
     showForm := showForm st;
     editingProject := editingProject st;
     projectFormData := f |}.

Definition setEditingProject (p : option project) (st : state) : state :=
  {| projects := projects st;
     searchTerm := searchTerm st;
     filterStatus := filterStatus st;
     showForm := showForm st;
     editingProject := p;
     projectFormData := projectFormData st |}.

(** [openForm] *)
Definition openForm (p : option project) (st : state) : state :=
  match p with
  | Some row =>
      setShowForm true
        (setEditingProject (Some row)
           (setProjectFormData (form_of_project row) st))
  | None =>
      setShowForm true
        (setEditingProject None (setProjectFormData blank_form st))
  end.

Definition put (url : string) (body : form) : request form :=
  {| req_method := PUT; req_url := url; req_body := Some body |}.
Definition post (url : string) (body : form) : request form :=
  {| req_method := POST; req_url := url; req_body := Some body |}.
Definition delete (url : string) : request form :=
  {| req_method := DELETE; req_url := url; req_body := None |}.

(** [prev.map(p => p.id === editingProject.id ? response.data : p)] *)
Definition replace_by_id (edited response_data : project)
    (prev : list project) : list project :=
  map (fun p => if Z.eqb (id p) (id edited) then response_data else p) prev.

(** [prev.filter(p => p.id !== projectId)] *)
Definition remove_by_id (projectId : Z) (prev : list project)
  : list project :=
  List.filter (fun p => negb (Z.eqb (id p) projectId)) prev.

(** [handleFormSubmit], as rendered in state [st]. *)
Definition handleFormSubmit (st : state) : prog form project state unit :=
  match editingProject st with
  | Some edited =>
      r <~ await (put ("/projects/" ++ string_of_Z (id edited))
                      (projectFormData st)) ;;
      match r with
      | Resolved response_data =>
          set_state (setProjects (replace_by_id edited response_data)) ;;;
          set_state (setShowForm false)
      | Rejected _ =>
          console_error "Failed to save project:" ;;;
          alert "Error: Could not save the project."
      end
  | None =>
      r <~ await (post "/projects" (projectFormData st)) ;;
      match r with
      | Resolved response_data =>
          set_state (setProjects (fun prev => response_data :: prev)) ;;;
          set_state (setShowForm false)
      | Rejected _ =>
          console_error "Failed to save project:" ;;;
          alert "Error: Could not save the project."
      end
  end.

Definition delete_prompt : string :=
  "Are you sure you want to delete this project? This action cannot be undone.".

(** [handleDeleteProject] *)
Definition handleDeleteProject (projectId : Z)
  : prog form project state unit :=
  confirmed <~ confirm delete_prompt ;;
  if confirmed : bool then
    r <~ await (delete ("/projects/" ++ string_of_Z projectId)) ;;
    match r with
    | Resolved _ => set_state (setProjects (remove_by_id projectId))
    | Rejected _ =>
        console_error "Failed to delete project:" ;;;
        alert "Error: Could not delete the project."
    end
  else Ret tt.

(** ** The filter *)

(** [project.name.toLowerCase()]: reading a property off [undefined] or
    [null] throws. *)
Definition name_lower (p : project) : result string :=
  match name p with
  | Val n => Ok (toLowerCase n)
  | Undefined =>
      Throw (TypeError "Cannot read properties of undefined (reading 'toLowerCase')")
  | Null =>
      Throw (TypeError "Cannot read properties of null (reading 'toLowerCase')")
  end.

(** [project.location && project.location.toLowerCase().includes(t)] *)
Definition location_matches (t : string) (p : project) : bool :=
  if truthy_str (location p) then
    match location p with
    | Val l => includes (toLowerCase l) (toLowerCase t)
    | _ => false
    end
  else false.

(** The callback handed to [initialProjects.filter]. *)
Definition filter_callback (searchTerm filterStatus : string) (p : project)
  : result bool :=
  n <- name_lower p ;;
  let matchesSearch :=
    includes n (toLowerCase searchTerm) || location_matches searchTerm p in
  let matchesFilter :=
    String.eqb filterStatus "all" || strict_eq_str (status p) filterStatus in
  Ok (matchesSearch && matchesFilter).

(** [filteredProjects]; [initialProjects] is [None] when the prop is
    [null] or [undefined]. *)
Definition filteredProjects (initialProjects : option (list project))
    (searchTerm filterStatus : string) : result (list project) :=
  match initialProjects with
  | None => Ok []
  | Some ps => JS.filter (filter_callback searchTerm filterStatus) ps
  end.

End ProjectsView.

(* ================================================================== *)
(** * ProjectDetailView: the financial cues *)

Module ProjectDetailView.

Section Locale.
(** [Number.prototype.toLocaleString] depends on the browser's locale; the
    panel only prints its result. *)
Variable toLocaleString : number -> string.

(** [x.toLocaleString()] on a property that may be absent. *)
Definition locale_text (f : field number) : result string :=
  match f with
  | Val x => Ok (toLocaleString x)
  | Undefined =>
      Throw (TypeError "Cannot read properties of undefined (reading 'toLocaleString')")
  | Null =>
      Throw (TypeError "Cannot read properties of null (reading 'toLocaleString')")
  end.

(** [project.budget - project.actual_cost] *)
Definition variance (p : project) : number :=
  Number.sub (Number.to_number (budget p)) (Number.to_number (actual_cost p)).

(** [variance >= 0 ? 'text-green-600' : 'text-red-600'] *)
Definition variance_class (p : project) : string :=
  if Number.geb (variance p) Number.zero then "text-green-600"
  else "text-red-600".

(** The "Financial Summary" card of the summary tab. *)
Record financial_summary : Type := {
  budget_text : string;
  spent_text : string;
  variance_cue : string;
  variance_text : string
}.

Definition render_financial_summary (p : project)
  : result financial_summary :=
  b <- locale_text (budget p) ;;
  s <- locale_text (actual_cost p) ;;
  Ok {| budget_text := b;
        spent_text := s;
        variance_cue := variance_class p;
        variance_text := toLocaleString (variance p) |}.

(** [c.amount >= 0 ? '... border-green-500' : '... border-red-500'] *)
Definition change_order_class (c : change_order) : string :=
  if Number.geb (Number.to_number (co_amount c)) Number.zero
  then "border-l-4 border-green-500"
  else "border-l-4 border-red-500".

(** One row of the financials tab. *)
Record change_order_row : Type := {
  row_cue : string;
  row_title : field string;
  row_amount : string
}.

Definition render_change_order (c : change_order) : result change_order_row :=
  a <- locale_text (co_amount c) ;;
  Ok {| row_cue := change_order_class c;
        row_title := co_title c;
        row_amount := a |}.

(** [array.map(cb)] with a callback that may throw. *)
Fixpoint map_rows (cs : list change_order) : result (list change_order_row) :=
  match cs with
  | [] => Ok []
  | c :: cs' =>
      r <- render_change_order c ;;
      rs <- map_rows cs' ;;
      Ok (r :: rs)
  end.

(** The financials tab: the rows, or the empty-state message. *)
Inductive financials_tab : Type :=
| NoChangeOrders
| ChangeOrders (rows : list change_order_row).

Definition render_financials (p : project) : result financials_tab :=
  match change_orders p with
  | [] => Ok NoChangeOrders
  | cs => rows <- map_rows cs ;; Ok (ChangeOrders rows)
  end.

End Locale.

End ProjectDetailView.

(* ================================================================== *)
(** * DashboardView: the metric cards *)

Module DashboardView.

(** [projects.reduce((sum, p) => sum + (p.budget || 0), 0)] *)
Definition totalBudget (projects : list project) : number :=
  fold_left (fun sum p => Number.add sum (Number.or_zero (budget p)))
            projects Number.zero.

(** [projects.reduce((sum, p) => sum + (p.actual_cost || 0), 0)] *)
Definition actualCosts (projects : list project) : number :=
  fold_left (fun sum p => Number.add sum (Number.or_zero (actual_cost p)))
            projects Number.zero.

(** [$]{(total / 1000000).toFixed(1)}[M] *)
Definition in_millions (total : number) : string :=
  "$" ++ Number.toFixed (Number.div total (Number.of_Z 1000000)) 1 ++ "M".

Inductive view : Type :=
| LoadingMessage
| ErrorMessage (message : string)
| Overview (total_projects : nat) (total_budget total_spent : string).

Definition render (projects : list project) (loading : bool)
    (error : option string) : view :=
  if loading then LoadingMessage
  else
    match error with
    | Some (String c m) => ErrorMessage (String c m)
    | _ =>
        Overview (List.length projects)
                 (in_millions (totalBudget projects))
                 (in_millions (actualCosts projects))
    end.

End DashboardView.

(* ================================================================== *)
(** * App: the root controller *)

Module App.

Record state : Type := {
  isAuthenticated : bool;
  activeSection : string;
  selectedProjectId : option Z
}.

(** [!!localStorage.getItem('authToken')] *)
Definition has_token (authToken : option string) : bool :=
  match authToken with
  | Some (String _ _) => true
  | _ => false
  end.

Definition initial (authToken : option string) : state :=
  {| isAuthenticated := has_token authToken;
     activeSection := "dashboard";
     selectedProjectId := None |}.

(** [useData(isAuthenticated ? 'projects' : null)] *)
Definition projects_endpoint (st : state) : option string :=
  if isAuthenticated st then Some "projects" else None.

(** The fetch the root component's hook performs in state [st]. *)
Definition projects_fetch (st : state)
  : prog unit (list project) (UseData.state project) unit :=
  UseData.effect (projects_endpoint st).

Definition handleLogin (st : state) : state :=
  {| isAuthenticated := true;
     activeSection := activeSection st;
     selectedProjectId := selectedProjectId st |}.

(** [handleLogout] also removes the token from local storage. *)
Definition handleLogout (storage_and_state : option string * state)
  : option string * state :=
  (None,
   {| isAuthenticated := false;
      activeSection := activeSection (snd storage_and_state);
      selectedProjectId := None |}).

Definition onSectionChange (section : string) (st : state) : state :=
  {| isAuthenticated := isAuthenticated st;
     activeSection := section;
     selectedProjectId := None |}.

Definition setSelectedProjectId (sel : option Z) (st : state) : state :=
  {| isAuthenticated := isAuthenticated st;
     activeSection := activeSection st;
     selectedProjectId := sel |}.

(** A field descriptor handed to [CrudView]. *)
Record field_descriptor : Type := {
  field_name : string;
  field_placeholder : string;
  field_type : option string
}.

(** What the main area shows. *)
Inductive content : Type :=
| LoadingProjectDetails
| Detail (p : project)
| Dashboard (v : DashboardView.view)
| Projects (rows : list project) (loading : bool) (error : option string)
| Crud (title endpoint : string) (fields : list field_descriptor).

(** What the root component returns. *)
Inductive screen : Type :=
| LoginForm
| Layout (sidebar_active : string) (main : content).

(** A selected id is truthy unless it is [null] or [0]. *)
Definition selected (st : state) : option Z :=
  match selectedProjectId st with
  | Some 0%Z => None
  | sel => sel
  end.

Definition renderContent (st : state) (hook : UseData.state project)
  : content :=
  let projects := UseData.data hook in
  let dashboard :=
    Dashboard (DashboardView.render projects (UseData.loading hook)
                                    (UseData.error hook)) in
  match selected st with
  | Some sel =>
      match find (fun p => Z.eqb (id p) sel) projects with
      | Some p => Detail p
      | None => LoadingProjectDetails
      end
  | None =>
      if String.eqb (activeSection st) "dashboard" then dashboard
      else if String.eqb (activeSection st) "projects" then
        Projects projects (UseData.loading hook) (UseData.error hook)
      else if String.eqb (activeSection st) "documents" then
        Crud "Documents" "documents"
          [ {| field_name := "name"; field_placeholder := "Document Name";
               field_type := None |} ]
      else if String.eqb (activeSection st) "preconstruction" then
        Crud "Bids" "bids"
          [ {| field_name := "title"; field_placeholder := "Bid Title";
               field_type := None |};
            {| field_name := "amount"; field_placeholder := "Amount";
               field_type := Some "number" |} ]
      else if String.eqb (activeSection st) "financials" then
        Crud "Change Orders" "change_orders"
          [ {| field_name := "title"; field_placeholder := "Order Title";
               field_type := None |};
            {| field_name := "amount"; field_placeholder := "Amount";
               field_type := Some "number" |} ]
      else if String.eqb (activeSection st) "quality-safety" then
        Crud "Inspections" "inspections"
          [ {| field_name := "title"; field_placeholder := "Inspection Title";
               field_type := None |} ]
      else dashboard
  end.

(** The component function: the early return for a missing session comes
    before anything else is rendered. *)
Definition render (st : state) (hook : UseData.state project) : screen :=
  if negb (isAuthenticated st) then LoginForm
  else Layout (activeSection st) (renderContent st hook).

End App.

(* ================================================================== *)
(** * Sample data *)

Module Sample.

(** A row with the given scalar properties and no nested rows. *)
Definition row (i : Z) (n loc st : field string) (b c : field number)
  : project :=
  {| id := i; name := n; description := Val ""; budget := b;
     actual_cost := c; location := loc; status := st; phase := Null;
     progress := Val Number.zero; documents := []; bids := [];
     change_orders := []; inspections := [] |}.

Definition tower : project :=
  row 1 (Val "Harbor Tower") (Val "Mumbai") (Val "active")
      (Val (Number.of_Z 1500000)) (Val (Number.of_Z 700000)).

Definition bridge : project :=
  row 2 (Val "River Bridge") Null (Val "planning")
      (Val (Number.of_Z 1000000)) (Val (Number.of_Z 500000)).

Definition depot : project :=
  row 3 (Val "Depot") (Val "Harborside") (Val "active") Undefined Null.

(** A row the server sent without a name. *)
Definition nameless : project :=
  row 4 Undefined (Val "Pune") (Val "active") Null Null.

Definition portfolio : list project := [tower; bridge; depot].

(** The bridge project as the server echoes it after an edit. *)
Definition bridge_renamed : project :=
  row 2 (Val "River Bridge II") (Val "Kochi") (Val "active")
      (Val (Number.of_Z 1000000)) (Val (Number.of_Z 500000)).

(** A project the server has just created. *)
Definition quay : project :=
  row 9 (Val "Quay") (Val "") (Val "planning") (Val Number.zero) Null.

(** The panel with the edit form open on the bridge project. *)
Definition editing_bridge : ProjectsView.state :=
  {| ProjectsView.projects := portfolio;
     ProjectsView.searchTerm := "";
     ProjectsView.filterStatus := "all";
     ProjectsView.showForm := true;
     ProjectsView.editingProject := Some bridge;
     ProjectsView.projectFormData := ProjectsView.form_of_project bridge |}.

(** The panel with the blank create form open. *)
Definition creating : ProjectsView.state :=
  {| ProjectsView.projects := portfolio;
     ProjectsView.searchTerm := "";
     ProjectsView.filterStatus := "all";
     ProjectsView.showForm := true;
     ProjectsView.editingProject := None;
     ProjectsView.projectFormData := ProjectsView.blank_form |}.

Definition server_failure : http_error :=
  {| err_response :=
       Some {| resp_status := 500;
               resp_data := Some {| body_error := Val "Database unavailable" |} |} |}.

(** The answers of a server to [GET projects]. *)
Definition unauthorized : http_error :=
  {| err_response := Some {| resp_status := 401; resp_data := None |} |}.

Definition rejecting_fetch (err : http_error) : world unit (list project) :=
  {| user_confirms := fun _ => false; server := fun _ => Rejected err |}.

Definition serving (rows : list project) : world unit (list project) :=
  {| user_confirms := fun _ => false; server := fun _ => Resolved rows |}.

(** A project that has spent exactly its budget, with one change order of
    amount zero. *)
Definition on_budget : project :=
  {| id := 5; name := Val "Canal Lock"; description := Val "";
     budget := Val (Number.of_Z 800000);
     actual_cost := Val (Number.of_Z 800000);
     location := Val "Goa"; status := Val "active"; phase := Val "build";
     progress := Val (Number.of_Z 60); documents := []; bids := [];
     change_orders :=
       [ {| co_id := 1; co_title := Val "Rebaseline";
            co_amount := Val Number.zero |} ];
     inspections := [] |}.

(** A signed-out session that still remembers a section and a project. *)
Definition signed_out : App.state :=
  {| App.isAuthenticated := false;
     App.activeSection := "projects";
     App.selectedProjectId := Some 7%Z |}.

(** The user confirms and the server echoes [R]. *)
Definition accepting (R : project) : world ProjectsView.form project :=
  {| user_confirms := fun _ => true; server := fun _ => Resolved R |}.

(** The user confirms and the server answers with an error. *)
Definition refusing : world ProjectsView.form project :=
  {| user_confirms := fun _ => true;
     server := fun _ => Rejected server_failure |}.

(** The user cancels every confirm dialog. *)
Definition declining : world ProjectsView.form project :=
  {| user_confirms := fun _ => false; server := fun _ => Resolved quay |}.

End Sample.

(* ================================================================== *)
(** * Specification-level notions *)

Module Spec.

(** The project carries a name. *)
Definition has_name (p : project) : Prop := exists n, name p = Val n.

(** A number that is exactly zero, of either sign. *)
Definition is_zero (x : number) : Prop := exists s, x = S754_zero s.

(** A number strictly above zero. *)
Definition is_positive (x : number) : Prop :=
  SFltb Number.zero x = true.

End Spec.

Import Spec.

(* ================================================================== *)
(** * Whole amounts *)

Module Amounts.

(** The sum of a list of integers. *)
Definition total (zs : list Z) : Z := fold_right Z.add 0%Z zs.

(** The numeric property [f] holds the whole, non-negative amount [z]; an
    absent or null property stands for the amount 0. *)
Definition whole_amount (f : field number) (z : Z) : Prop :=
  (0 <= z)%Z /\
  (f = Val (Number.of_Z z) \/ (z = 0%Z /\ (f = Undefined \/ f = Null))).

(** [p * 2^n] *)
Definition shl (p : positive) (n : nat) : positive := Nat.iter n xO p.

End Amounts.

Import Amounts.

(* ================================================================== *)
(** * The grammar of decimal literals *)

Module Grammar.

(** StrDecimalLiteral, the syntax [parseFloat] looks for (ECMAScript,
    StringNumericLiteral grammar). *)
Inductive DecimalDigits : string -> Prop :=
| digits_one (c : ascii) :
    Number.is_digit c = true -> DecimalDigits (String c "")
| digits_more (c : ascii) (ds : string) :
    Number.is_digit c = true -> DecimalDigits ds ->
    DecimalDigits (String c ds).

Inductive SignedInteger : string -> Prop :=
| signed_plain (ds : string) : DecimalDigits ds -> SignedInteger ds
| signed_plus (ds : string) : DecimalDigits ds -> SignedInteger (String "+" ds)
| signed_minus (ds : string) :
    DecimalDigits ds -> SignedInteger (String "-" ds).

Inductive ExponentPart : string -> Prop :=
| exponent_lower (si : string) :
    SignedInteger si -> ExponentPart (String "e" si)
| exponent_upper (si : string) :
    SignedInteger si -> ExponentPart (String "E" si).

(** An optional part: absent, or of the given form. *)
Definition opt (P : string -> Prop) (s : string) : Prop := s = "" \/ P s.

Inductive StrUnsignedDecimalLiteral : string -> Prop :=
| unsigned_infinity : StrUnsignedDecimalLiteral "Infinity"
| unsigned_int_frac (a b x : string) :
    DecimalDigits a -> opt DecimalDigits b -> opt ExponentPart x ->
    StrUnsignedDecimalLiteral (a ++ "." ++ b ++ x)
| unsigned_frac (b x : string) :
    DecimalDigits b -> opt ExponentPart x ->
    StrUnsignedDecimalLiteral ("." ++ b ++ x)
| unsigned_int (a x : string) :
    DecimalDigits a -> opt ExponentPart x ->
    StrUnsignedDecimalLiteral (a ++ x).

Inductive StrDecimalLiteral : string -> Prop :=
| literal_unsigned (u : string) :
    StrUnsignedDecimalLiteral u -> StrDecimalLiteral u
| literal_plus (u : string) :
    StrUnsignedDecimalLiteral u -> StrDecimalLiteral (String "+" u)
| literal_minus (u : string) :
    StrUnsignedDecimalLiteral u -> StrDecimalLiteral (String "-" u).

(** Leading white space apart, the text begins with a decimal literal. *)
Definition has_numeric_prefix (v : string) : Prop :=
  exists lit rest,
    Number.trim_start v = lit ++ rest /\ StrDecimalLiteral lit.

End Grammar.

Import Grammar.

(* ================================================================== *)
(** * Using the project form *)

Module ProjectsFlow.

(** The sign [parseFloat] strips off the trimmed text, and the text it
    goes on to scan. *)
Definition split_sign (t : string) : bool * string :=
  match t with
  | String "-" r => (true, r)
  | String "+" r => (false, r)
  | _ => (false, t)
  end.

(** The user changes the value of one control of the open form: the
    control's [onChange] runs on the current form object. *)
Definition typing (edit : ProjectsView.control * string)
    (st : ProjectsView.state) : ProjectsView.state :=
  ProjectsView.setProjectFormData
    (ProjectsView.onChange (fst edit) (snd edit)
       (ProjectsView.projectFormData st))
    st.

(** A sequence of such changes, first to last. *)
Definition typing_all (edits : list (ProjectsView.control * string))
    (st : ProjectsView.state) : ProjectsView.state :=
  fold_left (fun s e => typing e s) edits st.

(** Every change goes through a control the form renders. *)
Definition through_the_form (edits : list (ProjectsView.control * string))
  : Prop :=
  Forall (fun e => In (fst e) ProjectsView.form_controls) edits.

End ProjectsFlow.

Import ProjectsFlow.

(* ================================================================== *)
(** * The axios instance: the request interceptor *)

Module Api.

(** The [Authorization] header the interceptor attaches, given what
    [localStorage.getItem('authToken')] returns ([None] is [null]). *)
Definition authorization (authToken : option string) : option string :=
  match authToken with
  | Some (String c t) => Some ("Bearer " ++ String c t)
  | _ => None
  end.

End Api.

(* ================================================================== *)
(** * LoginForm: sign-in and sign-up *)

Module LoginForm.

(** The [useState] cells of the form. *)
Record state : Type := {
  isSignUp : bool;
  email : string;
  password : string;
  fullName : string;
  error : string;
  loading : bool
}.

Definition initial : state :=
  {| isSignUp := false; email := ""; password := ""; fullName := "";
     error := ""; loading := false |}.

(** What the form posts. *)
Inductive payload : Type :=
| Registration (email password full_name : string)
| Credentials (email password : string).

(** [response.data] of the two endpoints; only [access_token] is read. *)
Record response_data : Type := { access_token : field string }.

(** What [handleSubmit] acts on: the form's own state, the [authToken]
    entry of local storage, and the state of the root component, which
    the [onLogin] prop reaches. *)
Record context : Type := {
  form : state;
  authToken : option string;
  app : App.state
}.

Definition on_form (f : state -> state) (c : context) : context :=
  {| form := f (form c); authToken := authToken c; app := app c |}.

Definition setLoading (b : bool) (s : state) : state :=
  {| isSignUp := isSignUp s; email := email s; password := password s;
     fullName := fullName s; error := error s; loading := b |}.
Definition setError (e : string) (s : state) : state :=
  {| isSignUp := isSignUp s; email := email s; password := password s;
     fullName := fullName s; error := e; loading := loading s |}.
Definition setIsSignUp (b : bool) (s : state) : state :=
  {| isSignUp := b; email := email s; password := password s;
     fullName := fullName s; error := error s; loading := loading s |}.
Definition setPassword (p : string) (s : state) : state :=
  {| isSignUp := isSignUp s; email := email s; password := p;
     fullName := fullName s; error := error s; loading := loading s |}.
Definition setEmail (e : string) (s : state) : state :=
  {| isSignUp := isSignUp s; email := e; password := password s;
     fullName := fullName s; error := error s; loading := loading s |}.
Definition setFullName (n : string) (s : state) : state :=
  {| isSignUp := isSignUp s; email := email s; password := password s;
     fullName := n; error := error s; loading := loading s |}.

(** [localStorage.setItem('authToken', v)]: the value is stored as a
    string, [undefined] and [null] as their names. *)
Definition stored_text (v : field string) : string :=
  match v with
  | Val s => s
  | Undefined => "undefined"
  | Null => "null"
  end.

Definition setItem (v : field string) (c : context) : context :=
  {| form := form c; authToken := Some (stored_text v); app := app c |}.

(** [onLogin()], which the root component binds to [handleLogin]. *)
Definition onLogin (c : context) : context :=
  {| form := form c; authToken := authToken c;
     app := App.handleLogin (app c) |}.

(** [err.response?.data?.error] *)
Definition server_error (err : http_error) : field string :=
  match err_response err with
  | Some r =>
      match resp_data r with
      | Some b => body_error b
      | None => Undefined
      end
  | None => Undefined
  end.

Definition post (endpoint : string) (body : payload) : request payload :=
  {| req_method := POST; req_url := endpoint; req_body := Some body |}.

(** The request of a submission rendered in state [s]. *)
Definition submission (s : state) : request payload :=
  if isSignUp s
  then post "register" (Registration (email s) (password s) (fullName s))
  else post "login" (Credentials (email s) (password s)).

(** [handleSubmit], as rendered in context [c]: try / catch / finally
    around the one [api.post]. *)
Definition handleSubmit (c : context)
  : prog payload response_data context unit :=
  set_state (on_form (setLoading true)) ;;;
  set_state (on_form (setError "")) ;;;
  r <~ await (submission (form c)) ;;
  match r with
  | Resolved data =>
      if isSignUp (form c) then
        alert "Registration successful! Please log in." ;;;
        set_state (on_form (setIsSignUp false)) ;;;
        set_state (on_form (setPassword ""))
      else
        set_state (setItem (access_token data)) ;;;
        set_state onLogin
  | Rejected err =>
      set_state
        (on_form
           (setError (or_else_str (server_error err)
                                  "An unexpected error occurred.")))
  end ;;;
  set_state (on_form (setLoading false)).

(** The link under the form: [setIsSignUp(!isSignUp); setError('')]. *)
Definition toggle (s : state) : state :=
  setError "" (setIsSignUp (negb (isSignUp s)) s).

(** The text of the submit button. *)
Definition submit_label (s : state) : string :=
  if loading s then "Processing..."
  else if isSignUp s then "Create Account" else "Sign In".

End LoginForm.

(* ================================================================== *)
(** * Sidebar: the navigation menu *)

Module Sidebar.

Record nav_item : Type := {
  nav_id : string;
  label : string;
  icon : string
}.

Definition navItems : list nav_item :=
  [ {| nav_id := "dashboard"; label := "Dashboard"; icon := "home" |};
    {| nav_id := "projects"; label := "Projects"; icon := "folder-open" |};
    {| nav_id := "documents"; label := "Documents"; icon := "file-text" |};
    {| nav_id := "preconstruction"; label := "Preconstruction";
       icon := "hammer" |};
    {| nav_id := "financials"; label := "Financials";
       icon := "dollar-sign" |};
    {| nav_id := "quality-safety"; label := "Quality & Safety";
       icon := "shield" |} ].

(** [activeSection === item.id] decides the button's colours. *)
Definition is_active (activeSection : string) (item : nav_item) : bool :=
  String.eqb activeSection (nav_id item).

Definition button_class (activeSection : string) (item : nav_item)
  : string :=
  if is_active activeSection item then "bg-blue-600 text-white"
  else "text-slate-300 hover:bg-slate-800 hover:text-white".

End Sidebar.

(* ================================================================== *)
(** * A browser session *)

Module Session.

(** The root component's state together with the [authToken] entry of
    local storage. *)
Record session : Type := {
  storage : option string;
  root : App.state
}.

(** The page as first loaded with the given storage. *)
Definition start (authToken : option string) : session :=
  {| storage := authToken; root := App.initial authToken |}.

(** What the user can do next. *)
Inductive action : Type :=
| SignIn (token : field string)         (* a sign-in the server accepts *)
| Logout                                (* the sidebar's logout button *)
| Navigate (item : Sidebar.nav_item)    (* a sidebar entry *)
| ViewDetails (project_id : Z)          (* "View Details" on a card *)
| Back.                                 (* "Back to All Projects" *)

(** The controls on screen: the login form when signed out, the sidebar
    and the main area otherwise. *)
Definition enabled (s : session) (a : action) : bool :=
  match a with
  | SignIn _ => negb (App.isAuthenticated (root s))
  | Logout => App.isAuthenticated (root s)
  | Navigate item =>
      App.isAuthenticated (root s)
      && existsb (fun i => String.eqb (Sidebar.nav_id i) (Sidebar.nav_id item))
                 Sidebar.navItems
  | ViewDetails _ =>
      App.isAuthenticated (root s)
      && String.eqb (App.activeSection (root s)) "projects"
      && match App.selected (root s) with None => true | Some _ => false end
  | Back =>
      App.isAuthenticated (root s)
      && match App.selected (root s) with None => false | Some _ => true end
  end.

(** The effect of an action on the session. *)
Definition perform (a : action) (s : session) : session :=
  match a with
  | SignIn token =>
      {| storage := Some (LoginForm.stored_text token);
         root := App.handleLogin (root s) |}
  | Logout =>
      {| storage := fst (App.handleLogout (storage s, root s));
         root := snd (App.handleLogout (storage s, root s)) |}
  | Navigate item =>
      {| storage := storage s;
         root := App.onSectionChange (Sidebar.nav_id item) (root s) |}
  | ViewDetails project_id =>
      {| storage := storage s;
         root := App.setSelectedProjectId (Some project_id) (root s) |}
  | Back =>
      {| storage := storage s;
         root := App.setSelectedProjectId None (root s) |}
  end.

(** An action does nothing when its control is not on screen. *)
Definition step (s : session) (a : action) : session :=
  if enabled s a then perform a s else s.

Definition play (actions : list action) (s : session) : session :=
  fold_left step actions s.

(** What every reachable session satisfies. *)
Definition session_ok (s : session) : Prop :=
  (exists item,
     In item Sidebar.navItems /\
     App.activeSection (root s) = Sidebar.nav_id item) /\
  (App.isAuthenticated (root s) = false ->
   App.selectedProjectId (root s) = None /\
   Api.authorization (storage s) = None).

End Session.

(* ================================================================== *)
(** * ProjectDetailView: the tabs *)

Module DetailTabs.

(** [activeTab] starts as ['summary']. *)
Definition initial : string := "summary".

(** [<TabButton id label count />] as it renders: highlighted when
    [activeTab === id]. *)
Record tab_button : Type := {
  tb_id : string;
  tb_label : string;
  tb_count : nat;
  tb_active : bool
}.

Definition TabButton (activeTab id label : string) (count : nat)
  : tab_button :=
  {| tb_id := id; tb_label := label; tb_count := count;
     tb_active := String.eqb activeTab id |}.

(** The tab bar. *)
Definition tab_buttons (activeTab : string) (p : project) : list tab_button :=
  [ TabButton activeTab "summary" "Summary" 3;
    TabButton activeTab "documents" "Documents" (List.length (documents p));
    TabButton activeTab "bids" "Bids" (List.length (bids p));
    TabButton activeTab "financials" "Financials"
              (List.length (change_orders p));
    TabButton activeTab "inspections" "Inspections"
              (List.length (inspections p)) ].

(** [onClick={() => setActiveTab(id)}] *)
Definition click (b : tab_button) (activeTab : string) : string := tb_id b.

(** The tabs a user can get to: the initial one, and the one of any button
    of the tab bar. *)
Inductive reachable (p : project) : string -> Prop :=
| reach_initial : reachable p initial
| reach_click (activeTab : string) (b : tab_button) :
    reachable p activeTab ->
    In b (tab_buttons activeTab p) ->
    reachable p (click b activeTab).

(** A property that is absent or [null]. *)
Definition is_missing {A : Type} (f : field A) : bool :=
  match f with
  | Val _ => false
  | _ => true
  end.

Section Locale.
Variable toLocaleString : number -> string.

(** [array.map(cb)] with a callback that may throw. *)
Fixpoint map_result {A B : Type} (cb : A -> result B) (l : list A)
  : result (list B) :=
  match l with
  | [] => Ok []
  | x :: l' =>
      r <- cb x ;;
      rs <- map_result cb l' ;;
      Ok (r :: rs)
  end.

Record document_row : Type := {
  dr_key : Z;
  dr_name : field string
}.

Record bid_row : Type := {
  br_key : Z;
  br_title : field string;
  br_amount : string
}.

Record inspection_row : Type := {
  ir_key : Z;
  ir_title : field string;
  ir_status : field string
}.

Record summary : Type := {
  sum_description : field string;
  sum_location : field string;
  sum_status : field string;
  sum_phase : field string;
  sum_financial : ProjectDetailView.financial_summary
}.

Definition render_document (d : document) : document_row :=
  {| dr_key := doc_id d; dr_name := doc_name d |}.

Definition render_bid (b : bid) : result bid_row :=
  a <- ProjectDetailView.locale_text toLocaleString (bid_amount b) ;;
  Ok {| br_key := bid_id b; br_title := bid_title b; br_amount := a |}.

Definition render_inspection (i : inspection) : inspection_row :=
  {| ir_key := insp_id i; ir_title := insp_title i;
     ir_status := insp_status i |}.

(** What the area below the tab bar shows. *)
Inductive pane : Type :=
| EmptyState (message : string)
| DocumentRows (rows : list document_row)
| BidRows (rows : list bid_row)
| ChangeOrderRows (rows : list ProjectDetailView.change_order_row)
| InspectionRows (rows : list inspection_row)
| Summary (s : summary).

(** [renderTabContent]: a [switch] on [activeTab] whose default is the
    summary. *)
Definition renderTabContent (activeTab : string) (p : project)
  : result pane :=
  if String.eqb activeTab "documents" then
    match documents p with
    | [] => Ok (EmptyState "No documents for this project.")
    | ds => Ok (DocumentRows (map render_document ds))
    end
  else if String.eqb activeTab "bids" then
    match bids p with
    | [] => Ok (EmptyState "No bids for this project.")
    | bs => rows <- map_result render_bid bs ;; Ok (BidRows rows)
    end
  else if String.eqb activeTab "financials" then
    t <- ProjectDetailView.render_financials toLocaleString p ;;
    match t with
    | ProjectDetailView.NoChangeOrders =>
        Ok (EmptyState "No change orders for this project.")
    | ProjectDetailView.ChangeOrders rows => Ok (ChangeOrderRows rows)
    end
  else if String.eqb activeTab "inspections" then
    match inspections p with
    | [] => Ok (EmptyState "No inspections for this project.")
    | rows => Ok (InspectionRows (map render_inspection rows))
    end
  else
    f <- ProjectDetailView.render_financial_summary toLocaleString p ;;
    Ok (Summary {| sum_description := description p;
                   sum_location := location p;
                   sum_status := status p;
                   sum_phase := phase p;
                   sum_financial := f |}).

(** What the component returns: the header, the tab bar and the pane. *)
Record panel : Type := {
  heading : field string;
  progress_shown : field number;
  tabs : list tab_button;
  shown : pane
}.

Definition render (activeTab : string) (p : project) : result panel :=
  content <- renderTabContent activeTab p ;;
  Ok {| heading := name p;
        progress_shown := progress p;
        tabs := tab_buttons activeTab p;
        shown := content |}.

(** The number of rows a pane lists. *)
Definition rows_shown (c : pane) : option nat :=
  match c with
  | EmptyState _ => Some 0%nat
  | DocumentRows rows => Some (List.length rows)
  | BidRows rows => Some (List.length rows)
  | ChangeOrderRows rows => Some (List.length rows)
  | InspectionRows rows => Some (List.length rows)
  | Summary _ => None
  end.

End Locale.

End DetailTabs.

(* ================================================================== *)
(** * ProjectsView: what the panel renders *)

Module ProjectCards.

(** [getStatusColor]: a [switch] with strict comparison; an absent or
    [null] status takes the [default]. *)
Definition getStatusColor (status : field string) : string :=
  if strict_eq_str status "active" then "bg-green-100 text-green-800"
  else if strict_eq_str status "planning" then "bg-blue-100 text-blue-800"
  else if strict_eq_str status "on_hold" then "bg-yellow-100 text-yellow-800"
  else if strict_eq_str status "completed" then "bg-slate-100 text-slate-800"
  else "bg-slate-100 text-slate-800".

(** [s.replace('_', ' ')]: a string pattern replaces the first occurrence
    only. *)
Fixpoint replace_underscore (s : string) : string :=
  match s with
  | EmptyString => EmptyString
  | String c s' =>
      if Ascii.eqb c "_"%char then String " "%char s'
      else String c (replace_underscore s')
  end.

(** [project.status.replace('_', ' ')] *)
Definition status_text (status : field string) : result string :=
  match status with
  | Val s => Ok (replace_underscore s)
  | Undefined =>
      Throw (TypeError "Cannot read properties of undefined (reading 'replace')")
  | Null =>
      Throw (TypeError "Cannot read properties of null (reading 'replace')")
  end.

(** The options of the status [<select>]: value and label. *)
Definition status_options : list (string * string) :=
  [ ("all", "All Statuses"); ("planning", "Planning");
    ("active", "Active"); ("completed", "Completed") ].

Section Locale.
Variable toLocaleString : number -> string.

(** One card of the grid.  [card_key] is the id the View Details and
    Delete buttons pass on, [card_project] the row the Edit button hands
    to [openForm]. *)
Record card : Type := {
  card_key : Z;
  card_title : field string;
  badge_class : string;
  badge_text : string;
  card_location : field string;
  card_budget : string;
  card_progress : field number;
  card_project : project
}.

Definition render_card (p : project) : result card :=
  let cls := getStatusColor (status p) in
  txt <- status_text (status p) ;;
  b <- ProjectDetailView.locale_text toLocaleString (budget p) ;;
  Ok {| card_key := id p;
        card_title := name p;
        badge_class := cls;
        badge_text := txt;
        card_location := location p;
        card_budget := b;
        card_progress := progress p;
        card_project := p |}.

(** The modal form. *)
Record form_view : Type := {
  form_title : string;
  controls : list ProjectsView.control;
  submit_label : string
}.

Definition render_form (st : ProjectsView.state) : option form_view :=
  if ProjectsView.showForm st then
    Some {| form_title :=
              match ProjectsView.editingProject st with
              | Some _ => "Edit Project"
              | None => "Create New Project"
              end;
            controls := ProjectsView.form_controls;
            submit_label :=
              match ProjectsView.editingProject st with
              | Some _ => "Save Changes"
              | None => "Create Project"
              end |}
  else None.

Inductive view : Type :=
| LoadingMessage
| ErrorMessage (message : string)
| Panel (form : option form_view) (cards : list card)
        (no_match_notice : bool).

(** The component function.  The filter is computed first; the two early
    returns follow; the cards are rendered last. *)
Definition render (st : ProjectsView.state) (loading : bool)
    (error : option string) : result view :=
  filteredProjects <-
    ProjectsView.filteredProjects (Some (ProjectsView.projects st))
      (ProjectsView.searchTerm st) (ProjectsView.filterStatus st) ;;
  if loading then Ok LoadingMessage
  else
    match error with
    | Some (String c m) => Ok (ErrorMessage (String c m))
    | _ =>
        cards <- DetailTabs.map_result render_card filteredProjects ;;
        Ok (Panel (render_form st) cards
                  (Nat.eqb (List.length filteredProjects) 0))
    end.

(** The cards of a view. *)
Definition cards_of (v : view) : list card :=
  match v with
  | Panel _ cards _ => cards
  | _ => []
  end.

End Locale.

(** [onClick={() => onSelectProject(project.id)}], where the root
    component passes [setSelectedProjectId]. *)
Definition view_details (key : Z) (app : App.state) : App.state :=
  App.setSelectedProjectId (Some key) app.

End ProjectCards.

(* ================================================================== *)
(** * CrudView: the form and the list *)

Module CrudPanel.

(** A property value of a row or of the form object.  The panel copies
    these around and tests them for truthiness and for [null]. *)
Inductive value : Type :=
| VStr (s : string)
| VNum (x : number)
| VBool (b : bool)
| VNull.

(** An object used as a record of own properties; a name that is not set
    reads as [undefined]. *)
Definition obj : Type := string -> option value.

Definition empty_obj : obj := fun _ => None.

(** [{...o, [k]: v}], and [o.k = v] on an object literal. *)
Definition set_prop (k : string) (v : value) (o : obj) : obj :=
  fun x => if String.eqb x k then Some v else o x.

(** JavaScript truthiness of a property read. *)
Definition truthy (v : option value) : bool :=
  match v with
  | Some (VStr s) => truthy_str (Val s)
  | Some (VNum x) => Number.truthy x
  | Some (VBool b) => b
  | Some VNull => false
  | None => false
  end.

(** [v != null]: neither [null] nor [undefined]. *)
Definition not_nullish (v : option value) : bool :=
  match v with
  | Some VNull => false
  | None => false
  | Some _ => true
  end.

(** The select for the project, or an input for one field. *)
Inductive control : Type :=
| Input (name type placeholder : string)
| ProjectSelect (options : list (string * field string)).

(** The property a control writes. *)
Definition control_key (c : control) : string :=
  match c with
  | Input name _ _ => name
  | ProjectSelect _ => "project_id"
  end.

(** [onChange]: [setFormData({...formData, [key]: e.target.value})]. *)
Definition onChange (c : control) (text : string) (formData : obj) : obj :=
  set_prop (control_key c) (VStr text) formData.

Section Panel.
Context {Item : Type}.
Variable item_id : Item -> Z.
(** The own properties of a row object. *)
Variable properties : Item -> obj.
Variable toLocaleString : number -> string.
Variables title endpoint : string.
Variable fields : list App.field_descriptor.
(** The [projects] prop: an array when the root component passes it. *)
Variable projects : option (list project).

(** [fields.reduce((acc, field) => ({ ...acc, [field.name]: '' }), {})],
    then [if (projects) initialData.project_id = '']. *)
Definition initialData : obj :=
  let reduced :=
    fold_left (fun acc field => set_prop (App.field_name field) (VStr "") acc)
              fields empty_obj in
  match projects with
  | Some _ => set_prop "project_id" (VStr "") reduced
  | None => reduced
  end.

(** [openForm(item = null)] *)
Definition openForm (item : option Item) (st : CrudView.state Item obj)
  : CrudView.state Item obj :=
  {| CrudView.fetched := CrudView.fetched st;
     CrudView.showForm := true;
     CrudView.editingItem := item;
     CrudView.formData :=
       match item with
       | Some i => properties i
       | None => initialData
       end |}.

Definition setFormData (f : obj) (st : CrudView.state Item obj)
  : CrudView.state Item obj :=
  {| CrudView.fetched := CrudView.fetched st;
     CrudView.showForm := CrudView.showForm st;
     CrudView.editingItem := CrudView.editingItem st;
     CrudView.formData := f |}.

(** [type={field.type || 'text'}] *)
Definition input_type (field : App.field_descriptor) : string :=
  match App.field_type field with
  | Some (String c t) => String c t
  | _ => "text"
  end.

(** The controls of the form: one input per field, then the project
    select when [projects] is given. *)
Definition form_controls : list control :=
  (map (fun field =>
          Input (App.field_name field) (input_type field)
                (App.field_placeholder field))
       fields
   ++ match projects with
      | Some ps =>
          [ ProjectSelect
              (("", Val "-- Select a Project --")
               :: map (fun p => (string_of_Z (id p), name p)) ps) ]
      | None => []
      end)%list.

(** The user changes the value of one control of the open form. *)
Definition typing (edit : control * string) (st : CrudView.state Item obj)
  : CrudView.state Item obj :=
  setFormData (onChange (fst edit) (snd edit) (CrudView.formData st)) st.

Definition typing_all (edits : list (control * string))
    (st : CrudView.state Item obj) : CrudView.state Item obj :=
  fold_left (fun s e => typing e s) edits st.

(** Every change goes through a control the form renders. *)
Definition through_the_form (edits : list (control * string)) : Prop :=
  Forall (fun e => In (fst e) form_controls) edits.

(** The text last given to a control writing property [k], if any. *)
Definition last_typed (k : string) (edits : list (control * string))
  : option string :=
  fold_left (fun acc e =>
               if String.eqb k (control_key (fst e)) then Some (snd e)
               else acc)
            edits None.

(** ** The list *)

(** [x.toLocaleString()] on a property read. *)
Definition locale_text (v : option value) : result string :=
  match v with
  | Some (VNum x) => Ok (toLocaleString x)
  | Some (VStr s) => Ok s
  | Some (VBool true) => Ok "true"
  | Some (VBool false) => Ok "false"
  | Some VNull =>
      Throw (TypeError "Cannot read properties of null (reading 'toLocaleString')")
  | None =>
      Throw (TypeError "Cannot read properties of undefined (reading 'toLocaleString')")
  end.

(** [a && <p>...</p>]: the falsy value itself, or the paragraph. *)
Inductive guarded (A : Type) : Type :=
| Bare (v : option value)
| Shown (a : A).

Record row : Type := {
  row_key : Z;
  row_heading : option value;
  row_status : guarded value;
  row_amount : option string
}.

Definition render_row (item : Item) : result row :=
  let o := properties item in
  let heading := if truthy (o "title") then o "title" else o "name" in
  let status_line :=
    match o "status" with
    | Some v => if truthy (Some v) then Shown value v else Bare value (Some v)
    | None => Bare value None
    end in
  amount_line <-
    (if not_nullish (o "amount") then
       a <- locale_text (o "amount") ;; Ok (Some a)
     else Ok None) ;;
  Ok {| row_key := item_id item;
        row_heading := heading;
        row_status := status_line;
        row_amount := amount_line |}.

Record form_view : Type := {
  form_title : string;
  controls : list control
}.

Inductive view : Type :=
| LoadingMessage (text : string)
| ErrorMessage (message : string)
| Panel (heading new_label : string) (form : option form_view)
        (rows : list row) (empty_notice : option string).

Definition render (st : CrudView.state Item obj) : result view :=
  if UseData.loading (CrudView.fetched st) then
    Ok (LoadingMessage ("Loading " ++ title ++ "..."))
  else
    match UseData.error (CrudView.fetched st) with
    | Some (String c m) => Ok (ErrorMessage (String c m))
    | _ =>
        rows <- DetailTabs.map_result render_row (CrudView.data st) ;;
        Ok (Panel title ("New " ++ slice_0_m1 title)
              (if CrudView.showForm st then
                 Some {| form_title :=
                           match CrudView.editingItem st with
                           | Some _ => "Edit " ++ slice_0_m1 title
                           | None => "New " ++ slice_0_m1 title
                           end;
                         controls := form_controls |}
               else None)
              rows
              (if Nat.eqb (List.length (CrudView.data st)) 0
               then Some ("No " ++ toLowerCase title ++ " found.")
               else None))
    end.

End Panel.

Arguments Bare {A} v.
Arguments Shown {A} a.

End CrudPanel.

(* ================================================================== *)
(** * DashboardView: the data of the two charts *)

Module StatusChart.

(** What a property of the accumulator holds: a count, or the text that
    [+ 1] makes of anything that is not a number. *)
Inductive entry : Type :=
| Count (n : number)
| Text (s : string).

(** The accumulator: the own properties of a plain object, in the order
    [Object.keys] and [Object.values] report them. *)
Definition counts : Type := list (string * entry).

(** A property name that is an array index: the canonical decimal text
    of an integer from 0 to 2^32 - 2. *)
Definition array_index (k : string) : option Z :=
  match k with
  | EmptyString => None
  | _ =>
      if String.eqb (snd (Number.span_digits k)) "" then
        let v := Number.digits_value 0 k in
        if (v <=? 4294967294)%Z && String.eqb (string_of_Z v) k then Some v
        else None
      else None
  end.

Fixpoint get_own (k : string) (acc : counts) : option entry :=
  match acc with
  | [] => None
  | (k', v) :: rest => if String.eqb k k' then Some v else get_own k rest
  end.

(** Writing an own property keeps its place. *)
Fixpoint update (k : string) (v : entry) (acc : counts) : counts :=
  match acc with
  | [] => []
  | (k', v') :: rest =>
      if String.eqb k k' then (k', v) :: rest
      else (k', v') :: update k v rest
  end.

(** A new array index goes among the array indices, in ascending order. *)
Fixpoint insert_index (i : Z) (k : string) (v : entry) (acc : counts)
  : counts :=
  match acc with
  | [] => [(k, v)]
  | (k', v') :: rest =>
      match array_index k' with
      | Some j =>
          if (j <? i)%Z then (k', v') :: insert_index i k v rest
          else (k, v) :: acc
      | None => (k, v) :: acc
      end
  end.

(** Creating an own property: array indices first, every other name
    after all earlier ones. *)
Definition create (k : string) (v : entry) (acc : counts) : counts :=
  match array_index k with
  | Some i => insert_index i k v acc
  | None => (acc ++ [(k, v)])%list
  end.

(** The function-valued properties of [Object.prototype]. *)
Definition prototype_functions : list string :=
  [ "constructor"; "__defineGetter__"; "__defineSetter__"; "hasOwnProperty";
    "__lookupGetter__"; "__lookupSetter__"; "isPrototypeOf";
    "propertyIsEnumerable"; "toString"; "valueOf"; "toLocaleString" ].

(** [p.status || 'Unknown'] *)
Definition status_key (p : project) : string :=
  or_else_str (status p) "Unknown".

Definition one : number := Number.of_Z 1.

Section Environment.
(** The text an inherited function converts to; it differs between
    engines. *)
Variable native_text : string -> string.

(** The callback of the [reduce]:
    [acc[status] = (acc[status] || 0) + 1].  A name the object does not
    own is read from [Object.prototype]: its functions are truthy, and
    [__proto__] is an accessor whose setter ignores a string. *)
Definition count_status (acc : counts) (p : project) : counts :=
  let status := status_key p in
  match get_own status acc with
  | Some (Count n) =>
      update status
        (Count (Number.add (if Number.truthy n then n else Number.zero) one))
        acc
  | Some (Text s) =>
      update status
        (match s with
         | EmptyString => Count (Number.add Number.zero one)
         | _ => Text (s ++ "1")
         end)
        acc
  | None =>
      if String.eqb status "__proto__" then acc
      else if existsb (String.eqb status) prototype_functions then
        create status (Text (native_text status ++ "1")) acc
      else create status (Count (Number.add Number.zero one)) acc
  end.

(** [projects.reduce(..., {})] *)
Definition statusCounts (projects : list project) : counts :=
  fold_left count_status projects [].

(** [Object.keys(statusCounts)] and [Object.values(statusCounts)] *)
Definition labels (projects : list project) : list string :=
  map fst (statusCounts projects).
Definition data (projects : list project) : list entry :=
  map snd (statusCounts projects).

End Environment.

(** The number of projects counted under [k]. *)
Definition occurrences (k : string) (projects : list project) : Z :=
  Z.of_nat
    (List.length (List.filter (fun p => String.eqb (status_key p) k)
                              projects)).

(** The distinct elements of a list, each at its first occurrence. *)
Fixpoint first_occurrences (l : list string) : list string :=
  match l with
  | [] => []
  | x :: r =>
      x :: List.filter (fun y => negb (String.eqb y x)) (first_occurrences r)
  end.

Definition is_index (k : string) : bool :=
  match array_index k with Some _ => true | None => false end.

(** [n] times the character "1". *)
Fixpoint ones (n : nat) : string :=
  match n with
  | O => ""
  | S m => "1" ++ ones m
  end.

(** [a] and [b] are array indices, [a] the smaller one. *)
Definition index_lt (a b : string) : Prop :=
  match array_index a, array_index b with
  | Some i, Some j => (i < j)%Z
  | _, _ => False
  end.

End StatusChart.

(* ================================================================== *)
(** * Text beyond Latin-1 *)

Module Unicode.

(** A string as the engine holds it: a sequence of 16-bit code units. *)
Definition text : Type := list Z.

(** The code units of a string of Latin-1 characters. *)
Definition code_units (s : string) : text :=
  map (fun c => Z.of_nat (nat_of_ascii c)) (list_ascii_of_string s).

Definition is_leading_surrogate (c : Z) : bool :=
  (0xD800 <=? c)%Z && (c <=? 0xDBFF)%Z.
Definition is_trailing_surrogate (c : Z) : bool :=
  (0xDC00 <=? c)%Z && (c <=? 0xDFFF)%Z.

(** StringToCodePoints: a leading surrogate followed by a trailing one is
    one code point, every other code unit stands for itself. *)
Fixpoint StringToCodePoints (s : text) : list Z :=
  match s with
  | [] => []
  | a :: s' =>
      match s' with
      | b :: s'' =>
          if is_leading_surrogate a && is_trailing_surrogate b
          then (0x10000 + (a - 0xD800) * 0x400 + (b - 0xDC00))%Z
               :: StringToCodePoints s''
          else a :: StringToCodePoints s'
      | [] => [a]
      end
  end.

Definition UTF16EncodeCodePoint (cp : Z) : text :=
  if (cp <=? 0xFFFF)%Z then [cp]
  else [ ((cp - 0x10000) / 0x400 + 0xD800)%Z;
         ((cp - 0x10000) mod 0x400 + 0xDC00)%Z ].

Definition CodePointsToString (cps : list Z) : text :=
  flat_map UTF16EncodeCodePoint cps.

(** What lower-casing reads in the Unicode Character Database, which is
    not part of the source and is taken as a parameter: the lowercase
    mapping of a code point outside any context (the unconditional entry
    of SpecialCasing.txt when there is one, else the simple mapping of
    UnicodeData.txt, else the code point itself) and the two properties
    the Final_Sigma condition tests. *)
Record ucd : Type := {
  lowercase_mapping : Z -> list Z;
  cased : Z -> bool;
  case_ignorable : Z -> bool
}.

Definition capital_sigma : Z := 0x3A3.
Definition small_final_sigma : Z := 0x3C2.

Section Database.
Variable u : ucd.

(** Some cased letter is reached through case-ignorable characters
    only. *)
Fixpoint reaches_cased (s : list Z) : bool :=
  match s with
  | [] => false
  | c :: r => cased u c || (case_ignorable u c && reaches_cased r)
  end.

(** Final_Sigma: preceded by a cased letter and then zero or more
    case-ignorable characters, and not followed by zero or more
    case-ignorable characters and then a cased letter.  [before] is the
    text in front, nearest character first. *)
Definition Final_Sigma (before after : list Z) : bool :=
  reaches_cased before && negb (reaches_cased after).

(** toLowercase of the Unicode default case conversion: character by
    character, except for the capital sigma in final position. *)
Fixpoint toLowercase (before s : list Z) : list Z :=
  match s with
  | [] => []
  | c :: r =>
      ((if (c =? capital_sigma)%Z && Final_Sigma before r
        then [small_final_sigma]
        else lowercase_mapping u c)
       ++ toLowercase (c :: before) r)%list
  end.

(** [String.prototype.toLowerCase] *)
Definition toLowerCase (s : text) : text :=
  CodePointsToString (toLowercase [] (StringToCodePoints s)).

(** ** Text whose lower-casing is character by character *)

Definition code_unit (c : Z) : bool := ((0 <=? c) && (c <=? 0xFFFF))%Z.

Definition is_surrogate (c : Z) : bool :=
  ((0xD800 <=? c) && (c <=? 0xDFFF))%Z.

(** A character: a code point that is no surrogate. *)
Definition scalar (c : Z) : bool :=
  ((0 <=? c) && (c <=? 0x10FFFF))%Z && negb (is_surrogate c).

(** Code units in which every surrogate is paired. *)
Definition well_formed (s : text) : bool :=
  forallb code_unit s && forallb scalar (StringToCodePoints s).

(** A character other than the capital sigma whose lowercase form is one
    character. *)
Definition plain_point (c : Z) : bool :=
  scalar c && negb (c =? capital_sigma)%Z
  && match lowercase_mapping u c with
     | [d] => scalar d
     | _ => false
     end.

(** Well-formed text of such characters. *)
Definition plain (s : text) : Prop :=
  forallb code_unit s && forallb plain_point (StringToCodePoints s) = true.

(** The lowercase form of a plain character. *)
Definition lower1 (c : Z) : Z :=
  match lowercase_mapping u c with
  | [d] => d
  | _ => c
  end.

(** Two characters are the same up to case when the database gives them
    the same lowercase form. *)
Definition same_letter (x y : Z) : Prop :=
  lowercase_mapping u x = lowercase_mapping u y.

(** [t] occurs in [s] when letter case is ignored: some run of
    characters of [s] is [t] character by character up to case. *)
Definition ci_substring (t s : text) : Prop :=
  exists pre seg post,
    StringToCodePoints s = (pre ++ seg ++ post)%list
    /\ Forall2 same_letter seg (StringToCodePoints t).

(** The database has the entries of U+0000..U+00FF: the capitals A..Z and
    U+00C0..U+00DE other than U+00D7 map to the character 32 above, every
    other character to itself. *)
Definition latin1_table : Prop :=
  forall c : ascii,
    lowercase_mapping u (Z.of_nat (nat_of_ascii c))
    = [Z.of_nat (nat_of_ascii (lower_char c))].

End Database.

(** [String.prototype.startsWith] and [String.prototype.includes] on code
    units. *)
Fixpoint startsWith (s t : text) {struct t} : bool :=
  match t, s with
  | [], _ => true
  | _ :: _, [] => false
  | b :: t', a :: s' => (a =? b)%Z && startsWith s' t'
  end.

Fixpoint includes (s t : text) : bool :=
  startsWith s t ||
  match s with
  | [] => false
  | _ :: s' => includes s' t
  end.

(** [a === b] on strings. *)
Fixpoint text_eqb (a b : text) : bool :=
  match a, b with
  | [], [] => true
  | x :: a', y :: b' => (x =? y)%Z && text_eqb a' b'
  | _, _ => false
  end.

(** A property holding a Latin-1 string, as code units. *)
Definition wide (f : field string) : field text :=
  match f with
  | Val s => Val (code_units s)
  | Undefined => Undefined
  | Null => Null
  end.

End Unicode.

(* ================================================================== *)
(** * ProjectsView: the filter on any text *)

Module Search.

Import Unicode.

Section Rows.
(** The filter reads three properties of a row. *)
Context {Row : Type}.
Variable u : ucd.
Variables name_of location_of status_of : Row -> field text.

(** [project.name.toLowerCase()] *)
Definition name_lower (p : Row) : result text :=
  match name_of p with
  | Val n => Ok (toLowerCase u n)
  | Undefined =>
      Throw (TypeError "Cannot read properties of undefined (reading 'toLowerCase')")
  | Null =>
      Throw (TypeError "Cannot read properties of null (reading 'toLowerCase')")
  end.

(** [project.location && project.location.toLowerCase().includes(t)]:
    an absent, [null] or empty location is falsy. *)
Definition location_matches (t : text) (p : Row) : bool :=
  match location_of p with
  | Val (c :: l) => includes (toLowerCase u (c :: l)) (toLowerCase u t)
  | _ => false
  end.

(** [project.status === filterStatus] *)
Definition status_is (p : Row) (filterStatus : text) : bool :=
  match status_of p with
  | Val v => text_eqb v filterStatus
  | _ => false
  end.

(** The callback handed to [initialProjects.filter]. *)
Definition filter_callback (searchTerm filterStatus : text) (p : Row)
  : result bool :=
  n <- name_lower p ;;
  let matchesSearch :=
    includes n (toLowerCase u searchTerm) || location_matches searchTerm p in
  let matchesFilter :=
    text_eqb filterStatus (code_units "all") || status_is p filterStatus in
  Ok (matchesSearch && matchesFilter).

(** [filteredProjects] *)
Definition filteredProjects (initialProjects : option (list Row))
    (searchTerm filterStatus : text) : result (list Row) :=
  match initialProjects with
  | None => Ok []
  | Some ps => JS.filter (filter_callback searchTerm filterStatus) ps
  end.

(** The boolean the callback computes on a row that has a name. *)
Definition keeps (t s : text) (p : Row) : bool :=
  match filter_callback t s p with
  | Ok b => b
  | Throw _ => false
  end.

(** The row carries a name. *)
Definition has_name (p : Row) : Prop := exists n, name_of p = Val n.

(** The search text occurs, case ignored, in the name or in the
    location. *)
Definition name_or_location_contains (t : text) (p : Row) : Prop :=
  (exists n, name_of p = Val n /\ ci_substring u t n) \/
  (exists l, location_of p = Val l /\ ci_substring u t l).

(** The name and the location, where present, are plain text. *)
Definition plain_row (p : Row) : Prop :=
  (forall n, name_of p = Val n -> plain u n) /\
  (forall l, location_of p = Val l -> plain u l).

End Rows.

(** A row reduced to the three properties the filter reads. *)
Record row : Type := {
  row_name : field text;
  row_location : field text;
  row_status : field text
}.

End Search.

(* ================================================================== *)
(** * Amounts of a part of the collection *)

(** [zs] lists one amount per project of [ps]: the amounts of the projects
    a filter keeps, in order. *)
Definition kept_amounts (keep : project -> bool) (ps : list project)
    (zs : list Z) : list Z :=
  map snd (List.filter (fun pz => keep (fst pz)) (combine ps zs)).

(* ================================================================== *)
(** * More sample data *)

Module Demo.

Definition name_control : ProjectsView.control :=
  {| ProjectsView.kind := ProjectsView.InputText;
     ProjectsView.placeholder := "Project Name";
     ProjectsView.required := true;
     ProjectsView.bound := ProjectsView.PName;
     ProjectsView.onChange := ProjectsView.change_name |}.

Definition budget_control : ProjectsView.control :=
  {| ProjectsView.kind := ProjectsView.InputNumber;
     ProjectsView.placeholder := "Budget";
     ProjectsView.required := false;
     ProjectsView.bound := ProjectsView.PBudget;
     ProjectsView.onChange := ProjectsView.change_budget |}.

(** The user types a name, then a word and then a figure into the budget
    box. *)
Definition keystrokes : list (ProjectsView.control * string) :=
  [ (name_control, "Pier 7"); (budget_control, "lots");
    (budget_control, "250000") ].

(** A visitor about to sign in as in the walkthrough: a@b.com / x. *)
Definition signing_in : LoginForm.context :=
  {| LoginForm.form :=
       {| LoginForm.isSignUp := false; LoginForm.email := "a@b.com";
          LoginForm.password := "x"; LoginForm.fullName := "";
          LoginForm.error := "Invalid credentials";
          LoginForm.loading := false |};
     LoginForm.authToken := None;
     LoginForm.app := App.initial None |}.

(** A visitor about to register. *)
Definition signing_up : LoginForm.context :=
  {| LoginForm.form :=
       {| LoginForm.isSignUp := true; LoginForm.email := "a@b.com";
          LoginForm.password := "x"; LoginForm.fullName := "Asha Rao";
          LoginForm.error := ""; LoginForm.loading := false |};
     LoginForm.authToken := None;
     LoginForm.app := App.initial None |}.

Definition token_T : LoginForm.response_data :=
  {| LoginForm.access_token := Val "T" |}.

(** The server accepts and answers with the token "T". *)
Definition granting : world LoginForm.payload LoginForm.response_data :=
  {| user_confirms := fun _ => false; server := fun _ => Resolved token_T |}.

Definition bad_credentials : http_error :=
  {| err_response :=
       Some {| resp_status := 401;
               resp_data :=
                 Some {| body_error := Val "Invalid credentials" |} |} |}.

(** The server answers 401 with an error string. *)
Definition denying : world LoginForm.payload LoginForm.response_data :=
  {| user_confirms := fun _ => false;
     server := fun _ => Rejected bad_credentials |}.

(** Signed in, documents section, project 7 selected (not loaded). *)
Definition viewing_seven : App.state :=
  {| App.isAuthenticated := true; App.activeSection := "documents";
     App.selectedProjectId := Some 7%Z |}.

(** Signed in, documents section, project 2 selected. *)
Definition viewing_two : App.state :=
  {| App.isAuthenticated := true; App.activeSection := "documents";
     App.selectedProjectId := Some 2%Z |}.

(** The projects hook once the portfolio has arrived. *)
Definition loaded : UseData.state project :=
  {| UseData.data := Sample.portfolio; UseData.loading := false;
     UseData.error := None |}.

(** The edit form open on a project that is no longer in the collection. *)
Definition editing_quay : ProjectsView.state :=
  {| ProjectsView.projects := Sample.portfolio;
     ProjectsView.searchTerm := "";
     ProjectsView.filterStatus := "all";
     ProjectsView.showForm := true;
     ProjectsView.editingProject := Some Sample.quay;
     ProjectsView.projectFormData := ProjectsView.form_of_project Sample.quay |}.

(** A project with two documents, two bids (the second one not yet
    priced) and no inspection. *)
Definition pier : project :=
  {| id := 6; name := Val "Pier 7"; description := Val "Cargo pier";
     budget := Val (Number.of_Z 900000);
     actual_cost := Val (Number.of_Z 100000);
     location := Val "Kochi"; status := Val "on_hold"; phase := Val "design";
     progress := Val (Number.of_Z 10);
     documents :=
       [ {| doc_id := 1; doc_name := Val "Soil report" |};
         {| doc_id := 2; doc_name := Val "Permit" |} ];
     bids :=
       [ {| bid_id := 1; bid_title := Val "Piling";
            bid_amount := Val (Number.of_Z 120000) |};
         {| bid_id := 2; bid_title := Val "Decking"; bid_amount := Null |} ];
     change_orders := [];
     inspections := [] |}.

(** A locale that prints every number as a dash. *)
Definition dash (x : number) : string := "-".

(** The projects panel on the two projects that carry a budget. *)
Definition two_projects : ProjectsView.state :=
  {| ProjectsView.projects := [Sample.tower; Sample.bridge];
     ProjectsView.searchTerm := "";
     ProjectsView.filterStatus := "all";
     ProjectsView.showForm := false;
     ProjectsView.editingProject := None;
     ProjectsView.projectFormData := ProjectsView.blank_form |}.

Definition two_loaded : UseData.state project :=
  {| UseData.data := [Sample.tower; Sample.bridge];
     UseData.loading := false; UseData.error := None |}.

(** Signed in, on the projects section, nothing selected. *)
Definition on_projects : App.state :=
  {| App.isAuthenticated := true; App.activeSection := "projects";
     App.selectedProjectId := None |}.

(** The fields the root component gives the bids panel. *)
Definition bid_fields : list App.field_descriptor :=
  [ {| App.field_name := "title"; App.field_placeholder := "Bid Title";
       App.field_type := None |};
    {| App.field_name := "amount"; App.field_placeholder := "Amount";
       App.field_type := Some "number" |} ].

(** The bids panel with an empty list and the form closed; a row is its
    id together with its properties. *)
Definition bids_panel : CrudView.state (Z * CrudPanel.obj) CrudPanel.obj :=
  {| CrudView.fetched :=
       {| UseData.data := []; UseData.loading := false;
          UseData.error := None |};
     CrudView.showForm := false;
     CrudView.editingItem := None;
     CrudView.formData := CrudPanel.empty_obj |}.

(** The user types a figure into the amount box. *)
Definition amount_typed : list (CrudPanel.control * string) :=
  [ (CrudPanel.Input "amount" "number" "Amount", "120000") ].

(** The server accepts whatever it is sent. *)
Definition echoing : world CrudPanel.obj (Z * CrudPanel.obj) :=
  {| user_confirms := fun _ => true;
     server := fun _ => Resolved (1%Z, CrudPanel.empty_obj) |}.

(** The text one engine gives a native function. *)
Definition engine_text (k : string) : string :=
  "function " ++ k ++ "() { [native code] }".

Definition with_status (s : field string) : project :=
  Sample.row 1 (Val "x") Null s Null Null.

(** Seven projects: two active, three whose status reads as a number, one
    with a null and one with an empty status. *)
Definition mixed : list project :=
  map with_status
      [ Val "active"; Val "7"; Null; Val "active"; Val "3"; Val "";
        Val "10" ].

(** An excerpt of the Unicode Character Database: Basic Latin, Latin-1,
    the capital I with dot above and the Greek letters.  Every other
    character is entered without case, as U+1F600 is, the one other
    character the examples use. *)
Definition in_range (lo hi c : Z) : bool := ((lo <=? c) && (c <=? hi))%Z.

Definition excerpt : Unicode.ucd :=
  {| Unicode.lowercase_mapping := fun c =>
       if in_range 0x41 0x5A c then [(c + 32)%Z]
       else if in_range 0xC0 0xDE c && negb (c =? 0xD7)%Z then [(c + 32)%Z]
       else if (c =? 0x130)%Z then [0x69%Z; 0x307%Z]
       else if in_range 0x391 0x3A1 c || in_range 0x3A3 0x3A9 c
       then [(c + 32)%Z]
       else [c];
     Unicode.cased := fun c =>
       in_range 0x41 0x5A c || in_range 0x61 0x7A c
       || (c =? 0xAA)%Z || (c =? 0xB5)%Z || (c =? 0xBA)%Z
       || in_range 0xC0 0xD6 c || in_range 0xD8 0xF6 c
       || in_range 0xF8 0xFF c || (c =? 0x130)%Z
       || in_range 0x391 0x3A1 c || in_range 0x3A3 0x3A9 c
       || in_range 0x3B1 0x3C9 c;
     Unicode.case_ignorable := fun c =>
       (c =? 0x27)%Z || (c =? 0x2E)%Z || (c =? 0x3A)%Z || (c =? 0x5E)%Z
       || (c =? 0x60)%Z || (c =? 0xA8)%Z || (c =? 0xAD)%Z || (c =? 0xAF)%Z
       || (c =? 0xB4)%Z || (c =? 0xB7)%Z || (c =? 0xB8)%Z
       || in_range 0x300 0x36F c |}.

(** A row named "A", capital sigma, "B", with no location. *)
Definition sigma_row : Search.row :=
  {| Search.row_name := Val [0x41%Z; 0x3A3%Z; 0x42%Z];
     Search.row_location := Null;
     Search.row_status := Val (Unicode.code_units "active") |}.

(** A row named with the capital I with dot above, and one named with
    the character U+1F600, a surrogate pair. *)
Definition dotted_row : Search.row :=
  {| Search.row_name := Val [0x130%Z];
     Search.row_location := Null;
     Search.row_status := Val (Unicode.code_units "active") |}.

Definition pair_row : Search.row :=
  {| Search.row_name := Val [0xD83D%Z; 0xDE00%Z];
     Search.row_location := Null;
     Search.row_status := Val (Unicode.code_units "active") |}.

(** A row the server sent without a name. *)
Definition nameless_row : Search.row :=
  {| Search.row_name := Undefined;
     Search.row_location := Val (Unicode.code_units "Pune");
     Search.row_status := Val (Unicode.code_units "active") |}.

(** The sample portfolio as rows of code units. *)
Definition row_of (p : project) : Search.row :=
  {| Search.row_name := Unicode.wide (name p);
     Search.row_location := Unicode.wide (location p);
     Search.row_status := Unicode.wide (status p) |}.

End Demo.

(* ================================================================== *)
(** * Properties *)

(** ** Strings *)

Lemma append_nil_r (s : string) : s ++ "" = s.
Proof. induction s as [|c s IH]; simpl; [reflexivity | now rewrite IH]. Qed.

Lemma append_assoc (a b c : string) : (a ++ b) ++ c = a ++ (b ++ c).
Proof. induction a as [|x a IH]; simpl; [reflexivity | now rewrite IH]. Qed.

Lemma startsWith_spec (s t : string) :
  startsWith s t = true <-> exists post, s = t ++ post.
Proof.
  revert s. induction t as [|b t IH]; intros s; simpl.
  - split; [intros _; now exists s | reflexivity].
  - destruct s as [|a s].
    + split; [discriminate | intros [post H]; discriminate].
    + rewrite andb_true_iff, Ascii.eqb_eq, IH. split.
      * intros [-> [post ->]]. now exists post.
      * intros [post H]. injection H as -> ->. split; [reflexivity | now exists post].
Qed.

Lemma includes_spec (s t : string) :
  includes s t = true <-> exists pre post, s = pre ++ t ++ post.
Proof.
  induction s as [|c s IH]; simpl.
  - rewrite orb_false_r, startsWith_spec. split.
    + intros [post H]. now exists "", post.
    + intros (pre & post & H). destruct pre; simpl in H.
      * now exists post.
      * discriminate.
  - rewrite orb_true_iff, startsWith_spec, IH. split.
    + intros [[post H] | (pre & post & H)].
      * now exists "", post.
      * exists (String c pre), post. simpl. now rewrite H.
    + intros (pre & post & H). destruct pre as [|x pre]; simpl in H.
      * left. now exists post.
      * right. injection H as _ H. now exists pre, post.
Qed.

(** ** [filter] with a callback that does not throw *)

Lemma filter_total {A} (cb : A -> result bool) (keep : A -> bool)
    (xs : list A) :
  (forall x, In x xs -> cb x = Ok (keep x)) ->
  JS.filter cb xs = Ok (List.filter keep xs).
Proof.
  induction xs as [|x xs IH]; intros H; simpl; [reflexivity|].
  rewrite (H x (or_introl eq_refl)). simpl.
  rewrite IH by (intros y Hy; apply H; now right). simpl.
  now destruct (keep x).
Qed.

Lemma filter_throws {A} (cb : A -> result bool) (xs : list A) (x : A)
    (e : exn) :
  In x xs -> cb x = Throw e -> exists e', JS.filter cb xs = Throw e'.
Proof.
  induction xs as [|y xs IH]; intros Hin Hx; [contradiction|].
  simpl. destruct Hin as [-> | Hin].
  - rewrite Hx. simpl. now exists e.
  - destruct (cb y) as [b|e0]; simpl; [|now exists e0].
    destruct (IH Hin Hx) as [e' ->]. simpl. now exists e'.
Qed.

Lemma filter_ok_inv {A} (cb : A -> result bool) (xs out : list A) :
  JS.filter cb xs = Ok out -> forall x, In x xs -> exists b, cb x = Ok b.
Proof.
  intros H x Hin. destruct (cb x) as [b|e] eqn:E; [now exists b|].
  destruct (filter_throws cb xs x e Hin E) as [e' He']. congruence.
Qed.

(** ** The projects filter *)

Lemma filter_callback_named (t s n : string) (p : project) :
  name p = Val n ->
  ProjectsView.filter_callback t s p =
  Ok ((includes (toLowerCase n) (toLowerCase t)
       || ProjectsView.location_matches t p)
      && (String.eqb s "all" || strict_eq_str (status p) s)).
Proof.
  intros Hn. unfold ProjectsView.filter_callback, ProjectsView.name_lower.
  now rewrite Hn.
Qed.

Lemma strict_eq_str_spec (f : field string) (s : string) :
  strict_eq_str f s = true <-> f = Val s.
Proof.
  destruct f as [| |v]; simpl.
  - split; discriminate.
  - split; discriminate.
  - rewrite String.eqb_eq. split; [now intros -> | now intros [= ->]].
Qed.

(** The boolean the callback computes on a named project. *)
Definition keeps (t s : string) (p : project) : bool :=
  match ProjectsView.filter_callback t s p with
  | Ok b => b
  | Throw _ => false
  end.

Lemma keeps_status (t s : string) (p : project) :
  has_name p ->
  keeps t s p = true -> s = "all" \/ status p = Val s.
Proof.
  intros [n Hn]. unfold keeps. rewrite (filter_callback_named t s n p Hn).
  rewrite andb_true_iff, !orb_true_iff, String.eqb_eq, strict_eq_str_spec.
  tauto.
Qed.

Lemma filteredProjects_named (C : list project) (t s : string) :
  Forall has_name C ->
  ProjectsView.filteredProjects (Some C) t s = Ok (List.filter (keeps t s) C).
Proof.
  intros HC. simpl. apply filter_total. intros p Hp.
  rewrite Forall_forall in HC. destruct (HC p Hp) as [n Hn].
  unfold keeps. now rewrite (filter_callback_named t s n p Hn).
Qed.

(** ** Lower-casing and search on any text *)

Section TextLemmas.
Import Unicode.

Lemma startsWith_text_spec (s t : text) :
  Unicode.startsWith s t = true <-> exists post, s = (t ++ post)%list.
Proof.
  revert s. induction t as [|b t IH]; intros s; simpl.
  - split; [intros _; now exists s | reflexivity].
  - destruct s as [|a s].
    + split; [discriminate | intros [post H]; discriminate].
    + rewrite andb_true_iff, Z.eqb_eq, IH. split.
      * intros [-> [post ->]]. now exists post.
      * intros [post H]. injection H as -> ->.
        split; [reflexivity | now exists post].
Qed.

Lemma includes_text_spec (s t : text) :
  Unicode.includes s t = true
  <-> exists pre post, s = (pre ++ t ++ post)%list.
Proof.
  induction s as [|c s IH]; simpl.
  - rewrite orb_false_r, startsWith_text_spec. split.
    + intros [post H]. now exists [], post.
    + intros (pre & post & H). destruct pre; simpl in H.
      * now exists post.
      * discriminate.
  - rewrite orb_true_iff, startsWith_text_spec, IH. split.
    + intros [[post H] | (pre & post & H)].
      * now exists [], post.
      * exists (c :: pre), post. simpl. now rewrite H.
    + intros (pre & post & H). destruct pre as [|x pre]; simpl in H.
      * left. now exists post.
      * right. injection H as _ H. now exists pre, post.
Qed.

Lemma text_eqb_spec (a b : text) : text_eqb a b = true <-> a = b.
Proof.
  revert b. induction a as [|x a IH]; intros [|y b]; simpl;
    try (split; [discriminate | discriminate]); [tauto|].
  rewrite andb_true_iff, Z.eqb_eq, IH. split.
  - now intros [-> ->].
  - now intros [= -> ->].
Qed.

(** *** Code units and code points *)

Lemma code_unit_range (c : Z) :
  code_unit c = true <-> (0 <= c <= 0xFFFF)%Z.
Proof. unfold code_unit. rewrite andb_true_iff, !Z.leb_le. tauto. Qed.

Lemma leading_range (c : Z) :
  is_leading_surrogate c = true <-> (0xD800 <= c <= 0xDBFF)%Z.
Proof.
  unfold is_leading_surrogate. rewrite andb_true_iff, !Z.leb_le. tauto.
Qed.

Lemma trailing_range (c : Z) :
  is_trailing_surrogate c = true <-> (0xDC00 <= c <= 0xDFFF)%Z.
Proof.
  unfold is_trailing_surrogate. rewrite andb_true_iff, !Z.leb_le. tauto.
Qed.

Lemma scalar_range (c : Z) :
  scalar c = true
  <-> (0 <= c <= 0x10FFFF)%Z /\ (c < 0xD800 \/ 0xDFFF < c)%Z.
Proof.
  unfold scalar, is_surrogate.
  rewrite andb_true_iff, negb_true_iff, andb_false_iff, andb_true_iff,
    !Z.leb_le, !Z.leb_gt. tauto.
Qed.

Lemma scalar_not_leading (c : Z) :
  scalar c = true -> is_leading_surrogate c = false.
Proof.
  intros H. apply scalar_range in H.
  destruct (is_leading_surrogate c) eqn:E; [|reflexivity].
  apply leading_range in E. lia.
Qed.

Lemma scalar_not_trailing (c : Z) :
  scalar c = true -> is_trailing_surrogate c = false.
Proof.
  intros H. apply scalar_range in H.
  destruct (is_trailing_surrogate c) eqn:E; [|reflexivity].
  apply trailing_range in E. lia.
Qed.

Lemma decode_unpaired (a : Z) (s : text) :
  is_leading_surrogate a = false ->
  StringToCodePoints (a :: s) = a :: StringToCodePoints s.
Proof. intros H. destruct s; cbn [StringToCodePoints]; now rewrite ?H. Qed.


Lemma decode_two (a b : Z) (s : text) :
  StringToCodePoints (a :: b :: s)
  = if is_leading_surrogate a && is_trailing_surrogate b
    then (0x10000 + (a - 0xD800) * 0x400 + (b - 0xDC00))%Z
         :: StringToCodePoints s
    else a :: StringToCodePoints (b :: s).
Proof. reflexivity. Qed.

(** The two code units of a character beyond U+FFFF. *)
Lemma encode_supplementary (c : Z) :
  scalar c = true -> (0xFFFF < c)%Z ->
  exists h l,
    UTF16EncodeCodePoint c = [h; l]
    /\ is_leading_surrogate h = true /\ is_trailing_surrogate l = true
    /\ (0x10000 + (h - 0xD800) * 0x400 + (l - 0xDC00))%Z = c.
Proof.
  intros Hs Hc. apply scalar_range in Hs.
  unfold UTF16EncodeCodePoint.
  destruct (Z.leb_spec c 0xFFFF) as [H | _]; [lia|].
  eexists _, _. split; [reflexivity|].
  pose proof (Z.div_mod (c - 0x10000) 0x400 ltac:(lia)) as E.
  pose proof (Z.mod_pos_bound (c - 0x10000) 0x400 ltac:(lia)) as B.
  assert (0 <= (c - 0x10000) / 0x400 < 0x400)%Z as D.
  { split.
    - apply Z.div_pos; lia.
    - apply Z.div_lt_upper_bound; lia. }
  rewrite leading_range, trailing_range. lia.
Qed.

Lemma encode_bmp (c : Z) :
  (c <= 0xFFFF)%Z -> UTF16EncodeCodePoint c = [c].
Proof.
  intros H. unfold UTF16EncodeCodePoint.
  now destruct (Z.leb_spec c 0xFFFF) as [_ | H']; [|lia].
Qed.

Lemma encode_cons (c : Z) (A : list Z) :
  CodePointsToString (c :: A)
  = (UTF16EncodeCodePoint c ++ CodePointsToString A)%list.
Proof. reflexivity. Qed.

Lemma encode_app (A B : list Z) :
  CodePointsToString (A ++ B)%list
  = (CodePointsToString A ++ CodePointsToString B)%list.
Proof. apply flat_map_app. Qed.


(** Well-formed code units are the code units of their characters. *)
Lemma encode_decode_upto (n : nat) (s : text) :
  (List.length s <= n)%nat -> well_formed s = true ->
  CodePointsToString (StringToCodePoints s) = s.
Proof.
  unfold well_formed. revert s.
  induction n as [|n IH]; intros s Hlen H.
  - destruct s; [reflexivity | simpl in Hlen; lia].
  - destruct s as [|a s]; [reflexivity|].
    apply andb_true_iff in H. destruct H as [Hu Hs].
    cbn [forallb] in Hu. apply andb_true_iff in Hu. destruct Hu as [Ha Hu].
    apply code_unit_range in Ha.
    destruct s as [|b s].
    + cbn [StringToCodePoints]. rewrite encode_cons, (encode_bmp a) by lia.
      reflexivity.
    + cbn [forallb] in Hu. apply andb_true_iff in Hu. destruct Hu as [Hb Hu].
      apply code_unit_range in Hb.
      rewrite decode_two in Hs |- *.
      destruct (is_leading_surrogate a && is_trailing_surrogate b) eqn:E.
      * apply andb_true_iff in E. destruct E as [La Tb].
        apply leading_range in La. apply trailing_range in Tb.
        cbn [forallb] in Hs. apply andb_true_iff in Hs.
        destruct Hs as [_ Hs].
        rewrite encode_cons. rewrite IH.
        -- unfold UTF16EncodeCodePoint.
           destruct (Z.leb_spec (0x10000 + (a - 0xD800) * 0x400 + (b - 0xDC00))
                       0xFFFF) as [H | _]; [lia|].
           cbn [app]. f_equal; [|f_equal].
           ++ replace (0x10000 + (a - 0xD800) * 0x400 + (b - 0xDC00) - 0x10000)%Z
                with ((b - 0xDC00) + (a - 0xD800) * 0x400)%Z by lia.
              rewrite Z.div_add by lia. rewrite Z.div_small by lia. lia.
           ++ replace (0x10000 + (a - 0xD800) * 0x400 + (b - 0xDC00) - 0x10000)%Z
                with ((b - 0xDC00) + (a - 0xD800) * 0x400)%Z by lia.
              rewrite Z.mod_add by lia. rewrite Z.mod_small by lia. lia.
        -- simpl in Hlen. lia.
        -- now rewrite Hu, Hs.
      * cbn [forallb] in Hs. apply andb_true_iff in Hs.
        destruct Hs as [_ Hs].
        rewrite encode_cons, (encode_bmp a) by lia. cbn [app]. f_equal.
        apply IH.
        -- simpl in Hlen |- *. lia.
        -- cbn [forallb]. rewrite (proj2 (code_unit_range b) Hb), Hu, Hs.
           reflexivity.
Qed.

Lemma encode_decode (s : text) :
  well_formed s = true -> CodePointsToString (StringToCodePoints s) = s.
Proof. apply (encode_decode_upto (List.length s)). lia. Qed.


(** *** A match in the code units is a match in the characters *)

Lemma encode_head (c : Z) :
  scalar c = true ->
  exists h r, UTF16EncodeCodePoint c = h :: r
              /\ is_trailing_surrogate h = false.
Proof.
  intros Hc. destruct (Z.leb_spec c 0xFFFF) as [Hb | Hb].
  - exists c, []. split; [now apply encode_bmp|].
    now apply scalar_not_trailing.
  - destruct (encode_supplementary c Hc Hb) as (h & l & E & Hh & _).
    exists h, [l]. split; [exact E|].
    apply leading_range in Hh.
    destruct (is_trailing_surrogate h) eqn:T; [|reflexivity].
    apply trailing_range in T. lia.
Qed.

Lemma encode_cancel (a b : Z) (x y : text) :
  scalar a = true -> scalar b = true ->
  (UTF16EncodeCodePoint a ++ x)%list = (UTF16EncodeCodePoint b ++ y)%list ->
  a = b /\ x = y.
Proof.
  intros Ha Hb.
  destruct (Z.leb_spec a 0xFFFF) as [Sa | Sa];
    destruct (Z.leb_spec b 0xFFFF) as [Sb | Sb].
  - rewrite (encode_bmp a Sa), (encode_bmp b Sb). now intros [= -> ->].
  - rewrite (encode_bmp a Sa).
    destruct (encode_supplementary b Hb Sb) as (h & l & -> & Hh & _).
    intros [= -> _]. rewrite (scalar_not_leading _ Ha) in Hh. discriminate.
  - rewrite (encode_bmp b Sb).
    destruct (encode_supplementary a Ha Sa) as (h & l & -> & Hh & _).
    intros [= -> _]. rewrite (scalar_not_leading _ Hb) in Hh. discriminate.
  - destruct (encode_supplementary a Ha Sa) as (h & l & -> & _ & _ & Ea).
    destruct (encode_supplementary b Hb Sb) as (h' & l' & -> & _ & _ & Eb).
    intros [= -> -> ->]. split; [congruence | reflexivity].
Qed.

Lemma encode_prefix (B A : list Z) (y : text) :
  forallb scalar A = true -> forallb scalar B = true ->
  CodePointsToString A = (CodePointsToString B ++ y)%list ->
  exists post, A = (B ++ post)%list.
Proof.
  revert A. induction B as [|b B IH]; intros A HA HB E.
  - now exists A.
  - cbn [forallb] in HB. apply andb_true_iff in HB. destruct HB as [Hb HB].
    rewrite encode_cons, <- app_assoc in E.
    destruct A as [|a A].
    + destruct (encode_head b Hb) as (h & r & Eh & _).
      rewrite Eh in E. discriminate.
    + cbn [forallb] in HA. apply andb_true_iff in HA.
      destruct HA as [Ha HA]. rewrite encode_cons in E.
      apply (encode_cancel a b _ _ Ha Hb) in E. destruct E as [-> E].
      destruct (IH A HA HB E) as [post ->]. now exists post.
Qed.

Lemma encode_segment (A B : list Z) (x y : text) :
  forallb scalar A = true -> forallb scalar B = true ->
  CodePointsToString A = (x ++ CodePointsToString B ++ y)%list ->
  exists pre post, A = (pre ++ B ++ post)%list.
Proof.
  intros HA HB. destruct B as [|b B]; [now exists [], A|].
  revert x HA. induction A as [|a A IH]; intros x HA E.
  - cbn [forallb] in HB. apply andb_true_iff in HB. destruct HB as [Hb _].
    destruct (encode_head b Hb) as (h & r & Eh & _).
    rewrite encode_cons, Eh in E. destruct x; discriminate.
  - cbn [forallb] in HA. apply andb_true_iff in HA. destruct HA as [Ha HA].
    destruct x as [|c x].
    + destruct (encode_prefix (b :: B) (a :: A) y) as [post ->];
        [cbn [forallb]; now rewrite Ha, HA | exact HB | exact E |].
      now exists [], post.
    + rewrite encode_cons in E.
      destruct (Z.leb_spec a 0xFFFF) as [Sa | Sa].
      * rewrite (encode_bmp a Sa) in E. injection E as _ E.
        destruct (IH x HA E) as (pre & post & ->).
        now exists (a :: pre), post.
      * destruct (encode_supplementary a Ha Sa) as (h & l & El & _ & Hl & _).
        rewrite El in E. apply (f_equal (@tl Z)) in E. cbn [tl app] in E.
        destruct x as [|c' x].
        -- cbn [forallb] in HB. apply andb_true_iff in HB.
           destruct HB as [Hb _].
           destruct (encode_head b Hb) as (h' & r & Eh & Th).
           rewrite encode_cons, Eh in E. injection E as -> _.
           rewrite Hl in Th. discriminate.
        -- injection E as _ E.
           destruct (IH x HA E) as (pre & post & ->).
           now exists (a :: pre), post.
Qed.

(** One sequence of characters occurs in another exactly when its code
    units occur in the other's code units. *)
Lemma includes_encoded (A B : list Z) :
  forallb scalar A = true -> forallb scalar B = true ->
  (Unicode.includes (CodePointsToString A) (CodePointsToString B) = true
   <-> exists pre post, A = (pre ++ B ++ post)%list).
Proof.
  intros HA HB. rewrite includes_text_spec. split.
  - intros (x & y & E). now apply (encode_segment A B x y).
  - intros (pre & post & ->).
    exists (CodePointsToString pre), (CodePointsToString post).
    now rewrite !encode_app.
Qed.

(** *** Plain text *)

Variable u : ucd.

Lemma plain_point_spec (c : Z) :
  plain_point u c = true ->
  scalar c = true /\ c <> capital_sigma /\
  lowercase_mapping u c = [lower1 u c] /\ scalar (lower1 u c) = true.
Proof.
  unfold plain_point, lower1. intros H.
  apply andb_true_iff in H. destruct H as [H Hm].
  apply andb_true_iff in H. destruct H as [Hb Hs].
  apply negb_true_iff, Z.eqb_neq in Hs.
  destruct (lowercase_mapping u c) as [|d [|e r]]; try discriminate.
  auto.
Qed.

Lemma plain_points_scalar (A : list Z) :
  forallb (plain_point u) A = true -> forallb scalar A = true.
Proof.
  induction A as [|c A IH]; [reflexivity|].
  cbn [forallb]. intros H. apply andb_true_iff in H. destruct H as [Hc HA].
  destruct (plain_point_spec c Hc) as (-> & _). now rewrite (IH HA).
Qed.

Lemma lowered_scalar (A : list Z) :
  forallb (plain_point u) A = true ->
  forallb scalar (map (lower1 u) A) = true.
Proof.
  induction A as [|c A IH]; [reflexivity|].
  cbn [forallb map]. intros H. apply andb_true_iff in H.
  destruct H as [Hc HA].
  destruct (plain_point_spec c Hc) as (_ & _ & _ & ->). now rewrite (IH HA).
Qed.

(** Plain text is the code units of its characters. *)
Lemma plain_spec (s : text) :
  plain u s ->
  forallb (plain_point u) (StringToCodePoints s) = true
  /\ CodePointsToString (StringToCodePoints s) = s.
Proof.
  unfold plain. intros H. apply andb_true_iff in H. destruct H as [Hu Hp].
  split; [exact Hp|]. apply encode_decode. unfold well_formed.
  now rewrite Hu, (plain_points_scalar _ Hp).
Qed.




Lemma toLowercase_plain (before A : list Z) :
  forallb (plain_point u) A = true ->
  toLowercase u before A = map (lower1 u) A.
Proof.
  revert before.
  induction A as [|c A IH]; intros before H; [reflexivity|].
  cbn [forallb] in H. apply andb_true_iff in H. destruct H as [Hc HA].
  destruct (plain_point_spec c Hc) as (_ & Hn & Hm & _).
  cbn [toLowercase map]. apply Z.eqb_neq in Hn. rewrite Hn. cbn [andb].
  rewrite Hm, (IH _ HA). reflexivity.
Qed.

(** On plain text the lower-casing is character by character. *)
Lemma toLowerCase_plain (s : text) :
  plain u s ->
  toLowerCase u s
  = CodePointsToString (map (lower1 u) (StringToCodePoints s)).
Proof.
  intros H. destruct (plain_spec s H) as [Hp _]. unfold toLowerCase.
  now rewrite (toLowercase_plain [] _ Hp).
Qed.


Lemma same_lowered (seg t : list Z) :
  forallb (plain_point u) seg = true -> forallb (plain_point u) t = true ->
  (map (lower1 u) seg = map (lower1 u) t <-> Forall2 (same_letter u) seg t).
Proof.
  revert t.
  induction seg as [|x seg IH]; intros [|y t] Hs Ht; cbn [map].
  - split; [constructor | reflexivity].
  - split; [discriminate | intros H; inversion H].
  - split; [discriminate | intros H; inversion H].
  - cbn [forallb] in Hs, Ht.
    apply andb_true_iff in Hs. destruct Hs as [Hx Hs].
    apply andb_true_iff in Ht. destruct Ht as [Hy Ht].
    destruct (plain_point_spec x Hx) as (_ & _ & Mx & _).
    destruct (plain_point_spec y Hy) as (_ & _ & My & _).
    split.
    + intros [= E1 E2]. constructor.
      * unfold same_letter. now rewrite Mx, My, E1.
      * now apply IH.
    + intros H. inversion H as [|? ? ? ? Hxy Hrest]; subst.
      unfold same_letter in Hxy. rewrite Mx, My in Hxy.
      injection Hxy as ->. f_equal. now apply IH.
Qed.

(** On plain text the test the code performs is the case-insensitive
    substring test. *)
Lemma includes_lower_plain (n t : text) :
  plain u n -> plain u t ->
  (Unicode.includes (toLowerCase u n) (toLowerCase u t) = true
   <-> ci_substring u t n).
Proof.
  intros Hn Ht. rewrite (toLowerCase_plain n Hn), (toLowerCase_plain t Ht).
  destruct (plain_spec n Hn) as [Pn _]. destruct (plain_spec t Ht) as [Pt _].
  rewrite includes_encoded by now apply lowered_scalar.
  unfold ci_substring. revert Pn Pt.
  generalize (StringToCodePoints n) as N, (StringToCodePoints t) as T.
  intros N T Pn Pt. split.
  - intros (pre & post & H).
    apply map_eq_app in H. destruct H as (pre' & r & -> & _ & Hr).
    apply map_eq_app in Hr. destruct Hr as (seg & post' & -> & Hseg & _).
    exists pre', seg, post'. split; [reflexivity|].
    apply same_lowered; [|exact Pt | exact Hseg].
    rewrite !forallb_app, !andb_true_iff in Pn. tauto.
  - intros (pre & seg & post & -> & H).
    exists (map (lower1 u) pre), (map (lower1 u) post).
    rewrite !map_app. f_equal. f_equal.
    apply same_lowered; [|exact Pt | exact H].
    rewrite !forallb_app, !andb_true_iff in Pn. tauto.
Qed.

Lemma toLowerCase_nil : toLowerCase u [] = [].
Proof. reflexivity. Qed.

Lemma includes_nil (s : text) : Unicode.includes s [] = true.
Proof. destruct s; reflexivity. Qed.

Lemma decode_nil (s : text) : StringToCodePoints s = [] -> s = [].
Proof.
  destruct s as [|a [|b s]]; [reflexivity | discriminate |].
  rewrite decode_two.
  destruct (is_leading_surrogate a && is_trailing_surrogate b); discriminate.
Qed.

Lemma ci_substring_of_nil (t : text) : ci_substring u t [] -> t = [].
Proof.
  intros (pre & seg & post & H & Hseg). cbn [StringToCodePoints] in H.
  destruct pre; [|discriminate]. destruct seg; [|discriminate].
  apply decode_nil. remember (StringToCodePoints t) as T eqn:ET.
  now inversion Hseg.
Qed.

Lemma ci_substring_nil (s : text) : ci_substring u [] s.
Proof.
  exists [], [], (StringToCodePoints s). split; [reflexivity | constructor].
Qed.

End TextLemmas.

(** *** The Latin-1 model is the restriction of the general one *)

Section Latin1.
Import Unicode.
Variable u : ucd.
Hypothesis table : latin1_table u.

Lemma code_units_cons (c : ascii) (s : string) :
  code_units (String c s) = Z.of_nat (nat_of_ascii c) :: code_units s.
Proof. reflexivity. Qed.

Lemma code_lt_256 (c : ascii) : (0 <= Z.of_nat (nat_of_ascii c) < 256)%Z.
Proof. pose proof (nat_ascii_bounded c). lia. Qed.

Lemma code_inj (a b : ascii) :
  Z.of_nat (nat_of_ascii a) = Z.of_nat (nat_of_ascii b) -> a = b.
Proof.
  intros H. apply Nat2Z.inj in H.
  rewrite <- (ascii_nat_embedding a), <- (ascii_nat_embedding b).
  now rewrite H.
Qed.

Lemma code_eqb (a b : ascii) :
  (Z.of_nat (nat_of_ascii a) =? Z.of_nat (nat_of_ascii b))%Z = Ascii.eqb a b.
Proof.
  destruct (Ascii.eqb_spec a b) as [-> | E].
  - apply Z.eqb_refl.
  - apply Z.eqb_neq. intros H. apply E. now apply code_inj.
Qed.

Lemma latin1_scalar (c : ascii) : scalar (Z.of_nat (nat_of_ascii c)) = true.
Proof. pose proof (code_lt_256 c). apply scalar_range. lia. Qed.

Lemma latin1_plain_point (c : ascii) :
  plain_point u (Z.of_nat (nat_of_ascii c)) = true
  /\ lower1 u (Z.of_nat (nat_of_ascii c))
     = Z.of_nat (nat_of_ascii (lower_char c)).
Proof.
  unfold plain_point, lower1. rewrite (table c), !latin1_scalar.
  split; [|reflexivity].
  cbn [andb]. rewrite andb_true_r. apply negb_true_iff, Z.eqb_neq.
  pose proof (code_lt_256 c). unfold capital_sigma. lia.
Qed.

Lemma decode_latin1 (s : string) :
  StringToCodePoints (code_units s) = code_units s.
Proof.
  induction s as [|c s IH]; [reflexivity|].
  rewrite code_units_cons, decode_unpaired, IH; [reflexivity|].
  apply scalar_not_leading, latin1_scalar.
Qed.

Lemma encode_latin1 (s : string) :
  CodePointsToString (code_units s) = code_units s.
Proof.
  induction s as [|c s IH]; [reflexivity|].
  rewrite code_units_cons, encode_cons, IH, encode_bmp; [reflexivity|].
  pose proof (code_lt_256 c). lia.
Qed.

Lemma latin1_plain (s : string) : plain u (code_units s).
Proof.
  unfold plain. rewrite decode_latin1. apply andb_true_iff. split.
  - induction s as [|c s IH]; [reflexivity|].
    rewrite code_units_cons. cbn [forallb]. rewrite IH, andb_true_r.
    apply code_unit_range. pose proof (code_lt_256 c). lia.
  - induction s as [|c s IH]; [reflexivity|].
    rewrite code_units_cons. cbn [forallb].
    now rewrite (proj1 (latin1_plain_point c)), IH.
Qed.

(** On Latin-1 text [String.prototype.toLowerCase] is the character map
    of the Latin-1 model. *)
Lemma toLowerCase_latin1 (s : string) :
  Unicode.toLowerCase u (code_units s) = code_units (JS.toLowerCase s).
Proof.
  rewrite (toLowerCase_plain u _ (latin1_plain s)), decode_latin1.
  rewrite <- (encode_latin1 (JS.toLowerCase s)). f_equal.
  induction s as [|c s IH]; [reflexivity|].
  cbn [JS.toLowerCase]. rewrite !code_units_cons. cbn [map].
  now rewrite (proj2 (latin1_plain_point c)), IH.
Qed.

Lemma startsWith_latin1 (a b : string) :
  Unicode.startsWith (code_units a) (code_units b) = JS.startsWith a b.
Proof.
  revert a. induction b as [|y b IH]; intros a; [reflexivity|].
  destruct a as [|x a]; [reflexivity|].
  rewrite !code_units_cons. cbn [Unicode.startsWith JS.startsWith].
  now rewrite code_eqb, IH.
Qed.

Lemma includes_latin1 (a b : string) :
  Unicode.includes (code_units a) (code_units b) = JS.includes a b.
Proof.
  induction a as [|x a IH].
  - cbn [Unicode.includes JS.includes code_units list_ascii_of_string map].
    now rewrite <- (startsWith_latin1 "" b).
  - rewrite code_units_cons. cbn [Unicode.includes JS.includes].
    rewrite <- code_units_cons. now rewrite startsWith_latin1, IH.
Qed.

Lemma text_eqb_latin1 (a b : string) :
  text_eqb (code_units a) (code_units b) = String.eqb a b.
Proof.
  revert b. induction a as [|x a IH]; intros [|y b]; try reflexivity.
  rewrite !code_units_cons. cbn [text_eqb String.eqb].
  rewrite code_eqb, IH. now destruct (Ascii.eqb x y).
Qed.

Lemma filter_ext {A} (f g : A -> result bool) (l : list A) :
  (forall x, f x = g x) -> JS.filter f l = JS.filter g l.
Proof.
  intros H. induction l as [|x l IH]; [reflexivity|].
  cbn [JS.filter]. now rewrite H, IH.
Qed.

(** On projects whose text is Latin-1, the filter on code units is the
    filter of the Latin-1 model. *)
Lemma filteredProjects_latin1 (C : option (list project)) (t s : string) :
  Search.filteredProjects u
    (fun p => wide (name p)) (fun p => wide (location p))
    (fun p => wide (status p)) C (code_units t) (code_units s)
  = ProjectsView.filteredProjects C t s.
Proof.
  destruct C as [C|]; [|reflexivity].
  cbn [Search.filteredProjects ProjectsView.filteredProjects].
  apply filter_ext. intros p.
  unfold Search.filter_callback, ProjectsView.filter_callback,
    Search.name_lower, ProjectsView.name_lower, Search.location_matches,
    ProjectsView.location_matches, Search.status_is.
  destruct (name p) as [| |n]; cbn [wide JS.bind]; try reflexivity.
  rewrite !toLowerCase_latin1, includes_latin1, text_eqb_latin1.
  f_equal. f_equal.
  - f_equal. destruct (location p) as [| |[|c l]]; cbn [wide]; try reflexivity.
    rewrite code_units_cons, <- code_units_cons.
    now rewrite toLowerCase_latin1, includes_latin1.
  - f_equal. destruct (status p) as [| |v]; cbn [wide]; try reflexivity.
    apply text_eqb_latin1.
Qed.

End Latin1.

(** *** The filter on any text *)

Section SearchLemmas.
Import Unicode.
Context {Row : Type}.
Variable u : ucd.
Variables name_of location_of status_of : Row -> field text.

Lemma search_callback_named (t s n : text) (p : Row) :
  name_of p = Val n ->
  Search.filter_callback u name_of location_of status_of t s p
  = Ok ((Unicode.includes (toLowerCase u n) (toLowerCase u t)
         || Search.location_matches u location_of t p)
        && (text_eqb s (code_units "all")
            || Search.status_is status_of p s)).
Proof.
  intros Hn. unfold Search.filter_callback, Search.name_lower.
  now rewrite Hn.
Qed.

Lemma search_callback_nameless (t s : text) (p : Row) :
  name_of p = Undefined \/ name_of p = Null ->
  exists msg,
    Search.filter_callback u name_of location_of status_of t s p
    = Throw (TypeError msg).
Proof.
  unfold Search.filter_callback, Search.name_lower.
  intros [-> | ->]; simpl; eexists; reflexivity.
Qed.

Lemma search_named (C : list Row) (t s : text) :
  Forall (Search.has_name name_of) C ->
  Search.filteredProjects u name_of location_of status_of (Some C) t s
  = Ok (List.filter (Search.keeps u name_of location_of status_of t s) C).
Proof.
  intros HC. cbn [Search.filteredProjects]. apply filter_total.
  intros p Hp. rewrite Forall_forall in HC. destruct (HC p Hp) as [n Hn].
  unfold Search.keeps. now rewrite (search_callback_named t s n p Hn).
Qed.

Lemma search_status_spec (p : Row) (s : text) :
  Search.status_is status_of p s = true <-> status_of p = Val s.
Proof.
  unfold Search.status_is. destruct (status_of p) as [| |v].
  - split; discriminate.
  - split; discriminate.
  - rewrite text_eqb_spec. split; [now intros -> | now intros [= ->]].
Qed.

Lemma search_matches_spec (t n : text) (p : Row) :
  name_of p = Val n ->
  Search.plain_row u name_of location_of p ->
  plain u t ->
  (Unicode.includes (toLowerCase u n) (toLowerCase u t)
   || Search.location_matches u location_of t p = true
   <-> Search.name_or_location_contains u name_of location_of t p).
Proof.
  intros Hn [Pn Pl] Pt. rewrite orb_true_iff.
  unfold Search.location_matches, Search.name_or_location_contains.
  split.
  - intros [H | H].
    + left. exists n. split; [exact Hn|].
      now apply (includes_lower_plain u n t (Pn n Hn) Pt).
    + right. destruct (location_of p) as [| |[|c l]] eqn:El;
        try discriminate.
      exists (c :: l). split; [reflexivity|].
      now apply (includes_lower_plain u (c :: l) t (Pl _ eq_refl) Pt).
  - intros [(n' & Hn' & H) | (l & Hl & H)].
    + left. rewrite Hn in Hn'. injection Hn' as <-.
      now apply (includes_lower_plain u n t (Pn n Hn) Pt).
    + destruct l as [|c l].
      * left. apply ci_substring_of_nil in H. subst t.
        rewrite toLowerCase_nil. apply includes_nil.
      * right. rewrite Hl.
        now apply (includes_lower_plain u (c :: l) t (Pl _ Hl) Pt).
Qed.

Lemma search_keeps_spec (t s : text) (p : Row) :
  Search.has_name name_of p ->
  Search.plain_row u name_of location_of p ->
  plain u t ->
  (Search.keeps u name_of location_of status_of t s p = true
   <-> (s = code_units "all" \/ status_of p = Val s)
       /\ Search.name_or_location_contains u name_of location_of t p).
Proof.
  intros [n Hn] Pp Pt. unfold Search.keeps.
  rewrite (search_callback_named t s n p Hn).
  rewrite andb_true_iff, (search_matches_spec t n p Hn Pp Pt), orb_true_iff,
    text_eqb_spec, search_status_spec. tauto.
Qed.

Lemma search_keeps_status (t s : text) (p : Row) :
  Search.has_name name_of p ->
  Search.keeps u name_of location_of status_of t s p = true ->
  s = code_units "all" \/ status_of p = Val s.
Proof.
  intros [n Hn]. unfold Search.keeps.
  rewrite (search_callback_named t s n p Hn).
  rewrite andb_true_iff, !orb_true_iff, text_eqb_spec, search_status_spec.
  tauto.
Qed.






End SearchLemmas.

(** C1 (amended).  On a collection whose projects all carry a name, and
    for names, locations and a search text that are plain (text in which
    every surrogate is paired, made of characters other than the capital
    sigma whose lowercase form is a single character: all of Latin-1
    among them), the filter returns the sub-list of the collection, order
    kept, made of exactly the projects whose status equals the status
    filter and whose name or location contains the search text as a
    substring up to letter case; with the filter "all" the status
    condition is dropped. *)
Theorem filteredProjects_exact_on_plain_text {Row : Type} (u : Unicode.ucd)
    (name_of location_of status_of : Row -> field Unicode.text)
    (C : list Row) (t s : Unicode.text) :
  Forall (Search.has_name name_of) C ->
  Forall (Search.plain_row u name_of location_of) C ->
  Unicode.plain u t ->
  exists keep : Row -> bool,
    Search.filteredProjects u name_of location_of status_of (Some C) t s
    = Ok (List.filter keep C) /\
    (s <> Unicode.code_units "all" ->
     forall p, In p (List.filter keep C) <->
               In p C /\ status_of p = Val s /\
               Search.name_or_location_contains u name_of location_of t p) /\
    (s = Unicode.code_units "all" ->
     forall p, In p (List.filter keep C) <->
               In p C /\
               Search.name_or_location_contains u name_of location_of t p).
Proof.
  intros HC HP Pt.
  exists (Search.keeps u name_of location_of status_of t s).
  split; [now apply search_named|].
  rewrite Forall_forall in HC, HP.
  split; intros Hs p; rewrite filter_In; split.
  - intros [Hin Hk].
    apply (search_keeps_spec u _ _ _ t s p (HC p Hin) (HP p Hin) Pt) in Hk.
    tauto.
  - intros (Hin & Hst & Hm). split; [assumption|].
    apply (search_keeps_spec u _ _ _ t s p (HC p Hin) (HP p Hin) Pt). tauto.
  - intros [Hin Hk].
    apply (search_keeps_spec u _ _ _ t s p (HC p Hin) (HP p Hin) Pt) in Hk.
    tauto.
  - intros (Hin & Hm). split; [assumption|].
    apply (search_keeps_spec u _ _ _ t s p (HC p Hin) (HP p Hin) Pt). tauto.
Qed.

Lemma excerpt_latin1 : Unicode.latin1_table Demo.excerpt.
Proof.
  intros [[|] [|] [|] [|] [|] [|] [|] [|]]; vm_compute; reflexivity.
Qed.

Lemma portfolio_rows_named :
  Forall (Search.has_name (fun p => Unicode.wide (name p))) Sample.portfolio.
Proof. repeat constructor; eexists; reflexivity. Qed.

Lemma portfolio_rows_plain :
  Forall (Search.plain_row Demo.excerpt
            (fun p => Unicode.wide (name p))
            (fun p => Unicode.wide (location p)))
         Sample.portfolio.
Proof.
  repeat constructor; intros n [= <-]; vm_compute; reflexivity.
Qed.

(** The filter run on the sample portfolio with search text "HARBOR" and
    status filter "active". *)
Lemma filteredProjects_exact_on_plain_text_witness :
  exists keep : project -> bool,
    Search.filteredProjects Demo.excerpt
      (fun p => Unicode.wide (name p)) (fun p => Unicode.wide (location p))
      (fun p => Unicode.wide (status p)) (Some Sample.portfolio)
      (Unicode.code_units "HARBOR") (Unicode.code_units "active")
    = Ok (List.filter keep Sample.portfolio) /\
    (Unicode.code_units "active" <> Unicode.code_units "all" ->
     forall p, In p (List.filter keep Sample.portfolio) <->
               In p Sample.portfolio /\
               Unicode.wide (status p) = Val (Unicode.code_units "active") /\
               Search.name_or_location_contains Demo.excerpt
                 (fun p => Unicode.wide (name p))
                 (fun p => Unicode.wide (location p))
                 (Unicode.code_units "HARBOR") p) /\
    (Unicode.code_units "active" = Unicode.code_units "all" ->
     forall p, In p (List.filter keep Sample.portfolio) <->
               In p Sample.portfolio /\
               Search.name_or_location_contains Demo.excerpt
                 (fun p => Unicode.wide (name p))
                 (fun p => Unicode.wide (location p))
                 (Unicode.code_units "HARBOR") p).
Proof.
  exact (filteredProjects_exact_on_plain_text Demo.excerpt
           (fun p => Unicode.wide (name p))
           (fun p => Unicode.wide (location p))
           (fun p => Unicode.wide (status p))
           Sample.portfolio
           (Unicode.code_units "HARBOR") (Unicode.code_units "active")
           portfolio_rows_named portfolio_rows_plain eq_refl).
Defined.

Example filteredProjects_on_code_units :
  Search.filteredProjects Demo.excerpt
    (fun p => Unicode.wide (name p)) (fun p => Unicode.wide (location p))
    (fun p => Unicode.wide (status p)) (Some Sample.portfolio)
    (Unicode.code_units "HARBOR") (Unicode.code_units "active")
  = Ok [Sample.tower; Sample.depot].
Proof. vm_compute. reflexivity. Qed.

(** C1 as the specification states it fails twice.  The active project
    named "A", capital sigma, "B" holds the search text "A", capital
    sigma, letter for letter, and the output for that text and the status
    "active" is not the list of the active projects holding the text: it
    is empty, because the text alone ends in a final sigma once
    lower-cased and inside the name it does not.  And a collection with a
    project that has no name has no filtered output at all: the filter
    throws. *)
Lemma filter_drops_a_name_holding_the_text :
  Unicode.ci_substring Demo.excerpt [0x41; 0x3A3]%Z [0x41; 0x3A3; 0x42]%Z
  /\ Search.filteredProjects Demo.excerpt Search.row_name
       Search.row_location Search.row_status (Some [Demo.sigma_row])
       [0x41; 0x3A3]%Z (Unicode.code_units "active")
     = Ok []
  /\ ~ (exists out,
          Search.filteredProjects Demo.excerpt Search.row_name
            Search.row_location Search.row_status (Some [Demo.sigma_row])
            [0x41; 0x3A3]%Z (Unicode.code_units "active")
          = Ok out
          /\ forall p,
               In p out <->
               In p [Demo.sigma_row]
               /\ Search.row_status p = Val (Unicode.code_units "active")
               /\ Search.name_or_location_contains Demo.excerpt
                    Search.row_name Search.row_location [0x41; 0x3A3]%Z p)
  /\ Search.filteredProjects Demo.excerpt Search.row_name
       Search.row_location Search.row_status
       (Some [Demo.sigma_row; Demo.nameless_row])
       [] (Unicode.code_units "active")
     = Throw (TypeError
         "Cannot read properties of undefined (reading 'toLowerCase')")
  /\ ~ (exists out,
          Search.filteredProjects Demo.excerpt Search.row_name
            Search.row_location Search.row_status
            (Some [Demo.sigma_row; Demo.nameless_row])
            [] (Unicode.code_units "active")
          = Ok out).
Proof.
  assert (Hci : Unicode.ci_substring Demo.excerpt [0x41; 0x3A3]%Z
                  [0x41; 0x3A3; 0x42]%Z).
  { exists [], [0x41; 0x3A3]%Z, [0x42]%Z. split; [reflexivity|].
    repeat constructor. }
  assert (Hout : Search.filteredProjects Demo.excerpt Search.row_name
                   Search.row_location Search.row_status
                   (Some [Demo.sigma_row])
                   [0x41; 0x3A3]%Z (Unicode.code_units "active")
                 = Ok []) by (vm_compute; reflexivity).
  assert (Hthrow : Search.filteredProjects Demo.excerpt Search.row_name
                     Search.row_location Search.row_status
                     (Some [Demo.sigma_row; Demo.nameless_row])
                     [] (Unicode.code_units "active")
                   = Throw (TypeError
                       "Cannot read properties of undefined (reading 'toLowerCase')"))
    by (vm_compute; reflexivity).
  split; [exact Hci|]. split; [exact Hout|]. split; [|split].
  - intros (out & E & H). rewrite Hout in E. injection E as <-.
    apply (H Demo.sigma_row). split; [now left|]. split; [reflexivity|].
    left. exists [0x41; 0x3A3; 0x42]%Z. split; [reflexivity | exact Hci].
  - exact Hthrow.
  - intros (out & E). rewrite Hthrow in E. discriminate.
Qed.

(** Outside plain text the filter and containment up to case part ways.
    The project named with the capital I with dot above, whose lowercase
    form is two characters, is listed for the text "i", which is not that
    letter in another case; and the project named with the one character
    U+1F600 is listed for the second half of its surrogate pair, which is
    none of its characters. *)
Example text_that_is_not_plain :
  Search.filteredProjects Demo.excerpt Search.row_name Search.row_location
    Search.row_status (Some [Demo.dotted_row]) [0x69]%Z
    (Unicode.code_units "active") = Ok [Demo.dotted_row]
  /\ ~ Unicode.ci_substring Demo.excerpt [0x69]%Z [0x130]%Z
  /\ Search.filteredProjects Demo.excerpt Search.row_name
       Search.row_location Search.row_status (Some [Demo.pair_row])
       [0xDE00]%Z (Unicode.code_units "active") = Ok [Demo.pair_row]
  /\ ~ Unicode.ci_substring Demo.excerpt [0xDE00]%Z [0xD83D; 0xDE00]%Z.
Proof.
  split; [vm_compute; reflexivity|]. split; [|split].
  - intros (pre & seg & post & H & F).
    change (Unicode.StringToCodePoints [0x130]%Z) with [0x130]%Z in H.
    change (Unicode.StringToCodePoints [0x69]%Z) with [0x69]%Z in F.
    inversion F as [|x y l l' Hxy Hr]; subst. inversion Hr; subst.
    destruct pre as [|a [|b pre]]; try discriminate.
    injection H as <- _. vm_compute in Hxy. discriminate.
  - vm_compute. reflexivity.
  - intros (pre & seg & post & H & F).
    change (Unicode.StringToCodePoints [0xD83D; 0xDE00]%Z)
      with [0x1F600]%Z in H.
    change (Unicode.StringToCodePoints [0xDE00]%Z) with [0xDE00]%Z in F.
    inversion F as [|x y l l' Hxy Hr]; subst. inversion Hr; subst.
    destruct pre as [|a [|b pre]]; try discriminate.
    injection H as <- _. vm_compute in Hxy. discriminate.
Qed.

(** Letters that differ in case only are the same letter in the excerpt,
    other letters are not. *)
Example letters_up_to_case :
  Unicode.same_letter Demo.excerpt 0x48%Z 0x68%Z
  /\ Unicode.same_letter Demo.excerpt 0xC9%Z 0xE9%Z
  /\ Unicode.same_letter Demo.excerpt 0x3A3%Z 0x3C3%Z
  /\ ~ Unicode.same_letter Demo.excerpt 0x48%Z 0x69%Z
  /\ ~ Unicode.same_letter Demo.excerpt 0xD7%Z 0xF7%Z.
Proof. repeat split; intros H; vm_compute in H; discriminate. Qed.

Example sigma_lower_cased :
  Unicode.toLowerCase Demo.excerpt [0x41; 0x3A3; 0x42]%Z
  = [0x61; 0x3C3; 0x62]%Z
  /\ Unicode.toLowerCase Demo.excerpt [0x41; 0x3A3]%Z = [0x61; 0x3C2]%Z
  /\ Unicode.toLowerCase Demo.excerpt [0x130]%Z = [0x69; 0x307]%Z.
Proof. repeat split. Qed.

Lemma portfolio_named : Forall has_name Sample.portfolio.
Proof. repeat constructor; eexists; reflexivity. Defined.

Example filteredProjects_sample :
  ProjectsView.filteredProjects (Some Sample.portfolio) "HARBOR" "active"
  = Ok [Sample.tower; Sample.depot].
Proof. reflexivity. Qed.

Example filteredProjects_sample_all :
  ProjectsView.filteredProjects (Some Sample.portfolio) "bridge" "all"
  = Ok [Sample.bridge].
Proof. reflexivity. Qed.

Lemma filter_callback_nameless (t s : string) (p : project) :
  name p = Undefined \/ name p = Null ->
  exists msg, ProjectsView.filter_callback t s p = Throw (TypeError msg).
Proof.
  unfold ProjectsView.filter_callback, ProjectsView.name_lower.
  intros [-> | ->]; simpl; eexists; reflexivity.
Qed.

Lemma filter_callback_ok_named (t s : string) (p : project) (b : bool) :
  ProjectsView.filter_callback t s p = Ok b -> has_name p.
Proof.
  unfold ProjectsView.filter_callback, ProjectsView.name_lower, has_name.
  destruct (name p) as [| |n]; simpl; try discriminate.
  intros _. now exists n.
Qed.

(** C10.  The filter returns a list exactly when every project of the
    collection carries a name.  A missing or null location is tolerated: on
    a named project the callback then decides on the name alone.  A project
    whose name is missing or null makes the whole filter throw a TypeError
    (the read of [toLowerCase]) instead of counting as a non-match. *)
Theorem filteredProjects_total_iff_named (C : list project) (t s : string) :
  ((exists out, ProjectsView.filteredProjects (Some C) t s = Ok out)
   <-> Forall has_name C) /\
  (forall p n,
     name p = Val n ->
     location p = Undefined \/ location p = Null ->
     ProjectsView.filter_callback t s p =
     Ok (includes (toLowerCase n) (toLowerCase t)
         && (String.eqb s "all" || strict_eq_str (status p) s))) /\
  (forall p,
     In p C ->
     name p = Undefined \/ name p = Null ->
     exists msg,
       ProjectsView.filteredProjects (Some C) t s = Throw (TypeError msg)).
Proof.
  split; [|split].
  - split.
    + intros [out H]. apply Forall_forall. intros p Hp. simpl in H.
      destruct (filter_ok_inv _ _ _ H p Hp) as [b Hb].
      exact (filter_callback_ok_named t s p b Hb).
    + intros HC. eexists. now apply filteredProjects_named.
  - intros p n Hn Hl. rewrite (filter_callback_named t s n p Hn).
    unfold ProjectsView.location_matches.
    destruct Hl as [-> | ->]; simpl; now rewrite orb_false_r.
  - intros p Hp Hn. simpl.
    destruct (filter_callback_nameless t s p Hn) as [msg Hmsg].
    destruct (filter_throws _ C p _ Hp Hmsg) as [[msg'] He].
    now exists msg'.
Qed.

(** The filter on a collection holding a nameless row throws, whatever the
    search text and the status filter select. *)
Lemma filteredProjects_total_iff_named_witness :
  (exists out,
     ProjectsView.filteredProjects (Some Sample.portfolio) "harbor" "all"
     = Ok out) /\
  (exists msg,
     ProjectsView.filteredProjects
       (Some [Sample.tower; Sample.nameless]) "harbor" "completed"
     = Throw (TypeError msg)).
Proof.
  split.
  - apply (proj1 (filteredProjects_total_iff_named
                    Sample.portfolio "harbor" "all")).
    exact portfolio_named.
  - apply (proj2 (proj2 (filteredProjects_total_iff_named
                    [Sample.tower; Sample.nameless] "harbor" "completed"))
             Sample.nameless).
    + right; left; reflexivity.
    + left; reflexivity.
Defined.

(** ** Updating a collection by id *)

Section ById.
Context {A : Type}.
Variable key : A -> Z.

Lemma replace_by_id_length (X R : A) (l : list A) :
  List.length (CrudView.replace_by_id key X R l) = List.length l.
Proof. unfold CrudView.replace_by_id. apply length_map. Qed.

Lemma replace_by_id_nth (X R : A) (l : list A) (i : nat) :
  nth_error (CrudView.replace_by_id key X R l) i =
  option_map (fun item => if Z.eqb (key item) (key X) then R else item)
             (nth_error l i).
Proof. unfold CrudView.replace_by_id. apply nth_error_map. Qed.

Lemma replace_by_id_others (X R : A) (l : list A) :
  (forall y, In y l -> key y <> key X) ->
  CrudView.replace_by_id key X R l = l.
Proof.
  intros H. unfold CrudView.replace_by_id.
  rewrite <- (map_id l) at 2. apply map_ext_in. intros y Hy.
  destruct (Z.eqb_spec (key y) (key X)) as [E|_]; [|reflexivity].
  now destruct (H y Hy).
Qed.

Lemma replace_by_id_in_place (X R : A) (pre post : list A) :
  (forall y, In y (pre ++ post)%list -> key y <> key X) ->
  CrudView.replace_by_id key X R (pre ++ X :: post)%list
  = (pre ++ R :: post)%list.
Proof.
  intros H.
  assert (Hpre : CrudView.replace_by_id key X R pre = pre).
  { apply replace_by_id_others. intros y Hy. apply H, in_or_app. now left. }
  assert (Hpost : CrudView.replace_by_id key X R post = post).
  { apply replace_by_id_others. intros y Hy. apply H, in_or_app. now right. }
  unfold CrudView.replace_by_id in *. rewrite map_app. simpl.
  now rewrite Z.eqb_refl, Hpre, Hpost.
Qed.

Lemma remove_by_id_In (k : Z) (l : list A) (x : A) :
  In x (CrudView.remove_by_id key k l) <-> In x l /\ key x <> k.
Proof.
  unfold CrudView.remove_by_id. rewrite filter_In, negb_true_iff, Z.eqb_neq.
  reflexivity.
Qed.

Lemma remove_by_id_others (k : Z) (l : list A) :
  (forall y, In y l -> key y <> k) -> CrudView.remove_by_id key k l = l.
Proof.
  intros H. unfold CrudView.remove_by_id. induction l as [|y l IH]; simpl.
  - reflexivity.
  - destruct (Z.eqb_spec (key y) k) as [E|_]; simpl.
    + now destruct (H y (or_introl eq_refl)).
    + f_equal. apply IH. intros z Hz. apply H. now right.
Qed.

Lemma remove_by_id_exactly (k : Z) (X : A) (pre post : list A) :
  key X = k ->
  (forall y, In y (pre ++ post)%list -> key y <> k) ->
  CrudView.remove_by_id key k (pre ++ X :: post)%list = (pre ++ post)%list.
Proof.
  intros HX H.
  assert (Hpre : CrudView.remove_by_id key k pre = pre).
  { apply remove_by_id_others. intros y Hy. apply H, in_or_app. now left. }
  assert (Hpost : CrudView.remove_by_id key k post = post).
  { apply remove_by_id_others. intros y Hy. apply H, in_or_app. now right. }
  unfold CrudView.remove_by_id in *. rewrite filter_app. simpl.
  rewrite HX, Z.eqb_refl. simpl. now rewrite Hpre, Hpost.
Qed.

End ById.

(** ** Runs of the handlers *)

(** Unfold one handler run up to the answers of the environment. *)
Ltac step_run :=
  cbn [run pbind await confirm alert console_error set_state].

Section CrudRuns.
Context {Item Form : Type}.
Variable item_id : Item -> Z.
Variables title endpoint : string.


Lemma crud_create_resolved (w : world Form Item) (st : CrudView.state Item Form) (R : Item) :
  CrudView.editingItem st = None ->
  server w (CrudView.post endpoint (CrudView.formData st)) = Resolved R ->
  run w (CrudView.handleSubmit item_id title endpoint st) st =
  (tt,
   CrudView.setShowForm false (CrudView.setData (fun prev => R :: prev) st),
   [Called (CrudView.post endpoint (CrudView.formData st))]).
Proof.
  intros He Hs. unfold CrudView.handleSubmit. rewrite He. step_run.
  now rewrite Hs.
Qed.

Lemma crud_edit_resolved (w : world Form Item) (st : CrudView.state Item Form) (X R : Item) :
  CrudView.editingItem st = Some X ->
  server w (CrudView.put (endpoint ++ "/" ++ string_of_Z (item_id X))
                         (CrudView.formData st)) = Resolved R ->
  run w (CrudView.handleSubmit item_id title endpoint st) st =
  (tt,
   CrudView.setShowForm false
     (CrudView.setData (CrudView.replace_by_id item_id X R) st),
   [Called (CrudView.put (endpoint ++ "/" ++ string_of_Z (item_id X))
                         (CrudView.formData st))]).
Proof.
  intros He Hs. unfold CrudView.handleSubmit. rewrite He. step_run.
  now rewrite Hs.
Qed.

Lemma crud_create_rejected (w : world Form Item) (st : CrudView.state Item Form)
    (err : http_error) :
  CrudView.editingItem st = None ->
  server w (CrudView.post endpoint (CrudView.formData st)) = Rejected err ->
  run w (CrudView.handleSubmit item_id title endpoint st) st =
  (tt, st,
   [Called (CrudView.post endpoint (CrudView.formData st));
    Logged ("Failed to save " ++ title ++ ":");
    Alerted ("Error: Could not save the " ++ slice_0_m1 title ++ ".")]).
Proof.
  intros He Hs. unfold CrudView.handleSubmit. rewrite He. step_run.
  now rewrite Hs.
Qed.

Lemma crud_edit_rejected (w : world Form Item) (st : CrudView.state Item Form) (X : Item)
    (err : http_error) :
  CrudView.editingItem st = Some X ->
  server w (CrudView.put (endpoint ++ "/" ++ string_of_Z (item_id X))
                         (CrudView.formData st)) = Rejected err ->
  run w (CrudView.handleSubmit item_id title endpoint st) st =
  (tt, st,
   [Called (CrudView.put (endpoint ++ "/" ++ string_of_Z (item_id X))
                         (CrudView.formData st));
    Logged ("Failed to save " ++ title ++ ":");
    Alerted ("Error: Could not save the " ++ slice_0_m1 title ++ ".")]).
Proof.
  intros He Hs. unfold CrudView.handleSubmit. rewrite He. step_run.
  now rewrite Hs.
Qed.

Lemma crud_delete_declined (w : world Form Item) (st : CrudView.state Item Form) (k : Z) :
  user_confirms w CrudView.delete_prompt = false ->
  run w (CrudView.handleDelete item_id title endpoint k) st = (tt, st, [Asked CrudView.delete_prompt false]).
Proof.
  intros Hc. unfold CrudView.handleDelete. step_run. now rewrite Hc.
Qed.

Lemma crud_delete_resolved (w : world Form Item) (st : CrudView.state Item Form) (k : Z)
    (R : Item) :
  user_confirms w CrudView.delete_prompt = true ->
  server w (CrudView.delete (endpoint ++ "/" ++ string_of_Z k)) = Resolved R ->
  run w (CrudView.handleDelete item_id title endpoint k) st =
  (tt, CrudView.setData (CrudView.remove_by_id item_id k) st,
   [Asked CrudView.delete_prompt true;
    Called (CrudView.delete (endpoint ++ "/" ++ string_of_Z k))]).
Proof.
  intros Hc Hs. unfold CrudView.handleDelete. step_run. rewrite Hc.
  step_run. now rewrite Hs.
Qed.

Lemma crud_delete_rejected (w : world Form Item) (st : CrudView.state Item Form) (k : Z)
    (err : http_error) :
  user_confirms w CrudView.delete_prompt = true ->
  server w (CrudView.delete (endpoint ++ "/" ++ string_of_Z k)) = Rejected err ->
  run w (CrudView.handleDelete item_id title endpoint k) st =
  (tt, st,
   [Asked CrudView.delete_prompt true;
    Called (CrudView.delete (endpoint ++ "/" ++ string_of_Z k));
    Logged ("Failed to delete " ++ title ++ ":");
    Alerted ("Error: Could not delete the " ++ slice_0_m1 title ++ ".")]).
Proof.
  intros Hc Hs. unfold CrudView.handleDelete. step_run. rewrite Hc.
  step_run. now rewrite Hs.
Qed.

End CrudRuns.

Section ProjectsRuns.
Variable w : world ProjectsView.form project.
Variable st : ProjectsView.state.

Lemma projects_create_resolved (R : project) :
  ProjectsView.editingProject st = None ->
  server w (ProjectsView.post "/projects" (ProjectsView.projectFormData st))
  = Resolved R ->
  run w (ProjectsView.handleFormSubmit st) st =
  (tt,
   ProjectsView.setShowForm false
     (ProjectsView.setProjects (fun prev => R :: prev) st),
   [Called (ProjectsView.post "/projects" (ProjectsView.projectFormData st))]).
Proof.
  intros He Hs. unfold ProjectsView.handleFormSubmit. rewrite He. step_run.
  now rewrite Hs.
Qed.

Lemma projects_edit_resolved (X R : project) :
  ProjectsView.editingProject st = Some X ->
  server w (ProjectsView.put ("/projects/" ++ string_of_Z (id X))
                             (ProjectsView.projectFormData st)) = Resolved R ->
  run w (ProjectsView.handleFormSubmit st) st =
  (tt,
   ProjectsView.setShowForm false
     (ProjectsView.setProjects (ProjectsView.replace_by_id X R) st),
   [Called (ProjectsView.put ("/projects/" ++ string_of_Z (id X))
                             (ProjectsView.projectFormData st))]).
Proof.
  intros He Hs. unfold ProjectsView.handleFormSubmit. rewrite He. step_run.
  now rewrite Hs.
Qed.

Lemma projects_create_rejected (err : http_error) :
  ProjectsView.editingProject st = None ->
  server w (ProjectsView.post "/projects" (ProjectsView.projectFormData st))
  = Rejected err ->
  run w (ProjectsView.handleFormSubmit st) st =
  (tt, st,
   [Called (ProjectsView.post "/projects" (ProjectsView.projectFormData st));
    Logged "Failed to save project:";
    Alerted "Error: Could not save the project."]).
Proof.
  intros He Hs. unfold ProjectsView.handleFormSubmit. rewrite He. step_run.
  now rewrite Hs.
Qed.

Lemma projects_edit_rejected (X : project) (err : http_error) :
  ProjectsView.editingProject st = Some X ->
  server w (ProjectsView.put ("/projects/" ++ string_of_Z (id X))
                             (ProjectsView.projectFormData st)) = Rejected err ->
  run w (ProjectsView.handleFormSubmit st) st =
  (tt, st,
   [Called (ProjectsView.put ("/projects/" ++ string_of_Z (id X))
                             (ProjectsView.projectFormData st));
    Logged "Failed to save project:";
    Alerted "Error: Could not save the project."]).
Proof.
  intros He Hs. unfold ProjectsView.handleFormSubmit. rewrite He. step_run.
  now rewrite Hs.
Qed.

Lemma projects_delete_declined (k : Z) :
  user_confirms w ProjectsView.delete_prompt = false ->
  run w (ProjectsView.handleDeleteProject k) st =
  (tt, st, [Asked ProjectsView.delete_prompt false]).
Proof.
  intros Hc. unfold ProjectsView.handleDeleteProject. step_run.
  now rewrite Hc.
Qed.

Lemma projects_delete_resolved (k : Z) (R : project) :
  user_confirms w ProjectsView.delete_prompt = true ->
  server w (ProjectsView.delete ("/projects/" ++ string_of_Z k)) = Resolved R ->
  run w (ProjectsView.handleDeleteProject k) st =
  (tt, ProjectsView.setProjects (ProjectsView.remove_by_id k) st,
   [Asked ProjectsView.delete_prompt true;
    Called (ProjectsView.delete ("/projects/" ++ string_of_Z k))]).
Proof.
  intros Hc Hs. unfold ProjectsView.handleDeleteProject. step_run.
  rewrite Hc. step_run. now rewrite Hs.
Qed.

Lemma projects_delete_rejected (k : Z) (err : http_error) :
  user_confirms w ProjectsView.delete_prompt = true ->
  server w (ProjectsView.delete ("/projects/" ++ string_of_Z k))
  = Rejected err ->
  run w (ProjectsView.handleDeleteProject k) st =
  (tt, st,
   [Asked ProjectsView.delete_prompt true;
    Called (ProjectsView.delete ("/projects/" ++ string_of_Z k));
    Logged "Failed to delete project:";
    Alerted "Error: Could not delete the project."]).
Proof.
  intros Hc Hs. unfold ProjectsView.handleDeleteProject. step_run.
  rewrite Hc. step_run. now rewrite Hs.
Qed.

End ProjectsRuns.

(** ** Create and edit *)

Lemma crud_submit_round_trip {Item Form : Type} (item_id : Item -> Z)
    (title endpoint : string) (w : world Form Item)
    (st : CrudView.state Item Form) (R : Item) :
  let after :=
    CrudView.data
      (final_state w (CrudView.handleSubmit item_id title endpoint st) st) in
  (CrudView.editingItem st = None ->
   server w (CrudView.post endpoint (CrudView.formData st)) = Resolved R ->
   after = R :: CrudView.data st) /\
  (forall X,
     CrudView.editingItem st = Some X ->
     server w (CrudView.put (endpoint ++ "/" ++ string_of_Z (item_id X))
                            (CrudView.formData st)) = Resolved R ->
     List.length after = List.length (CrudView.data st) /\
     (forall i,
        nth_error after i =
        option_map
          (fun item => if Z.eqb (item_id item) (item_id X) then R else item)
          (nth_error (CrudView.data st) i)) /\
     (forall pre post,
        CrudView.data st = (pre ++ X :: post)%list ->
        (forall y, In y (pre ++ post)%list -> item_id y <> item_id X) ->
        after = (pre ++ R :: post)%list)).
Proof.
  unfold final_state. split.
  - intros He Hs.
    now rewrite (crud_create_resolved item_id title endpoint w st R He Hs).
  - intros X He Hs.
    rewrite (crud_edit_resolved item_id title endpoint w st X R He Hs).
    cbn [fst snd]. unfold CrudView.data. cbn.
    split; [apply replace_by_id_length|].
    split; [intros i; apply replace_by_id_nth|].
    intros pre post Hd Hu. rewrite Hd. now apply replace_by_id_in_place.
Qed.

Lemma projects_submit_round_trip (w : world ProjectsView.form project)
    (st : ProjectsView.state) (R : project) :
  let after :=
    ProjectsView.projects
      (final_state w (ProjectsView.handleFormSubmit st) st) in
  (ProjectsView.editingProject st = None ->
   server w (ProjectsView.post "/projects" (ProjectsView.projectFormData st))
   = Resolved R ->
   after = R :: ProjectsView.projects st) /\
  (forall X,
     ProjectsView.editingProject st = Some X ->
     server w (ProjectsView.put ("/projects/" ++ string_of_Z (id X))
                                (ProjectsView.projectFormData st))
     = Resolved R ->
     List.length after = List.length (ProjectsView.projects st) /\
     (forall i,
        nth_error after i =
        option_map (fun p => if Z.eqb (id p) (id X) then R else p)
                   (nth_error (ProjectsView.projects st) i)) /\
     (forall pre post,
        ProjectsView.projects st = (pre ++ X :: post)%list ->
        (forall y, In y (pre ++ post)%list -> id y <> id X) ->
        after = (pre ++ R :: post)%list)).
Proof.
  unfold final_state. split.
  - intros He Hs. now rewrite (projects_create_resolved w st R He Hs).
  - intros X He Hs. rewrite (projects_edit_resolved w st X R He Hs).
    cbn [fst snd]. cbn [ProjectsView.projects ProjectsView.setProjects
                        ProjectsView.setShowForm].
    split; [apply (replace_by_id_length id)|].
    split; [intros i; apply (replace_by_id_nth id)|].
    intros pre post Hd Hu. rewrite Hd. now apply (replace_by_id_in_place id).
Qed.

(** C2.  In the generic CRUD panel and in the projects panel alike: when a
    create call resolves with the echoed row [R], the collection becomes
    [R] followed by the previous items in their order; when the update call
    for the edited item [X] resolves with [R], the collection keeps its
    length, every position holding an item with [X]'s id now holds [R] and
    every other position holds what it held, so that with [X]'s id unique
    the collection is the old one with [R] at [X]'s position. *)
Theorem submit_prepends_and_replaces_in_place :
  (forall (Item Form : Type) (item_id : Item -> Z) (title endpoint : string)
          (w : world Form Item) (st : CrudView.state Item Form) (R : Item),
     let after :=
       CrudView.data
         (final_state w (CrudView.handleSubmit item_id title endpoint st) st) in
     (CrudView.editingItem st = None ->
      server w (CrudView.post endpoint (CrudView.formData st)) = Resolved R ->
      after = R :: CrudView.data st) /\
     (forall X,
        CrudView.editingItem st = Some X ->
        server w (CrudView.put (endpoint ++ "/" ++ string_of_Z (item_id X))
                               (CrudView.formData st)) = Resolved R ->
        List.length after = List.length (CrudView.data st) /\
        (forall i,
           nth_error after i =
           option_map
             (fun item => if Z.eqb (item_id item) (item_id X) then R else item)
             (nth_error (CrudView.data st) i)) /\
        (forall pre post,
           CrudView.data st = (pre ++ X :: post)%list ->
           (forall y, In y (pre ++ post)%list -> item_id y <> item_id X) ->
           after = (pre ++ R :: post)%list))) /\
  (forall (w : world ProjectsView.form project) (st : ProjectsView.state)
          (R : project),
     let after :=
       ProjectsView.projects
         (final_state w (ProjectsView.handleFormSubmit st) st) in
     (ProjectsView.editingProject st = None ->
      server w (ProjectsView.post "/projects" (ProjectsView.projectFormData st))
      = Resolved R ->
      after = R :: ProjectsView.projects st) /\
     (forall X,
        ProjectsView.editingProject st = Some X ->
        server w (ProjectsView.put ("/projects/" ++ string_of_Z (id X))
                                   (ProjectsView.projectFormData st))
        = Resolved R ->
        List.length after = List.length (ProjectsView.projects st) /\
        (forall i,
           nth_error after i =
           option_map (fun p => if Z.eqb (id p) (id X) then R else p)
                      (nth_error (ProjectsView.projects st) i)) /\
        (forall pre post,
           ProjectsView.projects st = (pre ++ X :: post)%list ->
           (forall y, In y (pre ++ post)%list -> id y <> id X) ->
           after = (pre ++ R :: post)%list))).
Proof.
  split.
  - intros Item Form item_id title endpoint w st R.
    apply crud_submit_round_trip.
  - intros w st R. apply projects_submit_round_trip.
Qed.

Lemma portfolio_other_ids :
  forall y, In y ([Sample.tower] ++ [Sample.depot])%list ->
            id y <> id Sample.bridge.
Proof. intros y [<- | [<- | []]]; discriminate. Defined.

(** Creating a project prepends the echoed row; editing the bridge project
    of the sample portfolio puts the echoed row in the bridge's place. *)
Lemma submit_prepends_and_replaces_in_place_witness :
  ProjectsView.projects
    (final_state (Sample.accepting Sample.quay)
       (ProjectsView.handleFormSubmit Sample.creating) Sample.creating)
  = Sample.quay :: Sample.portfolio /\
  ProjectsView.projects
    (final_state (Sample.accepting Sample.bridge_renamed)
       (ProjectsView.handleFormSubmit Sample.editing_bridge)
       Sample.editing_bridge)
  = [Sample.tower; Sample.bridge_renamed; Sample.depot].
Proof.
  split.
  - exact (proj1 (proj2 submit_prepends_and_replaces_in_place
                    (Sample.accepting Sample.quay) Sample.creating Sample.quay)
                 eq_refl eq_refl).
  - exact (proj2 (proj2
             (proj2 (proj2 submit_prepends_and_replaces_in_place
                       (Sample.accepting Sample.bridge_renamed)
                       Sample.editing_bridge Sample.bridge_renamed)
                    Sample.bridge eq_refl eq_refl))
             [Sample.tower] [Sample.depot] eq_refl portfolio_other_ids).
Defined.

(** ** Delete *)

Lemma call_after_positive_answer {Body : Type} (prompt : string)
    (rest : list (event Body)) (pre post : list (event Body))
    (r : request Body) :
  (Asked prompt true :: rest = pre ++ Called r :: post)%list ->
  In (Asked prompt true) pre.
Proof.
  destruct pre as [|e pre]; simpl; intros H.
  - discriminate.
  - injection H as <- _. now left.
Qed.

Lemma no_call_when_declined {Body : Type} (prompt : string)
    (pre post : list (event Body)) (r : request Body) :
  ([Asked prompt false] = pre ++ Called r :: post)%list -> False.
Proof.
  destruct pre as [|e pre]; simpl; intros H; [discriminate|].
  injection H as _ H. destruct pre; discriminate.
Qed.

Lemma crud_delete_contract {Item Form : Type} (item_id : Item -> Z)
    (title endpoint : string) (w : world Form Item)
    (st : CrudView.state Item Form) (k : Z) :
  let handler := CrudView.handleDelete item_id title endpoint k in
  let after := CrudView.data (final_state w handler st) in
  (user_confirms w CrudView.delete_prompt = false ->
   final_state w handler st = st /\
   existsb is_call (trace w handler st) = false) /\
  (forall pre r post,
     trace w handler st = (pre ++ Called r :: post)%list ->
     In (Asked CrudView.delete_prompt true) pre) /\
  (forall R,
     user_confirms w CrudView.delete_prompt = true ->
     server w (CrudView.delete (endpoint ++ "/" ++ string_of_Z k))
     = Resolved R ->
     (forall x, In x after <-> In x (CrudView.data st) /\ item_id x <> k) /\
     (forall X pre post,
        CrudView.data st = (pre ++ X :: post)%list ->
        item_id X = k ->
        (forall y, In y (pre ++ post)%list -> item_id y <> k) ->
        after = (pre ++ post)%list)).
Proof.
  unfold final_state, trace. split; [|split].
  - intros Hc.
    now rewrite (crud_delete_declined item_id title endpoint w st k Hc).
  - intros pre r post.
    destruct (user_confirms w CrudView.delete_prompt) eqn:Hc.
    + destruct (server w (CrudView.delete (endpoint ++ "/" ++ string_of_Z k)))
        as [R|err] eqn:Hs.
      * rewrite (crud_delete_resolved item_id title endpoint w st k R Hc Hs).
        apply call_after_positive_answer.
      * rewrite (crud_delete_rejected item_id title endpoint w st k err Hc Hs).
        apply call_after_positive_answer.
    + rewrite (crud_delete_declined item_id title endpoint w st k Hc).
      intros H. destruct (no_call_when_declined _ _ _ _ H).
  - intros R Hc Hs.
    rewrite (crud_delete_resolved item_id title endpoint w st k R Hc Hs).
    cbn [fst snd]. unfold CrudView.data. cbn. split.
    + intros x. apply remove_by_id_In.
    + intros X pre post Hd HX Hu. rewrite Hd.
      now apply remove_by_id_exactly.
Qed.

Lemma projects_delete_contract (w : world ProjectsView.form project)
    (st : ProjectsView.state) (k : Z) :
  let handler := ProjectsView.handleDeleteProject k in
  let after := ProjectsView.projects (final_state w handler st) in
  (user_confirms w ProjectsView.delete_prompt = false ->
   final_state w handler st = st /\
   existsb is_call (trace w handler st) = false) /\
  (forall pre r post,
     trace w handler st = (pre ++ Called r :: post)%list ->
     In (Asked ProjectsView.delete_prompt true) pre) /\
  (forall R,
     user_confirms w ProjectsView.delete_prompt = true ->
     server w (ProjectsView.delete ("/projects/" ++ string_of_Z k))
     = Resolved R ->
     (forall x, In x after <-> In x (ProjectsView.projects st) /\ id x <> k) /\
     (forall X pre post,
        ProjectsView.projects st = (pre ++ X :: post)%list ->
        id X = k ->
        (forall y, In y (pre ++ post)%list -> id y <> k) ->
        after = (pre ++ post)%list)).
Proof.
  unfold final_state, trace. split; [|split].
  - intros Hc. now rewrite (projects_delete_declined w st k Hc).
  - intros pre r post.
    destruct (user_confirms w ProjectsView.delete_prompt) eqn:Hc.
    + destruct (server w (ProjectsView.delete ("/projects/" ++ string_of_Z k)))
        as [R|err] eqn:Hs.
      * rewrite (projects_delete_resolved w st k R Hc Hs).
        apply call_after_positive_answer.
      * rewrite (projects_delete_rejected w st k err Hc Hs).
        apply call_after_positive_answer.
    + rewrite (projects_delete_declined w st k Hc).
      intros H. destruct (no_call_when_declined _ _ _ _ H).
  - intros R Hc Hs. rewrite (projects_delete_resolved w st k R Hc Hs).
    cbn [fst snd]. cbn [ProjectsView.projects ProjectsView.setProjects].
    split.
    + intros x. apply (remove_by_id_In id).
    + intros X pre post Hd HX Hu. rewrite Hd.
      now apply (remove_by_id_exactly id).
Qed.

(** C5.  In the generic CRUD panel and in the projects panel alike: if the
    user declines the confirm dialog, the handler makes no HTTP call and
    leaves the state as it was; in every run, an HTTP call is preceded by a
    positive answer to the confirm dialog; and when the user confirms and
    the delete call resolves, the collection afterwards holds exactly the
    previous items whose id differs from [k], so that with a single item of
    id [k] the collection is the old one without that item. *)
Theorem delete_removes_exactly_after_confirmation :
  (forall (Item Form : Type) (item_id : Item -> Z) (title endpoint : string)
          (w : world Form Item) (st : CrudView.state Item Form) (k : Z),
     let handler := CrudView.handleDelete item_id title endpoint k in
     let after := CrudView.data (final_state w handler st) in
     (user_confirms w CrudView.delete_prompt = false ->
      final_state w handler st = st /\
      existsb is_call (trace w handler st) = false) /\
     (forall pre r post,
        trace w handler st = (pre ++ Called r :: post)%list ->
        In (Asked CrudView.delete_prompt true) pre) /\
     (forall R,
        user_confirms w CrudView.delete_prompt = true ->
        server w (CrudView.delete (endpoint ++ "/" ++ string_of_Z k))
        = Resolved R ->
        (forall x, In x after <-> In x (CrudView.data st) /\ item_id x <> k) /\
        (forall X pre post,
           CrudView.data st = (pre ++ X :: post)%list ->
           item_id X = k ->
           (forall y, In y (pre ++ post)%list -> item_id y <> k) ->
           after = (pre ++ post)%list))) /\
  (forall (w : world ProjectsView.form project) (st : ProjectsView.state)
          (k : Z),
     let handler := ProjectsView.handleDeleteProject k in
     let after := ProjectsView.projects (final_state w handler st) in
     (user_confirms w ProjectsView.delete_prompt = false ->
      final_state w handler st = st /\
      existsb is_call (trace w handler st) = false) /\
     (forall pre r post,
        trace w handler st = (pre ++ Called r :: post)%list ->
        In (Asked ProjectsView.delete_prompt true) pre) /\
     (forall R,
        user_confirms w ProjectsView.delete_prompt = true ->
        server w (ProjectsView.delete ("/projects/" ++ string_of_Z k))
        = Resolved R ->
        (forall x,
           In x after <-> In x (ProjectsView.projects st) /\ id x <> k) /\
        (forall X pre post,
           ProjectsView.projects st = (pre ++ X :: post)%list ->
           id X = k ->
           (forall y, In y (pre ++ post)%list -> id y <> k) ->
           after = (pre ++ post)%list))).
Proof.
  split.
  - intros Item Form item_id title endpoint w st k.
    apply crud_delete_contract.
  - intros w st k. apply projects_delete_contract.
Qed.

(** Deleting the bridge project of the sample portfolio: declined, nothing
    happens; confirmed, the bridge alone is gone. *)
Lemma delete_removes_exactly_after_confirmation_witness :
  (final_state Sample.declining (ProjectsView.handleDeleteProject 2)
               Sample.creating = Sample.creating /\
   existsb is_call
     (trace Sample.declining (ProjectsView.handleDeleteProject 2)
            Sample.creating) = false) /\
  ProjectsView.projects
    (final_state (Sample.accepting Sample.quay)
                 (ProjectsView.handleDeleteProject 2) Sample.creating)
  = [Sample.tower; Sample.depot].
Proof.
  split.
  - exact (proj1 (proj2 delete_removes_exactly_after_confirmation
                    Sample.declining Sample.creating 2%Z) eq_refl).
  - exact (proj2 (proj2 (proj2
             (proj2 delete_removes_exactly_after_confirmation
                (Sample.accepting Sample.quay) Sample.creating 2%Z))
             Sample.quay eq_refl eq_refl)
             Sample.bridge [Sample.tower] [Sample.depot] eq_refl eq_refl
             portfolio_other_ids).
Defined.

(** ** Failed mutations *)

Lemma crud_failure_contract {Item Form : Type} (item_id : Item -> Z)
    (title endpoint : string) (w : world Form Item)
    (st : CrudView.state Item Form) (err : http_error) :
  let submit := CrudView.handleSubmit item_id title endpoint st in
  (CrudView.editingItem st = None ->
   server w (CrudView.post endpoint (CrudView.formData st)) = Rejected err ->
   final_state w submit st = st /\
   existsb is_alert (trace w submit st) = true) /\
  (forall X,
     CrudView.editingItem st = Some X ->
     server w (CrudView.put (endpoint ++ "/" ++ string_of_Z (item_id X))
                            (CrudView.formData st)) = Rejected err ->
     final_state w submit st = st /\
     existsb is_alert (trace w submit st) = true) /\
  (forall k,
     let delete := CrudView.handleDelete item_id title endpoint k in
     user_confirms w CrudView.delete_prompt = true ->
     server w (CrudView.delete (endpoint ++ "/" ++ string_of_Z k))
     = Rejected err ->
     final_state w delete st = st /\
     existsb is_alert (trace w delete st) = true).
Proof.
  unfold final_state, trace. split; [|split].
  - intros He Hs.
    now rewrite (crud_create_rejected item_id title endpoint w st err He Hs).
  - intros X He Hs.
    now rewrite (crud_edit_rejected item_id title endpoint w st X err He Hs).
  - intros k Hc Hs.
    now rewrite (crud_delete_rejected item_id title endpoint w st k err Hc Hs).
Qed.

Lemma projects_failure_contract (w : world ProjectsView.form project)
    (st : ProjectsView.state) (err : http_error) :
  let submit := ProjectsView.handleFormSubmit st in
  (ProjectsView.editingProject st = None ->
   server w (ProjectsView.post "/projects" (ProjectsView.projectFormData st))
   = Rejected err ->
   final_state w submit st = st /\
   existsb is_alert (trace w submit st) = true) /\
  (forall X,
     ProjectsView.editingProject st = Some X ->
     server w (ProjectsView.put ("/projects/" ++ string_of_Z (id X))
                                (ProjectsView.projectFormData st))
     = Rejected err ->
     final_state w submit st = st /\
     existsb is_alert (trace w submit st) = true) /\
  (forall k,
     let delete := ProjectsView.handleDeleteProject k in
     user_confirms w ProjectsView.delete_prompt = true ->
     server w (ProjectsView.delete ("/projects/" ++ string_of_Z k))
     = Rejected err ->
     final_state w delete st = st /\
     existsb is_alert (trace w delete st) = true).
Proof.
  unfold final_state, trace. split; [|split].
  - intros He Hs. now rewrite (projects_create_rejected w st err He Hs).
  - intros X He Hs. now rewrite (projects_edit_rejected w st X err He Hs).
  - intros k Hc Hs. now rewrite (projects_delete_rejected w st k err Hc Hs).
Qed.

(** C6.  In the generic CRUD panel and in the projects panel alike: when
    the create call, the update call or the (confirmed) delete call is
    rejected, the handler runs to its end, the whole component state after
    it is the state before it (the cached collection, and with it the open
    form, its contents and the item being edited), and an alert has been
    shown.  A later attempt therefore starts from the same state. *)
Theorem failed_mutation_changes_nothing_and_alerts :
  (forall (Item Form : Type) (item_id : Item -> Z) (title endpoint : string)
          (w : world Form Item) (st : CrudView.state Item Form)
          (err : http_error),
     let submit := CrudView.handleSubmit item_id title endpoint st in
     (CrudView.editingItem st = None ->
      server w (CrudView.post endpoint (CrudView.formData st)) = Rejected err ->
      final_state w submit st = st /\
      existsb is_alert (trace w submit st) = true) /\
     (forall X,
        CrudView.editingItem st = Some X ->
        server w (CrudView.put (endpoint ++ "/" ++ string_of_Z (item_id X))
                               (CrudView.formData st)) = Rejected err ->
        final_state w submit st = st /\
        existsb is_alert (trace w submit st) = true) /\
     (forall k,
        let delete := CrudView.handleDelete item_id title endpoint k in
        user_confirms w CrudView.delete_prompt = true ->
        server w (CrudView.delete (endpoint ++ "/" ++ string_of_Z k))
        = Rejected err ->
        final_state w delete st = st /\
        existsb is_alert (trace w delete st) = true)) /\
  (forall (w : world ProjectsView.form project) (st : ProjectsView.state)
          (err : http_error),
     let submit := ProjectsView.handleFormSubmit st in
     (ProjectsView.editingProject st = None ->
      server w (ProjectsView.post "/projects" (ProjectsView.projectFormData st))
      = Rejected err ->
      final_state w submit st = st /\
      existsb is_alert (trace w submit st) = true) /\
     (forall X,
        ProjectsView.editingProject st = Some X ->
        server w (ProjectsView.put ("/projects/" ++ string_of_Z (id X))
                                   (ProjectsView.projectFormData st))
        = Rejected err ->
        final_state w submit st = st /\
        existsb is_alert (trace w submit st) = true) /\
     (forall k,
        let delete := ProjectsView.handleDeleteProject k in
        user_confirms w ProjectsView.delete_prompt = true ->
        server w (ProjectsView.delete ("/projects/" ++ string_of_Z k))
        = Rejected err ->
        final_state w delete st = st /\
        existsb is_alert (trace w delete st) = true)).
Proof.
  split.
  - intros Item Form item_id title endpoint w st err.
    apply crud_failure_contract.
  - intros w st err. apply projects_failure_contract.
Qed.

(** The server answers 500 to a create, to an edit and to a delete in the
    projects panel: each time the panel is as before and an alert was
    shown; the form is still open. *)
Lemma failed_mutation_changes_nothing_and_alerts_witness :
  (final_state Sample.refusing
     (ProjectsView.handleFormSubmit Sample.creating) Sample.creating
   = Sample.creating /\
   existsb is_alert
     (trace Sample.refusing
        (ProjectsView.handleFormSubmit Sample.creating) Sample.creating)
   = true) /\
  (final_state Sample.refusing
     (ProjectsView.handleFormSubmit Sample.editing_bridge)
     Sample.editing_bridge
   = Sample.editing_bridge /\
   existsb is_alert
     (trace Sample.refusing
        (ProjectsView.handleFormSubmit Sample.editing_bridge)
        Sample.editing_bridge)
   = true) /\
  (final_state Sample.refusing
     (ProjectsView.handleDeleteProject 2) Sample.creating
   = Sample.creating /\
   existsb is_alert
     (trace Sample.refusing
        (ProjectsView.handleDeleteProject 2) Sample.creating)
   = true).
Proof.
  split; [|split].
  - exact (proj1 (proj2 failed_mutation_changes_nothing_and_alerts
                    Sample.refusing Sample.creating Sample.server_failure)
                 eq_refl eq_refl).
  - exact (proj1 (proj2 (proj2 failed_mutation_changes_nothing_and_alerts
                    Sample.refusing Sample.editing_bridge
                    Sample.server_failure))
                 Sample.bridge eq_refl eq_refl).
  - exact (proj2 (proj2 (proj2 failed_mutation_changes_nothing_and_alerts
                    Sample.refusing Sample.creating Sample.server_failure))
                 2%Z eq_refl eq_refl).
Defined.

(** ** The fetch hook *)

Lemma fetch_rejected {Row : Type} (w : world unit (list Row))
    (st : UseData.state Row) (c : ascii) (e : string) (err : http_error) :
  server w (UseData.get (String c e)) = Rejected err ->
  run w (UseData.effect (Some (String c e))) st =
  (tt,
   {| UseData.data := UseData.data st;
      UseData.loading := false;
      UseData.error := Some (UseData.error_message (String c e) err) |},
   [Called (UseData.get (String c e));
    Logged ("Error fetching " ++ String c e ++ ":")]).
Proof.
  intros Hs. unfold UseData.effect, UseData.fetchData. step_run.
  now rewrite Hs.
Qed.

Lemma fetch_resolved {Row : Type} (w : world unit (list Row))
    (st : UseData.state Row) (c : ascii) (e : string) (rows : list Row) :
  server w (UseData.get (String c e)) = Resolved rows ->
  run w (UseData.effect (Some (String c e))) st =
  (tt,
   {| UseData.data := rows; UseData.loading := false; UseData.error := None |},
   [Called (UseData.get (String c e))]).
Proof.
  intros Hs. unfold UseData.effect, UseData.fetchData. step_run.
  now rewrite Hs.
Qed.

Lemma status_is_spec (err : http_error) (code : Z) :
  UseData.status_is err code = true <->
  exists r, err_response err = Some r /\ resp_status r = code.
Proof.
  unfold UseData.status_is. destruct (err_response err) as [r|].
  - rewrite Z.eqb_eq. split.
    + intros H. now exists r.
    + intros (r' & [= <-] & H). exact H.
  - split; [discriminate | intros (r & H & _); discriminate].
Qed.

Lemma status_is_not (err : http_error) (r : error_response) (code : Z) :
  err_response err = Some r -> resp_status r <> code ->
  UseData.status_is err code = false.
Proof.
  intros Hr Hc. unfold UseData.status_is. rewrite Hr. now apply Z.eqb_neq.
Qed.

(** C4.  The message the hook stores for a failed fetch of [endpoint]:
    status 401 gives the session-expired sentence; status 422 gives the
    invalid-request-format sentence naming the endpoint; a network failure
    (no response) gives the generic sentence with the retry prompt; any
    other status gives the generic sentence followed by the server's error
    string when the body carries a non-empty one, and by the retry prompt
    when the body or its error string is absent, null or empty.  A rejected
    fetch stores exactly this message, clears the loading flag and keeps
    the collection. *)
Theorem fetch_failure_message (endpoint : string) (err : http_error) :
  (forall r,
     err_response err = Some r -> resp_status r = 401%Z ->
     UseData.error_message endpoint err =
     "Authentication failed. Your session may have expired.") /\
  (forall r,
     err_response err = Some r -> resp_status r = 422%Z ->
     UseData.error_message endpoint err =
     "Invalid request format for " ++ endpoint ++ ".") /\
  (err_response err = None ->
   UseData.error_message endpoint err =
   "Failed to fetch " ++ endpoint ++ ". Please try again.") /\
  (forall r,
     err_response err = Some r ->
     resp_status r <> 401%Z -> resp_status r <> 422%Z ->
     (forall b c e,
        resp_data r = Some b -> body_error b = Val (String c e) ->
        UseData.error_message endpoint err =
        "Failed to fetch " ++ endpoint ++ ". " ++ String c e) /\
     (resp_data r = None \/
      (exists b, resp_data r = Some b /\
                 (body_error b = Undefined \/ body_error b = Null \/
                  body_error b = Val "")) ->
      UseData.error_message endpoint err =
      "Failed to fetch " ++ endpoint ++ ". Please try again.")) /\
  (forall (Row : Type) (w : world unit (list Row)) (st : UseData.state Row)
          c e,
     endpoint = String c e ->
     server w (UseData.get endpoint) = Rejected err ->
     final_state w (UseData.effect (Some endpoint)) st =
     {| UseData.data := UseData.data st;
        UseData.loading := false;
        UseData.error := Some (UseData.error_message endpoint err) |}).
Proof.
  split; [|split; [|split; [|split]]].
  - intros r Hr Hc. unfold UseData.error_message.
    assert (H : UseData.status_is err 401 = true)
      by (apply status_is_spec; now exists r).
    now rewrite H.
  - intros r Hr Hc. unfold UseData.error_message.
    rewrite (status_is_not err r 401 Hr) by (rewrite Hc; discriminate).
    assert (H : UseData.status_is err 422 = true)
      by (apply status_is_spec; now exists r).
    now rewrite H.
  - intros Hr. unfold UseData.error_message, UseData.status_is,
      UseData.server_error. now rewrite Hr.
  - intros r Hr H401 H422. unfold UseData.error_message.
    rewrite (status_is_not err r 401 Hr H401),
      (status_is_not err r 422 Hr H422).
    unfold UseData.server_error. rewrite Hr. split.
    + intros b c e Hb He. now rewrite Hb, He.
    + intros [Hb | (b & Hb & [He | [He | He]])]; rewrite Hb; try rewrite He;
        reflexivity.
  - intros Row w st c e -> Hs. unfold final_state.
    now rewrite (fetch_rejected w st c e err Hs).
Qed.

(** [GET projects] answered with 401 from the hook's initial state: the
    session-expired message is stored, loading is over and no rows are
    held, so the dashboard shows the message. *)
Lemma fetch_failure_message_witness :
  final_state (Sample.rejecting_fetch Sample.unauthorized)
    (UseData.effect (Some "projects")) UseData.initial
  = {| UseData.data := [];
       UseData.loading := false;
       UseData.error :=
         Some "Authentication failed. Your session may have expired." |}.
Proof.
  exact (proj2 (proj2 (proj2 (proj2
           (fetch_failure_message "projects" Sample.unauthorized))))
           project (Sample.rejecting_fetch Sample.unauthorized)
           UseData.initial "p"%char "rojects" eq_refl eq_refl).
Defined.

Example dashboard_shows_fetch_failure :
  DashboardView.render [] false
    (Some "Authentication failed. Your session may have expired.")
  = DashboardView.ErrorMessage
      "Authentication failed. Your session may have expired.".
Proof. reflexivity. Qed.

(** ** The root controller *)

Lemma no_endpoint_no_call {Row : Type} (w : world unit (list Row))
    (st : UseData.state Row) :
  run w (UseData.effect None) st = (tt, UseData.setLoading false st, []).
Proof. reflexivity. Qed.

(** C7.  While the authenticated flag is false the root component returns
    the login form, whatever the active section, the selected project and
    the state of the projects hook; the hook is handed no endpoint, and its
    effect then performs no HTTP call (it performs no observable effect at
    all and only clears its loading flag). *)
Theorem unauthenticated_renders_login_and_fetches_nothing
    (st : App.state) (hook : UseData.state project)
    (w : world unit (list project)) :
  App.isAuthenticated st = false ->
  App.render st hook = App.LoginForm /\
  App.projects_endpoint st = None /\
  trace w (App.projects_fetch st) hook = [] /\
  existsb is_call (trace w (App.projects_fetch st) hook) = false /\
  final_state w (App.projects_fetch st) hook = UseData.setLoading false hook.
Proof.
  intros H. unfold App.render, App.projects_fetch, App.projects_endpoint,
    trace, final_state. rewrite H. cbn [negb].
  rewrite no_endpoint_no_call. repeat split.
Qed.

(** A signed-out session with section "projects" and project 7 selected,
    even against a server that would answer: login form, no call. *)
Lemma unauthenticated_renders_login_and_fetches_nothing_witness :
  App.isAuthenticated Sample.signed_out = false /\
  App.render Sample.signed_out UseData.initial = App.LoginForm /\
  App.projects_endpoint Sample.signed_out = None /\
  trace (Sample.serving Sample.portfolio)
        (App.projects_fetch Sample.signed_out) UseData.initial = [] /\
  existsb is_call
    (trace (Sample.serving Sample.portfolio)
           (App.projects_fetch Sample.signed_out) UseData.initial) = false /\
  final_state (Sample.serving Sample.portfolio)
    (App.projects_fetch Sample.signed_out) UseData.initial
  = UseData.setLoading false UseData.initial.
Proof.
  split.
  - reflexivity.
  - exact (unauthenticated_renders_login_and_fetches_nothing
             Sample.signed_out UseData.initial
             (Sample.serving Sample.portfolio) eq_refl).
Defined.

(** ** Financial cues of the detail panel *)

Lemma sub_self_zero (s : bool) (m : positive) (e : Z) :
  Number.sub (S754_finite s m e) (S754_finite s m e) = S754_zero false.
Proof.
  unfold Number.sub, SFsub. rewrite Z.min_id. unfold shl_align.
  rewrite !Z.sub_diag. reflexivity.
Qed.

Lemma geb_zero_spec (x : number) :
  Number.geb x Number.zero = true <-> is_zero x \/ is_positive x.
Proof.
  unfold Number.geb, is_zero, is_positive, SFleb, SFltb, Number.zero.
  destruct x as [s|[|]| |[|] m e]; simpl; split; intros H;
    try discriminate; try reflexivity; try (now right);
    try (left; now eexists);
    destruct H as [[s' H]|H]; discriminate.
Qed.

Lemma zero_not_positive (s : bool) : ~ is_positive (S754_zero s).
Proof. unfold is_positive, SFltb. simpl. discriminate. Qed.

Lemma variance_class_spec (p : project) :
  ProjectDetailView.variance_class p = "text-green-600" <->
  Number.geb (ProjectDetailView.variance p) Number.zero = true.
Proof.
  unfold ProjectDetailView.variance_class.
  destruct (Number.geb _ _); split; intros H;
    try reflexivity; discriminate.
Qed.

Lemma change_order_class_spec (c : change_order) :
  ProjectDetailView.change_order_class c = "border-l-4 border-green-500" <->
  Number.geb (Number.to_number (co_amount c)) Number.zero = true.
Proof.
  unfold ProjectDetailView.change_order_class.
  destruct (Number.geb _ _); split; intros H;
    try reflexivity; discriminate.
Qed.

(** C9.  Whatever the locale's number formatting: a project whose budget
    and actual cost are numbers with a difference of exactly zero gets its
    financial summary rendered with the green (favourable) variance class,
    in particular when the two amounts are the same finite number; a change
    order whose amount is exactly zero is rendered with the green border;
    both classes are green exactly when the value is [>= 0], and [>= 0]
    holds exactly for zero and for the strictly positive values, zero not
    being one of the latter. *)
Theorem zero_is_favorable (toLocaleString : number -> string) :
  (forall p b c,
     budget p = Val b -> actual_cost p = Val c ->
     is_zero (Number.sub b c) ->
     exists fs,
       ProjectDetailView.render_financial_summary toLocaleString p = Ok fs /\
       ProjectDetailView.variance_cue fs = "text-green-600") /\
  (forall p s m e,
     budget p = Val (S754_finite s m e) ->
     actual_cost p = Val (S754_finite s m e) ->
     is_zero (ProjectDetailView.variance p) /\
     ProjectDetailView.variance_class p = "text-green-600") /\
  (forall c s,
     co_amount c = Val (S754_zero s) ->
     exists row,
       ProjectDetailView.render_change_order toLocaleString c = Ok row /\
       ProjectDetailView.row_cue row = "border-l-4 border-green-500") /\
  (forall p,
     ProjectDetailView.variance_class p = "text-green-600" <->
     Number.geb (ProjectDetailView.variance p) Number.zero = true) /\
  (forall c,
     ProjectDetailView.change_order_class c = "border-l-4 border-green-500"
     <-> Number.geb (Number.to_number (co_amount c)) Number.zero = true) /\
  (forall x,
     Number.geb x Number.zero = true <-> is_zero x \/ is_positive x) /\
  (forall s, ~ is_positive (S754_zero s)).
Proof.
  split; [|split; [|split; [|split; [|split; [|split]]]]].
  - intros p b c Hb Hc [s Hz].
    unfold ProjectDetailView.render_financial_summary,
      ProjectDetailView.locale_text. rewrite Hb, Hc. simpl.
    eexists. split; [reflexivity|]. simpl.
    apply variance_class_spec. unfold ProjectDetailView.variance.
    rewrite Hb, Hc. simpl. rewrite Hz. reflexivity.
  - intros p s m e Hb Hc.
    assert (Hv : ProjectDetailView.variance p = S754_zero false).
    { unfold ProjectDetailView.variance. rewrite Hb, Hc. simpl.
      apply sub_self_zero. }
    split; [now exists false|].
    apply variance_class_spec. now rewrite Hv.
  - intros c s Hc.
    unfold ProjectDetailView.render_change_order,
      ProjectDetailView.locale_text. rewrite Hc. simpl.
    eexists. split; [reflexivity|]. simpl.
    apply change_order_class_spec. now rewrite Hc.
  - exact variance_class_spec.
  - exact change_order_class_spec.
  - exact geb_zero_spec.
  - exact zero_not_positive.
Qed.

(** The sample project that has spent exactly its budget and carries a
    change order of amount zero shows both green cues. *)
Lemma zero_is_favorable_witness :
  (is_zero (ProjectDetailView.variance Sample.on_budget) /\
   ProjectDetailView.variance_class Sample.on_budget = "text-green-600") /\
  (exists row,
     ProjectDetailView.render_change_order (fun _ => "0")
       {| co_id := 1; co_title := Val "Rebaseline";
          co_amount := Val Number.zero |} = Ok row /\
     ProjectDetailView.row_cue row = "border-l-4 border-green-500").
Proof.
  split.
  - exact (proj1 (proj2 (zero_is_favorable (fun _ => "0")))
             Sample.on_budget false 6871947673600000%positive (-33)%Z
             eq_refl eq_refl).
  - exact (proj1 (proj2 (proj2 (zero_is_favorable (fun _ => "0"))))
             {| co_id := 1; co_title := Val "Rebaseline";
                co_amount := Val Number.zero |} false eq_refl).
Defined.

(** ** Dashboard totals *)

Example in_millions_2_5 :
  DashboardView.in_millions (Number.of_Z 2500000) = "$2.5M".
Proof. vm_compute. reflexivity. Qed.

Example in_millions_1_2 :
  DashboardView.in_millions (Number.of_Z 1200000) = "$1.2M".
Proof. vm_compute. reflexivity. Qed.

(** The quotient is rounded to binary64 before [toFixed] reads it: 150,000
    is displayed as 0.1 million, since the double nearest to 0.15 lies
    below it. *)
Example in_millions_rounds_the_double :
  DashboardView.in_millions (Number.of_Z 150000) = "$0.1M".
Proof. vm_compute. reflexivity. Qed.

Example sample_totals :
  DashboardView.totalBudget Sample.portfolio = Number.of_Z 2500000 /\
  DashboardView.actualCosts Sample.portfolio = Number.of_Z 1200000.
Proof. split; vm_compute; reflexivity. Qed.

(** ** Sums of whole amounts in binary64 *)

Local Open Scope Z_scope.

Lemma digits2_size (p : positive) : digits2_pos p = Pos.size p.
Proof. induction p; simpl; now rewrite ?IHp. Qed.

Lemma iter_xO_shl (p d : positive) : Pos.iter xO p d = shl p (Pos.to_nat d).
Proof. unfold shl. now rewrite Pos2Nat.inj_iter. Qed.

Lemma shl_S (p : positive) (n : nat) : shl p (S n) = ((shl p n)~0)%positive.
Proof. reflexivity. Qed.

Lemma size_shl (p : positive) (n : nat) :
  Zpos (Pos.size (shl p n)) = Zpos (Pos.size p) + Z.of_nat n.
Proof.
  induction n as [|n IH].
  - simpl. lia.
  - rewrite shl_S. cbn [Pos.size].
    rewrite Pos2Z.inj_succ, IH. lia.
Qed.

Lemma shl_add (a b : positive) (n : nat) :
  Zpos (shl a n) + Zpos (shl b n) = Zpos (shl (a + b) n).
Proof.
  induction n as [|n IH].
  - reflexivity.
  - rewrite !shl_S. lia.
Qed.

Lemma shl_shl (p : positive) (n m : nat) : shl (shl p n) m = shl p (m + n).
Proof. unfold shl. now rewrite Nat.iter_add. Qed.

Lemma shl_xO (p : positive) (n : nat) : shl (p~0) n = ((shl p n)~0)%positive.
Proof.
  induction n as [|n IH]; [reflexivity|]. now rewrite !shl_S, IH.
Qed.

Lemma iter_pos_iter {A} (f : A -> A) (k : positive) (x : A) :
  iter_pos f k x = Pos.iter f x k.
Proof.
  revert x. induction k as [k IH|k IH|]; intros x; simpl.
  - rewrite !IH. now rewrite <- !Pos.iter_swap.
  - now rewrite !IH.
  - reflexivity.
Qed.

Lemma shr_nat_exact (n : nat) (q : positive) :
  Nat.iter n shr_1
    {| shr_m := Zpos (shl q n); shr_r := false; shr_s := false |}
  = {| shr_m := Zpos q; shr_r := false; shr_s := false |}.
Proof.
  revert q. induction n as [|n IH]; intros q.
  - reflexivity.
  - cbn [Nat.iter nat_rect]. change (nat_rect _ ?x _ n) with (Nat.iter n shr_1 x).
    replace (shl q (S n)) with (shl (q~0) n) by (now rewrite shl_xO, shl_S).
    now rewrite IH.
Qed.

Lemma shr_exact (q k : positive) :
  iter_pos shr_1 k
    {| shr_m := Zpos (shl q (Pos.to_nat k)); shr_r := false; shr_s := false |}
  = {| shr_m := Zpos q; shr_r := false; shr_s := false |}.
Proof.
  rewrite iter_pos_iter, Pos2Nat.inj_iter. apply shr_nat_exact.
Qed.

Lemma fexp_small (d : Z) :
  1 <= d -> fexp Number.prec Number.emax d = d - 53.
Proof. intros H. unfold fexp, emin, Number.prec, Number.emax. lia. Qed.

(** Rounding a value already canonical leaves it alone. *)
Lemma binary_round_aux_canonical (q : positive) (f : Z) :
  Zpos (Pos.size q) = 53 -> -1074 <= f <= 971 ->
  binary_round_aux Number.prec Number.emax false (Zpos q) f loc_Exact
  = S754_finite false q f.
Proof.
  intros Hq Hf. unfold binary_round_aux, shr_fexp.
  cbn [Zdigits2]. rewrite digits2_size, Hq.
  assert (E : fexp Number.prec Number.emax (53 + f) - f = 0).
  { unfold fexp, emin, Number.prec, Number.emax. lia. }
  rewrite E. cbn [shr shr_record_of_loc shr_m loc_of_shr_record
                  round_nearest_even].
  cbn [Zdigits2]. rewrite digits2_size, Hq, E.
  cbn [shr shr_record_of_loc shr_m].
  unfold Number.emax, Number.prec.
  destruct (Z.leb_spec f (1024 - 53)); [reflexivity | lia].
Qed.

Lemma binary_round_aux_exact (q : positive) (k : nat) (f : Z) :
  Zpos (Pos.size q) = 53 -> -1074 <= f <= 971 ->
  binary_round_aux Number.prec Number.emax false
    (Zpos (shl q k)) (f - Z.of_nat k) loc_Exact
  = S754_finite false q f.
Proof.
  intros Hq Hf.
  unfold binary_round_aux. unfold shr_fexp at 1.
  cbn [Zdigits2]. rewrite digits2_size, size_shl, Hq.
  assert (E : fexp Number.prec Number.emax (53 + Z.of_nat k + (f - Z.of_nat k))
              - (f - Z.of_nat k) = Z.of_nat k).
  { unfold fexp, emin, Number.prec, Number.emax. lia. }
  rewrite E. cbn [shr_record_of_loc].
  assert (S1 : shr {| shr_m := Zpos (shl q k); shr_r := false; shr_s := false |}
                   (f - Z.of_nat k) (Z.of_nat k)
               = ({| shr_m := Zpos q; shr_r := false; shr_s := false |}, f)).
  { destruct k as [|k].
    - cbn [Z.of_nat shr]. f_equal. lia.
    - unfold shr. cbn [Z.of_nat].
      rewrite <- (SuccNat2Pos.id_succ k) at 1.
      rewrite shr_exact. f_equal. lia. }
  rewrite S1. cbn [shr_m loc_of_shr_record round_nearest_even].
  unfold shr_fexp. cbn [Zdigits2]. rewrite digits2_size, Hq.
  assert (E' : fexp Number.prec Number.emax (53 + f) - f = 0).
  { unfold fexp, emin, Number.prec, Number.emax. lia. }
  rewrite E'. cbn [shr shr_record_of_loc shr_m].
  unfold Number.emax, Number.prec.
  destruct (Z.leb_spec f (1024 - 53)); [reflexivity | lia].
Qed.

Lemma binary_round_shl (z : positive) (n : nat) :
  Zpos (Pos.size z) <= 53 ->
  binary_round Number.prec Number.emax false (shl z n) (- Z.of_nat n) =
  S754_finite false (shl z (Z.to_nat (53 - Zpos (Pos.size z))))
              (Zpos (Pos.size z) - 53).
Proof.
  intros Hz. unfold binary_round.
  rewrite digits2_size, size_shl.
  replace (Zpos (Pos.size z) + Z.of_nat n + - Z.of_nat n)
    with (Zpos (Pos.size z)) by lia.
  rewrite fexp_small by lia.
  set (m := Z.to_nat (53 - Zpos (Pos.size z))).
  assert (Hm : Z.of_nat m = 53 - Zpos (Pos.size z)) by (unfold m; lia).
  assert (Hq : Zpos (Pos.size (shl z m)) = 53) by (rewrite size_shl; lia).
  unfold shl_align.
  destruct (Zpos (Pos.size z) - 53 - - Z.of_nat n) as [|d|d] eqn:Hd.
  - replace n with m by lia.
    replace (- Z.of_nat m) with (Zpos (Pos.size z) - 53 - Z.of_nat 0) by lia.
    change (shl z m) with (shl (shl z m) 0) at 1.
    apply binary_round_aux_exact; [exact Hq | lia].
  - replace (shl z n) with (shl (shl z m) (Pos.to_nat d))
      by (rewrite shl_shl; f_equal; lia).
    replace (- Z.of_nat n)
      with (Zpos (Pos.size z) - 53 - Z.of_nat (Pos.to_nat d)) by lia.
    apply binary_round_aux_exact; [exact Hq | lia].
  - rewrite iter_xO_shl, shl_shl.
    replace (Pos.to_nat d + n)%nat with m by lia.
    replace (Zpos (Pos.size z) - 53)
      with (Zpos (Pos.size z) - 53 - Z.of_nat 0) at 1 by lia.
    change (shl z m) with (shl (shl z m) 0) at 1.
    apply binary_round_aux_exact; [exact Hq | lia].
Qed.

Lemma size_le_53 (p : positive) : Zpos p < 2 ^ 53 -> Zpos (Pos.size p) <= 53.
Proof.
  intros H. pose proof (Pos.size_le p) as L.
  apply Pos2Z.pos_le_pos in L. rewrite Pos2Z.inj_pow in L.
  destruct (Z.le_gt_cases (Zpos (Pos.size p)) 53) as [|G]; [assumption|].
  assert (2 ^ 54 <= 2 ^ Zpos (Pos.size p)) by (apply Z.pow_le_mono_r; lia).
  replace (2 ^ 54) with (2 * 2 ^ 53) in * by reflexivity. lia.
Qed.

Lemma size_mono (a b : positive) :
  (a <= b)%positive -> Zpos (Pos.size a) <= Zpos (Pos.size b).
Proof.
  intros H. pose proof (Pos.size_le a) as La. pose proof (Pos.size_gt b) as Gb.
  apply Pos2Z.pos_le_pos in La. apply Pos2Z.pos_lt_pos in Gb.
  rewrite Pos2Z.inj_pow in La, Gb.
  destruct (Z.le_gt_cases (Zpos (Pos.size a)) (Zpos (Pos.size b))) as [|G];
    [assumption|].
  assert (2 ^ (Zpos (Pos.size b) + 1) <= 2 ^ Zpos (Pos.size a))
    by (apply Z.pow_le_mono_r; lia).
  rewrite Z.pow_add_r, Z.pow_1_r in H0 by lia. lia.
Qed.

Lemma of_Z_pos (z : positive) :
  Zpos (Pos.size z) <= 53 ->
  Number.of_Z (Zpos z) =
  S754_finite false (shl z (Z.to_nat (53 - Zpos (Pos.size z))))
              (Zpos (Pos.size z) - 53).
Proof.
  intros H. unfold Number.of_Z, binary_normalize.
  exact (binary_round_shl z 0 H).
Qed.

Lemma shl_align_fst (a : positive) (m n : nat) :
  (m <= n)%nat ->
  fst (shl_align (shl a m) (- Z.of_nat m) (- Z.of_nat n)) = shl a n.
Proof.
  intros H. unfold shl_align.
  destruct (- Z.of_nat n - - Z.of_nat m) as [|d|d] eqn:Hd; cbn [fst].
  - f_equal. lia.
  - lia.
  - rewrite iter_xO_shl, shl_shl. f_equal. lia.
Qed.

Lemma add_of_Z_pos (a b : positive) :
  Zpos (a + b) < 2 ^ 53 ->
  Number.add (Number.of_Z (Zpos a)) (Number.of_Z (Zpos b))
  = Number.of_Z (Zpos (a + b)).
Proof.
  intros H.
  assert (Hab : Zpos (Pos.size (a + b)) <= 53) by now apply size_le_53.
  assert (Ha : Zpos (Pos.size a) <= Zpos (Pos.size (a + b)))
    by (apply size_mono; lia).
  assert (Hb : Zpos (Pos.size b) <= Zpos (Pos.size (a + b)))
    by (apply size_mono; lia).
  rewrite !of_Z_pos by lia.
  unfold Number.add, SFadd.
  set (ma := Z.to_nat (53 - Zpos (Pos.size a))).
  set (mb := Z.to_nat (53 - Zpos (Pos.size b))).
  set (n := Nat.max ma mb).
  replace (Zpos (Pos.size a) - 53) with (- Z.of_nat ma) by (unfold ma; lia).
  replace (Zpos (Pos.size b) - 53) with (- Z.of_nat mb) by (unfold mb; lia).
  replace (Z.min (- Z.of_nat ma) (- Z.of_nat mb)) with (- Z.of_nat n)
    by (unfold n; lia).
  rewrite !shl_align_fst by (unfold n; lia).
  cbn [cond_Zopp]. rewrite shl_add. cbn [binary_normalize].
  apply binary_round_shl. assumption.
Qed.

Lemma add_of_Z (x y : Z) :
  0 <= x -> 0 <= y -> x + y < 2 ^ 53 ->
  Number.add (Number.of_Z x) (Number.of_Z y) = Number.of_Z (x + y).
Proof.
  intros Hx Hy H. destruct x as [|a|a]; [|destruct y as [|b|b]|]; try lia.
  - destruct y as [|b|b]; try lia; [reflexivity|].
    cbn [Z.add]. rewrite of_Z_pos by (apply size_le_53; lia). reflexivity.
  - rewrite Z.add_0_r. rewrite of_Z_pos by (apply size_le_53; lia).
    reflexivity.
  - now apply add_of_Z_pos.
Qed.

Lemma or_zero_of_Z (z : Z) :
  0 <= z -> z < 2 ^ 53 ->
  Number.or_zero (Val (Number.of_Z z)) = Number.of_Z z.
Proof.
  intros H0 H. destruct z as [|p|p]; try lia; [reflexivity|].
  cbn [Number.or_zero]. rewrite of_Z_pos by (apply size_le_53; lia).
  reflexivity.
Qed.

Lemma whole_total_nonneg (get : project -> field number)
    (ps : list project) (zs : list Z) :
  Forall2 (fun p z => whole_amount (get p) z) ps zs -> 0 <= total zs.
Proof.
  induction 1 as [|p z ps zs [Hz _] _ IH]; simpl; [lia|].
  fold (total zs). lia.
Qed.

Lemma fold_add_whole (get : project -> field number) (ps : list project)
    (zs : list Z) (acc : Z) :
  Forall2 (fun p z => whole_amount (get p) z) ps zs ->
  0 <= acc -> acc + total zs < 2 ^ 53 ->
  fold_left (fun sum p => Number.add sum (Number.or_zero (get p))) ps
            (Number.of_Z acc)
  = Number.of_Z (acc + total zs).
Proof.
  intros H. revert acc.
  induction H as [|p z ps zs [Hz Hp] Htl IH]; intros acc Ha Hs.
  - simpl. now rewrite Z.add_0_r.
  - cbn [fold_left total fold_right] in *. fold (total zs) in *.
    pose proof (whole_total_nonneg get ps zs Htl) as Ht.
    assert (E : Number.or_zero (get p) = Number.of_Z z).
    { destruct Hp as [-> | [-> [-> | ->]]]; [|reflexivity|reflexivity].
      apply or_zero_of_Z; lia. }
    rewrite E, add_of_Z by lia.
    rewrite IH by lia. f_equal. lia.
Qed.

Local Close Scope Z_scope.

(** On a collection whose budgets and actual costs are whole non-negative
    amounts (an absent or null one counting as 0) with sums below 2^53, the
    dashboard shows the number of projects and the two sums, each divided
    by one million in binary64 and printed with one decimal; sums of
    2,500,000 and 1,200,000 are shown as "$2.5M" and "$1.2M". *)
Theorem dashboard_shows_whole_totals (projects : list project)
    (budgets costs : list Z) :
  Forall2 (fun p z => whole_amount (budget p) z) projects budgets ->
  Forall2 (fun p z => whole_amount (actual_cost p) z) projects costs ->
  (total budgets < 2 ^ 53)%Z ->
  (total costs < 2 ^ 53)%Z ->
  DashboardView.totalBudget projects = Number.of_Z (total budgets) /\
  DashboardView.actualCosts projects = Number.of_Z (total costs) /\
  DashboardView.render projects false None =
  DashboardView.Overview (List.length projects)
    (DashboardView.in_millions (Number.of_Z (total budgets)))
    (DashboardView.in_millions (Number.of_Z (total costs))) /\
  (total budgets = 2500000%Z -> total costs = 1200000%Z ->
   DashboardView.render projects false None =
   DashboardView.Overview (List.length projects) "$2.5M" "$1.2M").
Proof.
  intros Hb Hc Sb Sc.
  assert (Eb : DashboardView.totalBudget projects = Number.of_Z (total budgets)).
  { unfold DashboardView.totalBudget.
    change Number.zero with (Number.of_Z 0).
    now rewrite (fold_add_whole budget projects budgets 0 Hb). }
  assert (Ec : DashboardView.actualCosts projects = Number.of_Z (total costs)).
  { unfold DashboardView.actualCosts.
    change Number.zero with (Number.of_Z 0).
    now rewrite (fold_add_whole actual_cost projects costs 0 Hc). }
  split; [exact Eb|]. split; [exact Ec|].
  unfold DashboardView.render. rewrite Eb, Ec. split; [reflexivity|].
  intros -> ->. now rewrite in_millions_2_5, in_millions_1_2.
Qed.

Lemma portfolio_budgets :
  Forall2 (fun p z => whole_amount (budget p) z) Sample.portfolio
          [1500000; 1000000; 0]%Z.
Proof.
  unfold Sample.portfolio.
  constructor; [split; [lia | left; reflexivity]|].
  constructor; [split; [lia | left; reflexivity]|].
  constructor; [|constructor].
  split; [lia | right; split; [reflexivity | left; reflexivity]].
Qed.

Lemma portfolio_costs :
  Forall2 (fun p z => whole_amount (actual_cost p) z) Sample.portfolio
          [700000; 500000; 0]%Z.
Proof.
  unfold Sample.portfolio.
  constructor; [split; [lia | left; reflexivity]|].
  constructor; [split; [lia | left; reflexivity]|].
  constructor; [|constructor].
  split; [lia | right; split; [reflexivity | right; reflexivity]].
Qed.

(** The sample portfolio: three projects, budgets 1,500,000 + 1,000,000 and
    one absent, costs 700,000 + 500,000 and one null. *)
Lemma dashboard_shows_whole_totals_witness :
  DashboardView.render Sample.portfolio false None =
  DashboardView.Overview 3 "$2.5M" "$1.2M".
Proof.
  exact (proj2 (proj2 (proj2
           (dashboard_shows_whole_totals Sample.portfolio
              [1500000; 1000000; 0]%Z [700000; 500000; 0]%Z
              portfolio_budgets portfolio_costs eq_refl eq_refl)))
           eq_refl eq_refl).
Defined.

(** ** [parseFloat] and the grammar *)

Lemma span_digits_app (s : string) :
  s = fst (Number.span_digits s) ++ snd (Number.span_digits s).
Proof.
  induction s as [|c s IH]; simpl; [reflexivity|].
  destruct (Number.is_digit c); [|reflexivity].
  destruct (Number.span_digits s) as [ds rest]. simpl in *. now rewrite <- IH.
Qed.

Lemma span_digits_digits (s : string) :
  fst (Number.span_digits s) = "" \/ DecimalDigits (fst (Number.span_digits s)).
Proof.
  induction s as [|c s IH]; simpl; [now left|].
  destruct (Number.is_digit c) eqn:Hc; [|now left].
  destruct (Number.span_digits s) as [ds rest]. simpl in *. right.
  destruct IH as [-> | IH]; [now apply digits_one | now apply digits_more].
Qed.

Lemma span_digits_nonempty (ds rest : string) :
  DecimalDigits ds -> fst (Number.span_digits (ds ++ rest)) <> "".
Proof.
  intros H. destruct H as [c Hc | c ds Hc _]; simpl; rewrite Hc;
    destruct (Number.span_digits _); discriminate.
Qed.

Lemma digit_not_I (c : ascii) :
  Number.is_digit c = true -> Ascii.eqb c "I" = false.
Proof.
  destruct c as [[] [] [] [] [] [] [] []]; (reflexivity || discriminate).
Qed.

Lemma digit_not_sign (c : ascii) :
  Number.is_digit c = true -> c <> "+"%char /\ c <> "-"%char.
Proof.
  destruct c as [[] [] [] [] [] [] [] []]; intros H;
    (discriminate H || (split; discriminate)).
Qed.

Lemma digit_not_point (c : ascii) :
  Number.is_digit c = true -> c <> "."%char.
Proof.
  destruct c as [[] [] [] [] [] [] [] []]; intros H;
    (discriminate H || discriminate).
Qed.

(** What the scanner accepts begins with a literal. *)
Lemma scan_unsigned_sound (u : string) (lit : Number.unsigned_literal) :
  Number.scan_unsigned u = Some lit ->
  exists l rest, u = l ++ rest /\ StrUnsignedDecimalLiteral l.
Proof.
  unfold Number.scan_unsigned.
  destruct (startsWith u "Infinity") eqn:HI.
  - intros _. apply startsWith_spec in HI. destruct HI as [post ->].
    exists "Infinity", post. split; [reflexivity | constructor].
  - pose proof (span_digits_app u) as Hu.
    pose proof (span_digits_digits u) as Ha.
    destruct (Number.span_digits u) as [a r1]. simpl in Hu, Ha.
    destruct Ha as [-> | Ha].
    + (* no integer part: the literal must be a point and digits *)
      simpl in Hu. subst r1.
      destruct u as [|c r]; [discriminate|].
      destruct (Ascii.eqb_spec c ".") as [-> | Hc].
      * pose proof (span_digits_app r) as Hr.
        pose proof (span_digits_digits r) as Hb.
        destruct (Number.span_digits r) as [b r2]. simpl in Hr, Hb.
        destruct Hb as [-> | Hb]; [discriminate|].
        intros _. exists ("." ++ b ++ ""), r2. split.
        -- simpl. now rewrite append_nil_r, Hr.
        -- apply unsigned_frac; [assumption | now left].
      * assert (E : match String c r with
                     | String "." r0 => Number.span_digits r0
                     | _ => ("", String c r)
                     end = ("", String c r)).
        { destruct c as [[] [] [] [] [] [] [] []]; try reflexivity.
          now destruct Hc. }
        rewrite E. discriminate.
    + (* an integer part alone is a literal *)
      intros _. exists (a ++ ""), r1. split.
      * now rewrite append_nil_r.
      * apply unsigned_int; [assumption | now left].
Qed.

Lemma startsWith_digit_Infinity (c : ascii) (s : string) :
  Number.is_digit c = true -> startsWith (String c s) "Infinity" = false.
Proof. intros H. simpl. now rewrite (digit_not_I c H). Qed.

(** Whatever begins with a literal is accepted by the scanner. *)
Lemma scan_unsigned_complete (l rest : string) :
  StrUnsignedDecimalLiteral l -> Number.scan_unsigned (l ++ rest) <> None.
Proof.
  intros H. unfold Number.scan_unsigned. destruct H as [|a b x Ha _ _|b x Hb _|a x Ha _].
  - simpl. discriminate.
  - rewrite append_assoc.
    pose proof (span_digits_nonempty a (("." ++ b ++ x) ++ rest) Ha) as Hn.
    destruct Ha as [c Hc|c ds Hc _]; simpl append in *;
      rewrite (startsWith_digit_Infinity _ _ Hc);
      destruct (Number.span_digits _) as [a' r1]; simpl in Hn;
      destruct (match r1 with String "." r => Number.span_digits r
                            | _ => ("", r1) end) as [b' r2];
      destruct a'; [now destruct Hn | discriminate
                   | now destruct Hn | discriminate].
  - simpl append. cbn [startsWith Ascii.eqb Bool.eqb andb Number.span_digits Number.is_digit].
    rewrite append_assoc.
    pose proof (span_digits_nonempty b (x ++ rest) Hb) as Hn.
    cbv beta iota.
    change (Number.is_digit ".") with false. cbv iota.
    destruct (Number.span_digits (b ++ x ++ rest)) as [b' r2]. simpl in Hn.
    destruct b'; [now destruct Hn | discriminate].
  - rewrite append_assoc.
    pose proof (span_digits_nonempty a (x ++ rest) Ha) as Hn.
    destruct Ha as [c Hc|c ds Hc _]; simpl append in *;
      rewrite (startsWith_digit_Infinity _ _ Hc);
      destruct (Number.span_digits _) as [a' r1]; simpl in Hn;
      destruct (match r1 with String "." r => Number.span_digits r
                            | _ => ("", r1) end) as [b' r2];
      destruct a'; [now destruct Hn | discriminate
                   | now destruct Hn | discriminate].
Qed.

(** Rounding a non-negative mantissa never yields NaN. *)
Lemma shr_1_nonneg (r : shr_record) :
  (0 <= shr_m r)%Z -> (0 <= shr_m (shr_1 r))%Z.
Proof.
  destruct r as [m r s]. simpl. intros H.
  destruct m as [|[p|p|]|p]; simpl; lia.
Qed.

Lemma iter_shr_1_nonneg (k : positive) (r : shr_record) :
  (0 <= shr_m r)%Z -> (0 <= shr_m (iter_pos shr_1 k r))%Z.
Proof.
  revert r. induction k as [k IH|k IH|]; intros r H; simpl.
  - apply IH, IH. now apply shr_1_nonneg.
  - now apply IH, IH.
  - now apply shr_1_nonneg.
Qed.

Lemma shr_fexp_nonneg (m e : Z) (l : SpecFloat.location) :
  (0 <= m)%Z ->
  (0 <= shr_m (fst (shr_fexp Number.prec Number.emax m e l)))%Z.
Proof.
  intros H. unfold shr_fexp, shr.
  assert (H0 : (0 <= shr_m (shr_record_of_loc m l))%Z)
    by (destruct l as [|[]]; exact H).
  destruct (_ - e)%Z; simpl; try exact H0.
  now apply iter_shr_1_nonneg.
Qed.

Lemma round_nearest_even_nonneg (m : Z) (l : SpecFloat.location) :
  (0 <= m)%Z -> (0 <= round_nearest_even m l)%Z.
Proof.
  intros H. destruct l as [|[]]; simpl; try lia.
  destruct (Z.even m); lia.
Qed.

Lemma binary_round_aux_not_nan (s : bool) (m e : Z) (l : SpecFloat.location) :
  (0 <= m)%Z ->
  binary_round_aux Number.prec Number.emax s m e l <> S754_nan.
Proof.
  intros H. unfold binary_round_aux.
  pose proof (shr_fexp_nonneg m e l H) as H1.
  destruct (shr_fexp Number.prec Number.emax m e l) as [mrs' e']. simpl in H1.
  pose proof (shr_fexp_nonneg
                (round_nearest_even (shr_m mrs') (loc_of_shr_record mrs'))
                e' loc_Exact
                (round_nearest_even_nonneg _ _ H1)) as H2.
  destruct (shr_fexp _ _ _ e' loc_Exact) as [mrs'' e'']. simpl in H2.
  destruct (shr_m mrs''); try discriminate.
  - destruct (_ <=? _)%Z; discriminate.
  - lia.
Qed.

Lemma decimal_value_not_nan (neg : bool) (M E : Z) :
  Number.decimal_value neg M E <> S754_nan.
Proof.
  unfold Number.decimal_value. destruct M as [|m|m]; try discriminate.
  destruct (Z.leb_spec 0 E) as [HE|HE].
  - unfold binary_round. destruct (shl_align _ _ _) as [mz ez].
    apply binary_round_aux_not_nan. lia.
  - unfold SFdiv_core_binary.
    set (m' := match _ with Z0 => _ | Zpos _ => _ | Zneg _ => _ end).
    assert (Hm' : (0 <= m')%Z).
    { unfold m'. destruct (_ - _ - _)%Z; try lia.
      rewrite Z.shiftl_mul_pow2 by lia.
      apply Z.mul_nonneg_nonneg; [lia | apply Z.pow_nonneg; lia]. }
    assert (Hd : (0 < 10 ^ (- E))%Z) by (apply Z.pow_pos_nonneg; lia).
    pose proof (Z.div_pos m' (10 ^ (- E)) Hm' Hd) as Hq.
    unfold Z.div in Hq.
    destruct (Z.div_eucl m' (10 ^ (- E))) as [q r]. simpl in Hq.
    now apply binary_round_aux_not_nan.
Qed.


Lemma parseFloat_unfold (v : string) :
  Number.parseFloat v =
  let '(neg, u) := split_sign (Number.trim_start v) in
  match Number.scan_unsigned u with
  | None => Number.nan
  | Some Number.LitInfinity => S754_infinity neg
  | Some (Number.LitDecimal a b e) =>
      Number.decimal_value neg (Number.digits_value 0 (a ++ b))
                           (e - Z.of_nat (String.length b))
  end.
Proof. reflexivity. Qed.

Lemma split_sign_spec (t : string) :
  (exists r, t = String "-" r /\ split_sign t = (true, r)) \/
  (exists r, t = String "+" r /\ split_sign t = (false, r)) \/
  ((forall r, t <> String "-" r) /\ (forall r, t <> String "+" r) /\
   split_sign t = (false, t)).
Proof.
  destruct t as [|c r].
  - right; right. repeat split; discriminate.
  - destruct (Ascii.eqb_spec c "-") as [-> | Hm].
    + left. now exists r.
    + destruct (Ascii.eqb_spec c "+") as [-> | Hp].
      * right; left. now exists r.
      * right; right. split; [|split].
        -- intros r' [= E _]. now destruct Hm.
        -- intros r' [= E _]. now destruct Hp.
        -- destruct c as [[] [] [] [] [] [] [] []]; try reflexivity;
             [now destruct Hp | now destruct Hm].
Qed.

Lemma unsigned_literal_head (l : string) :
  StrUnsignedDecimalLiteral l ->
  exists c s, l = String c s /\ c <> "+"%char /\ c <> "-"%char.
Proof.
  intros H. destruct H as [|a b x Ha _ _|b x _ _|a x Ha _].
  - eexists _, _. split; [reflexivity | split; discriminate].
  - destruct Ha as [d Hd|d ds Hd _]; simpl; eexists _, _;
      (split; [reflexivity | now apply digit_not_sign]).
  - eexists _, _. split; [reflexivity | split; discriminate].
  - destruct Ha as [d Hd|d ds Hd _]; simpl; eexists _, _;
      (split; [reflexivity | now apply digit_not_sign]).
Qed.

Lemma parseFloat_sound (v : string) :
  Number.parseFloat v <> Number.nan -> has_numeric_prefix v.
Proof.
  rewrite parseFloat_unfold. unfold has_numeric_prefix.
  destruct (split_sign_spec (Number.trim_start v))
    as [(r & Ht & ->) | [(r & Ht & ->) | (_ & _ & ->)]];
    cbv beta iota;
    match goal with
    | |- context [Number.scan_unsigned ?u] =>
        destruct (Number.scan_unsigned u) as [lit|] eqn:Hscan;
          [|intros H; now destruct H];
        intros _;
        destruct (scan_unsigned_sound u lit Hscan) as (l & rest & Hu & Hl)
    end.
  - exists (String "-" l), rest. rewrite Ht, Hu. split; [reflexivity|].
    now apply literal_minus.
  - exists (String "+" l), rest. rewrite Ht, Hu. split; [reflexivity|].
    now apply literal_plus.
  - exists l, rest. split; [assumption | now apply literal_unsigned].
Qed.

Lemma parseFloat_complete (v : string) :
  has_numeric_prefix v -> Number.parseFloat v <> Number.nan.
Proof.
  intros (lit & rest & Ht & Hlit). rewrite parseFloat_unfold, Ht.
  assert (Hfinal : forall neg u,
             Number.scan_unsigned u <> None ->
             match Number.scan_unsigned u with
             | None => Number.nan
             | Some Number.LitInfinity => S754_infinity neg
             | Some (Number.LitDecimal a b e) =>
                 Number.decimal_value neg (Number.digits_value 0 (a ++ b))
                                      (e - Z.of_nat (String.length b))
             end <> Number.nan).
  { intros neg u Hu. destruct (Number.scan_unsigned u) as [[|a b e]|];
      [discriminate | apply decimal_value_not_nan | now destruct Hu]. }
  destruct Hlit as [u Hu | u Hu | u Hu].
  - destruct (unsigned_literal_head u Hu) as (c & s & -> & Hp & Hm).
    assert (E : split_sign (String c s ++ rest) = (false, String c s ++ rest)).
    { destruct (split_sign_spec (String c s ++ rest))
        as [(r & Hr & _) | [(r & Hr & _) | (_ & _ & E)]];
        [injection Hr as Hc _; now destruct Hm
        |injection Hr as Hc _; now destruct Hp
        |exact E]. }
    rewrite E. apply Hfinal. now apply scan_unsigned_complete.
  - cbn [append split_sign]. apply Hfinal. now apply scan_unsigned_complete.
  - cbn [append split_sign]. apply Hfinal. now apply scan_unsigned_complete.
Qed.

Lemma parseFloat_or_zero_cases (v : string) :
  (Number.truthy (Number.parseFloat v) = true /\
   Number.parseFloat_or_zero v = Number.parseFloat v) \/
  (Number.truthy (Number.parseFloat v) = false /\
   Number.parseFloat_or_zero v = Number.zero).
Proof.
  unfold Number.parseFloat_or_zero.
  destruct (Number.truthy (Number.parseFloat v)); [left | right]; now split.
Qed.

Lemma falsy_number (x : number) :
  Number.truthy x = false <-> x = Number.nan \/ is_zero x.
Proof.
  unfold is_zero. destruct x as [s|s| |s m e]; simpl; split; intros H;
    try discriminate; try reflexivity.
  - right. now exists s.
  - destruct H as [H | [s' H]]; discriminate.
  - now left.
  - destruct H as [H | [s' H]]; discriminate.
Qed.

(** The budget control.  Whatever text the input hands over, the form's
    budget becomes a number that is neither NaN nor negative zero, and no
    other property of the form changes.  The number is [+0] when the text,
    leading white space apart, begins with no decimal literal; when it does
    begin with one, the number is the value [parseFloat] reads, except that
    a value of zero is stored as [+0]. *)
Theorem budget_input_becomes_a_number (v : string) (f : ProjectsView.form) :
  let f' := ProjectsView.change_budget v f in
  (exists x,
     ProjectsView.form_budget f' = Val (ProjectsView.BudgetNumber x) /\
     x <> Number.nan /\ x <> S754_zero true /\
     (~ has_numeric_prefix v -> x = Number.zero) /\
     (has_numeric_prefix v ->
      x = Number.parseFloat v \/
      (is_zero (Number.parseFloat v) /\ x = Number.zero))) /\
  ProjectsView.form_name f' = ProjectsView.form_name f /\
  ProjectsView.form_description f' = ProjectsView.form_description f /\
  ProjectsView.form_location f' = ProjectsView.form_location f /\
  ProjectsView.form_status f' = ProjectsView.form_status f /\
  ProjectsView.form_progress f' = ProjectsView.form_progress f /\
  ProjectsView.form_row f' = ProjectsView.form_row f.
Proof.
  cbv zeta. split; [|repeat split].
  exists (Number.parseFloat_or_zero v). split; [reflexivity|].
  destruct (parseFloat_or_zero_cases v) as [[Ht ->] | [Hf ->]].
  - split; [|split; [|split]].
    + intros E. rewrite E in Ht. discriminate.
    + intros E. rewrite E in Ht. discriminate.
    + intros Hn. destruct (Number.parseFloat v) eqn:E; try discriminate;
        exfalso; apply Hn, parseFloat_sound; rewrite E; discriminate.
    + intros _. now left.
  - split; [discriminate|]. split; [discriminate|]. split; [reflexivity|].
    intros Hp. right. split; [|reflexivity].
    apply falsy_number in Hf. destruct Hf as [Hnan | Hz]; [|exact Hz].
    now destruct (parseFloat_complete v Hp).
Qed.

(** An emptied input and a pasted word give 0; "12.5" gives 12.5; the
    leading digits of "40 lakh" give 40. *)
Example budget_inputs :
  ProjectsView.form_budget
    (ProjectsView.change_budget "" ProjectsView.blank_form)
  = Val (ProjectsView.BudgetNumber Number.zero) /\
  ProjectsView.form_budget
    (ProjectsView.change_budget "abc" ProjectsView.blank_form)
  = Val (ProjectsView.BudgetNumber Number.zero) /\
  ProjectsView.form_budget
    (ProjectsView.change_budget "12.5" ProjectsView.blank_form)
  = Val (ProjectsView.BudgetNumber
           (Number.div (Number.of_Z 25) (Number.of_Z 2))) /\
  ProjectsView.form_budget
    (ProjectsView.change_budget "40 lakh" ProjectsView.blank_form)
  = Val (ProjectsView.BudgetNumber (Number.of_Z 40)).
Proof. repeat split. Qed.

(** The word "abc" typed into the budget control of the blank form. *)
Lemma budget_input_becomes_a_number_witness :
  exists x,
    ProjectsView.form_budget
      (ProjectsView.change_budget "abc" ProjectsView.blank_form)
    = Val (ProjectsView.BudgetNumber x) /\
    x <> Number.nan /\ x <> S754_zero true /\
    (~ has_numeric_prefix "abc" -> x = Number.zero) /\
    (has_numeric_prefix "abc" ->
     x = Number.parseFloat "abc" \/
     (is_zero (Number.parseFloat "abc") /\ x = Number.zero)).
Proof.
  exact (proj1 (budget_input_becomes_a_number "abc" ProjectsView.blank_form)).
Defined.

(** ** Filling in the project form *)

Lemma control_keeps_the_rest (c : ProjectsView.control) (v : string)
    (f : ProjectsView.form) :
  In c ProjectsView.form_controls ->
  ProjectsView.form_status (ProjectsView.onChange c v f)
  = ProjectsView.form_status f /\
  ProjectsView.form_progress (ProjectsView.onChange c v f)
  = ProjectsView.form_progress f /\
  ProjectsView.form_row (ProjectsView.onChange c v f)
  = ProjectsView.form_row f.
Proof.
  intros [<- | [<- | [<- | [<- | []]]]]; repeat split.
Qed.

Lemma typing_all_frame (edits : list (ProjectsView.control * string))
    (st : ProjectsView.state) :
  through_the_form edits ->
  let st' := typing_all edits st in
  ProjectsView.projects st' = ProjectsView.projects st /\
  ProjectsView.showForm st' = ProjectsView.showForm st /\
  ProjectsView.editingProject st' = ProjectsView.editingProject st /\
  ProjectsView.form_status (ProjectsView.projectFormData st')
  = ProjectsView.form_status (ProjectsView.projectFormData st) /\
  ProjectsView.form_progress (ProjectsView.projectFormData st')
  = ProjectsView.form_progress (ProjectsView.projectFormData st) /\
  ProjectsView.form_row (ProjectsView.projectFormData st')
  = ProjectsView.form_row (ProjectsView.projectFormData st).
Proof.
  unfold through_the_form, typing_all. intros H. revert st.
  induction H as [|[c v] edits Hc _ IH]; intros st; simpl.
  - repeat split.
  - destruct (IH (typing (c, v) st)) as (H1 & H2 & H3 & H4 & H5 & H6).
    destruct (control_keeps_the_rest c v (ProjectsView.projectFormData st) Hc)
      as (K1 & K2 & K3).
    cbv zeta in *. rewrite H1, H2, H3, H4, H5, H6. simpl.
    now rewrite K1, K2, K3.
Qed.

Lemma submit_calls_once (w : world ProjectsView.form project)
    (st : ProjectsView.state) :
  exists rest,
    trace w (ProjectsView.handleFormSubmit st) st =
    Called
      (match ProjectsView.editingProject st with
       | Some X =>
           ProjectsView.put ("/projects/" ++ string_of_Z (id X))
                            (ProjectsView.projectFormData st)
       | None =>
           ProjectsView.post "/projects" (ProjectsView.projectFormData st)
       end) :: rest /\
    existsb is_call rest = false.
Proof.
  unfold trace.
  destruct (ProjectsView.editingProject st) as [X|] eqn:He.
  - destruct (server w (ProjectsView.put ("/projects/" ++ string_of_Z (id X))
                          (ProjectsView.projectFormData st))) as [R|err] eqn:Hs.
    + rewrite (projects_edit_resolved w st X R He Hs). now eexists.
    + rewrite (projects_edit_rejected w st X err He Hs). now eexists.
  - destruct (server w (ProjectsView.post "/projects"
                          (ProjectsView.projectFormData st))) as [R|err] eqn:Hs.
    + rewrite (projects_create_resolved w st R He Hs). now eexists.
    + rewrite (projects_create_rejected w st err He Hs). now eexists.
Qed.

(** Opening the blank form, changing its controls in any way and
    submitting: the form is open in create mode, the project is sent with
    status "planning" and progress 0 whatever was typed, and the submission
    makes exactly one HTTP call, a POST to [/projects] carrying the form
    object. *)
Theorem created_projects_start_as_planning
    (st0 : ProjectsView.state)
    (edits : list (ProjectsView.control * string))
    (w : world ProjectsView.form project) :
  through_the_form edits ->
  let st := typing_all edits (ProjectsView.openForm None st0) in
  ProjectsView.showForm st = true /\
  ProjectsView.editingProject st = None /\
  ProjectsView.projects st = ProjectsView.projects st0 /\
  ProjectsView.form_status (ProjectsView.projectFormData st)
  = Val "planning" /\
  ProjectsView.form_progress (ProjectsView.projectFormData st)
  = Val Number.zero /\
  ProjectsView.form_row (ProjectsView.projectFormData st) = None /\
  exists rest,
    trace w (ProjectsView.handleFormSubmit st) st =
    Called (ProjectsView.post "/projects" (ProjectsView.projectFormData st))
    :: rest /\
    existsb is_call rest = false.
Proof.
  intros H st.
  destruct (typing_all_frame edits (ProjectsView.openForm None st0) H)
    as (H1 & H2 & H3 & H4 & H5 & H6).
  fold st in H1, H2, H3, H4, H5, H6.
  repeat (split; [first [exact H1 | exact H2 | exact H3 | exact H4
                        | exact H5 | exact H6]|]).
  destruct (submit_calls_once w st) as (rest & Ht & Hr).
  rewrite H3 in Ht. now exists rest.
Qed.

(** Opening the form on a project [X], changing its controls in any way
    and submitting: the form still edits [X], and the object sent carries
    [X]'s own status and progress (no control reaches them) together with
    the row it was opened on; the submission makes exactly one HTTP call, a
    PUT to [/projects/] followed by [X]'s id. *)
Theorem edit_form_cannot_change_status_or_progress
    (st0 : ProjectsView.state) (X : project)
    (edits : list (ProjectsView.control * string))
    (w : world ProjectsView.form project) :
  through_the_form edits ->
  let st := typing_all edits (ProjectsView.openForm (Some X) st0) in
  ProjectsView.showForm st = true /\
  ProjectsView.editingProject st = Some X /\
  ProjectsView.projects st = ProjectsView.projects st0 /\
  ProjectsView.form_status (ProjectsView.projectFormData st) = status X /\
  ProjectsView.form_progress (ProjectsView.projectFormData st) = progress X /\
  ProjectsView.form_row (ProjectsView.projectFormData st) = Some X /\
  exists rest,
    trace w (ProjectsView.handleFormSubmit st) st =
    Called (ProjectsView.put ("/projects/" ++ string_of_Z (id X))
                             (ProjectsView.projectFormData st))
    :: rest /\
    existsb is_call rest = false.
Proof.
  intros H st.
  destruct (typing_all_frame edits (ProjectsView.openForm (Some X) st0) H)
    as (H1 & H2 & H3 & H4 & H5 & H6).
  fold st in H1, H2, H3, H4, H5, H6.
  repeat (split; [first [exact H1 | exact H2 | exact H3 | exact H4
                        | exact H5 | exact H6]|]).
  destruct (submit_calls_once w st) as (rest & Ht & Hr).
  rewrite H3 in Ht. now exists rest.
Qed.

Lemma keystrokes_through_the_form : through_the_form Demo.keystrokes.
Proof.
  unfold through_the_form, Demo.keystrokes.
  apply Forall_cons; [left; reflexivity|].
  apply Forall_cons; [right; right; right; left; reflexivity|].
  apply Forall_cons; [right; right; right; left; reflexivity|].
  apply Forall_nil.
Qed.

(** A project created after typing a name and two budget texts. *)
Lemma created_projects_start_as_planning_witness :
  let st := typing_all Demo.keystrokes
              (ProjectsView.openForm None Sample.editing_bridge) in
  ProjectsView.showForm st = true /\
  ProjectsView.editingProject st = None /\
  ProjectsView.projects st = ProjectsView.projects Sample.editing_bridge /\
  ProjectsView.form_status (ProjectsView.projectFormData st)
  = Val "planning" /\
  ProjectsView.form_progress (ProjectsView.projectFormData st)
  = Val Number.zero /\
  ProjectsView.form_row (ProjectsView.projectFormData st) = None /\
  exists rest,
    trace (Sample.accepting Sample.quay)
          (ProjectsView.handleFormSubmit st) st =
    Called (ProjectsView.post "/projects" (ProjectsView.projectFormData st))
    :: rest /\
    existsb is_call rest = false.
Proof.
  exact (created_projects_start_as_planning Sample.editing_bridge
           Demo.keystrokes (Sample.accepting Sample.quay)
           keystrokes_through_the_form).
Defined.

Example created_project_body :
  ProjectsView.projectFormData
    (typing_all Demo.keystrokes
       (ProjectsView.openForm None Sample.editing_bridge))
  = {| ProjectsView.form_name := Val "Pier 7";
       ProjectsView.form_description := Val "";
       ProjectsView.form_budget :=
         Val (ProjectsView.BudgetNumber (Number.of_Z 250000));
       ProjectsView.form_location := Val "";
       ProjectsView.form_status := Val "planning";
       ProjectsView.form_progress := Val Number.zero;
       ProjectsView.form_row := None |}.
Proof. reflexivity. Qed.

(** The same keystrokes in the form opened on the (active) tower project. *)
Lemma edit_form_cannot_change_status_or_progress_witness :
  let st := typing_all Demo.keystrokes
              (ProjectsView.openForm (Some Sample.tower) Sample.creating) in
  ProjectsView.showForm st = true /\
  ProjectsView.editingProject st = Some Sample.tower /\
  ProjectsView.projects st = ProjectsView.projects Sample.creating /\
  ProjectsView.form_status (ProjectsView.projectFormData st)
  = status Sample.tower /\
  ProjectsView.form_progress (ProjectsView.projectFormData st)
  = progress Sample.tower /\
  ProjectsView.form_row (ProjectsView.projectFormData st)
  = Some Sample.tower /\
  exists rest,
    trace Sample.refusing (ProjectsView.handleFormSubmit st) st =
    Called (ProjectsView.put ("/projects/" ++ string_of_Z (id Sample.tower))
                             (ProjectsView.projectFormData st))
    :: rest /\
    existsb is_call rest = false.
Proof.
  exact (edit_form_cannot_change_status_or_progress Sample.creating
           Sample.tower Demo.keystrokes Sample.refusing
           keystrokes_through_the_form).
Defined.

(** ** Signing in and signing up *)

Section LoginRuns.
Variable w : world LoginForm.payload LoginForm.response_data.
Variable c : LoginForm.context.

Lemma login_resolved (data : LoginForm.response_data) :
  LoginForm.isSignUp (LoginForm.form c) = false ->
  server w (LoginForm.submission (LoginForm.form c)) = Resolved data ->
  run w (LoginForm.handleSubmit c) c =
  (tt,
   {| LoginForm.form :=
        LoginForm.setLoading false (LoginForm.setError "" (LoginForm.form c));
      LoginForm.authToken :=
        Some (LoginForm.stored_text (LoginForm.access_token data));
      LoginForm.app := App.handleLogin (LoginForm.app c) |},
   [Called (LoginForm.submission (LoginForm.form c))]).
Proof.
  intros Hm Hs. unfold LoginForm.handleSubmit. step_run.
  rewrite Hs, Hm. reflexivity.
Qed.

Lemma register_resolved (data : LoginForm.response_data) :
  LoginForm.isSignUp (LoginForm.form c) = true ->
  server w (LoginForm.submission (LoginForm.form c)) = Resolved data ->
  run w (LoginForm.handleSubmit c) c =
  (tt,
   {| LoginForm.form :=
        {| LoginForm.isSignUp := false;
           LoginForm.email := LoginForm.email (LoginForm.form c);
           LoginForm.password := "";
           LoginForm.fullName := LoginForm.fullName (LoginForm.form c);
           LoginForm.error := "";
           LoginForm.loading := false |};
      LoginForm.authToken := LoginForm.authToken c;
      LoginForm.app := LoginForm.app c |},
   [Called (LoginForm.submission (LoginForm.form c));
    Alerted "Registration successful! Please log in."]).
Proof.
  intros Hm Hs. unfold LoginForm.handleSubmit. step_run.
  rewrite Hs, Hm. reflexivity.
Qed.

Lemma submit_rejected (err : http_error) :
  server w (LoginForm.submission (LoginForm.form c)) = Rejected err ->
  run w (LoginForm.handleSubmit c) c =
  (tt,
   {| LoginForm.form :=
        LoginForm.setLoading false
          (LoginForm.setError
             (or_else_str (LoginForm.server_error err)
                          "An unexpected error occurred.")
             (LoginForm.form c));
      LoginForm.authToken := LoginForm.authToken c;
      LoginForm.app := LoginForm.app c |},
   [Called (LoginForm.submission (LoginForm.form c))]).
Proof.
  intros Hs. unfold LoginForm.handleSubmit. step_run.
  rewrite Hs. reflexivity.
Qed.

End LoginRuns.

(** A sign-in the server accepts: one POST to [login] carrying the e-mail
    and the password; the token of the response is stored under
    [authToken] as text; the root component becomes authenticated, keeping
    its section and selection, so that it now renders the layout, hands
    [projects] to its fetch hook and later requests carry the token as a
    bearer credential when it is not empty; the form is no longer loading
    and shows no error. *)
Theorem sign_in_stores_the_token_and_authenticates
    (w : world LoginForm.payload LoginForm.response_data)
    (c : LoginForm.context) (data : LoginForm.response_data) :
  LoginForm.isSignUp (LoginForm.form c) = false ->
  server w (LoginForm.post "login"
              (LoginForm.Credentials (LoginForm.email (LoginForm.form c))
                                     (LoginForm.password (LoginForm.form c))))
  = Resolved data ->
  let c' := final_state w (LoginForm.handleSubmit c) c in
  trace w (LoginForm.handleSubmit c) c =
  [Called (LoginForm.post "login"
             (LoginForm.Credentials (LoginForm.email (LoginForm.form c))
                                    (LoginForm.password (LoginForm.form c))))] /\
  LoginForm.authToken c' =
  Some (LoginForm.stored_text (LoginForm.access_token data)) /\
  App.isAuthenticated (LoginForm.app c') = true /\
  App.activeSection (LoginForm.app c') = App.activeSection (LoginForm.app c) /\
  App.selectedProjectId (LoginForm.app c')
  = App.selectedProjectId (LoginForm.app c) /\
  (forall hook, App.render (LoginForm.app c') hook <> App.LoginForm) /\
  App.projects_endpoint (LoginForm.app c') = Some "projects" /\
  (forall ch t,
     LoginForm.access_token data = Val (String ch t) ->
     Api.authorization (LoginForm.authToken c')
     = Some ("Bearer " ++ String ch t)) /\
  LoginForm.loading (LoginForm.form c') = false /\
  LoginForm.error (LoginForm.form c') = "" /\
  LoginForm.email (LoginForm.form c') = LoginForm.email (LoginForm.form c) /\
  LoginForm.isSignUp (LoginForm.form c') = false.
Proof.
  intros Hm Hs c'.
  assert (Hsub : LoginForm.submission (LoginForm.form c) =
                 LoginForm.post "login"
                   (LoginForm.Credentials (LoginForm.email (LoginForm.form c))
                      (LoginForm.password (LoginForm.form c)))).
  { unfold LoginForm.submission. now rewrite Hm. }
  rewrite <- Hsub in Hs.
  pose proof (login_resolved w c data Hm Hs) as Hrun.
  unfold c', final_state, trace. rewrite Hrun, Hsub. cbn [fst snd].
  cbn [LoginForm.authToken LoginForm.app LoginForm.form].
  repeat split; try assumption.
  - intros hook. unfold App.render. simpl. discriminate.
  - intros ch t Ht. rewrite Ht. reflexivity.
Qed.

(** A sign-up the server accepts: one POST to [register] carrying e-mail,
    password and full name, then the confirmation alert; nothing is stored
    and the root component is untouched (the user is still signed out);
    the form switches to sign-in with the password cleared and the e-mail
    and the name kept, not loading and without error. *)
Theorem sign_up_returns_to_sign_in
    (w : world LoginForm.payload LoginForm.response_data)
    (c : LoginForm.context) (data : LoginForm.response_data) :
  LoginForm.isSignUp (LoginForm.form c) = true ->
  server w (LoginForm.post "register"
              (LoginForm.Registration (LoginForm.email (LoginForm.form c))
                                      (LoginForm.password (LoginForm.form c))
                                      (LoginForm.fullName (LoginForm.form c))))
  = Resolved data ->
  let c' := final_state w (LoginForm.handleSubmit c) c in
  trace w (LoginForm.handleSubmit c) c =
  [Called (LoginForm.post "register"
             (LoginForm.Registration (LoginForm.email (LoginForm.form c))
                                     (LoginForm.password (LoginForm.form c))
                                     (LoginForm.fullName (LoginForm.form c))));
   Alerted "Registration successful! Please log in."] /\
  LoginForm.authToken c' = LoginForm.authToken c /\
  LoginForm.app c' = LoginForm.app c /\
  LoginForm.form c' =
  {| LoginForm.isSignUp := false;
     LoginForm.email := LoginForm.email (LoginForm.form c);
     LoginForm.password := "";
     LoginForm.fullName := LoginForm.fullName (LoginForm.form c);
     LoginForm.error := "";
     LoginForm.loading := false |}.
Proof.
  intros Hm Hs c'.
  assert (Hsub : LoginForm.submission (LoginForm.form c) =
                 LoginForm.post "register"
                   (LoginForm.Registration
                      (LoginForm.email (LoginForm.form c))
                      (LoginForm.password (LoginForm.form c))
                      (LoginForm.fullName (LoginForm.form c)))).
  { unfold LoginForm.submission. now rewrite Hm. }
  rewrite <- Hsub in Hs.
  pose proof (register_resolved w c data Hm Hs) as Hrun.
  unfold c', final_state, trace. rewrite Hrun, Hsub. cbn [fst snd].
  repeat split.
Qed.

(** A submission the server rejects, in either mode: one HTTP call and no
    alert; nothing is stored and the root component is untouched; the form
    keeps its mode and its fields, is no longer loading, and shows the
    server's error string when the response carries a non-empty one and
    "An unexpected error occurred." otherwise (network failure included). *)
Theorem rejected_submission_shows_an_error
    (w : world LoginForm.payload LoginForm.response_data)
    (c : LoginForm.context) (err : http_error) :
  server w (LoginForm.submission (LoginForm.form c)) = Rejected err ->
  let c' := final_state w (LoginForm.handleSubmit c) c in
  trace w (LoginForm.handleSubmit c) c =
  [Called (LoginForm.submission (LoginForm.form c))] /\
  LoginForm.authToken c' = LoginForm.authToken c /\
  LoginForm.app c' = LoginForm.app c /\
  LoginForm.isSignUp (LoginForm.form c') = LoginForm.isSignUp (LoginForm.form c) /\
  LoginForm.email (LoginForm.form c') = LoginForm.email (LoginForm.form c) /\
  LoginForm.password (LoginForm.form c')
  = LoginForm.password (LoginForm.form c) /\
  LoginForm.fullName (LoginForm.form c')
  = LoginForm.fullName (LoginForm.form c) /\
  LoginForm.loading (LoginForm.form c') = false /\
  LoginForm.error (LoginForm.form c') <> "" /\
  (forall r b ch e,
     err_response err = Some r -> resp_data r = Some b ->
     body_error b = Val (String ch e) ->
     LoginForm.error (LoginForm.form c') = String ch e) /\
  (err_response err = None ->
   LoginForm.error (LoginForm.form c') = "An unexpected error occurred.").
Proof.
  intros Hs c'. pose proof (submit_rejected w c err Hs) as Hrun.
  unfold c', final_state, trace. rewrite Hrun. cbn [fst snd].
  cbn [LoginForm.authToken LoginForm.app LoginForm.form LoginForm.setLoading
       LoginForm.setError LoginForm.isSignUp LoginForm.email
       LoginForm.password LoginForm.fullName LoginForm.loading
       LoginForm.error].
  repeat split.
  - unfold or_else_str. destruct (LoginForm.server_error err) as [| |[|ch e]];
      discriminate.
  - intros r b ch e Hr Hb He. unfold LoginForm.server_error.
    now rewrite Hr, Hb, He.
  - intros Hr. unfold LoginForm.server_error. now rewrite Hr.
Qed.

(** The walkthrough of the specification: a@b.com / x answered with the
    token "T". *)
Lemma sign_in_stores_the_token_and_authenticates_witness :
  let c' := final_state Demo.granting
              (LoginForm.handleSubmit Demo.signing_in) Demo.signing_in in
  trace Demo.granting (LoginForm.handleSubmit Demo.signing_in)
        Demo.signing_in
  = [Called (LoginForm.post "login" (LoginForm.Credentials "a@b.com" "x"))] /\
  LoginForm.authToken c' = Some "T" /\
  App.isAuthenticated (LoginForm.app c') = true /\
  App.activeSection (LoginForm.app c') = "dashboard" /\
  App.selectedProjectId (LoginForm.app c') = None /\
  (forall hook, App.render (LoginForm.app c') hook <> App.LoginForm) /\
  App.projects_endpoint (LoginForm.app c') = Some "projects" /\
  (forall ch t,
     Val "T" = Val (String ch t) ->
     Api.authorization (LoginForm.authToken c')
     = Some ("Bearer " ++ String ch t)) /\
  LoginForm.loading (LoginForm.form c') = false /\
  LoginForm.error (LoginForm.form c') = "" /\
  LoginForm.email (LoginForm.form c') = "a@b.com" /\
  LoginForm.isSignUp (LoginForm.form c') = false.
Proof.
  exact (sign_in_stores_the_token_and_authenticates Demo.granting
           Demo.signing_in Demo.token_T eq_refl eq_refl).
Defined.

Lemma sign_up_returns_to_sign_in_witness :
  let c' := final_state Demo.granting
              (LoginForm.handleSubmit Demo.signing_up) Demo.signing_up in
  trace Demo.granting (LoginForm.handleSubmit Demo.signing_up)
        Demo.signing_up
  = [Called (LoginForm.post "register"
               (LoginForm.Registration "a@b.com" "x" "Asha Rao"));
     Alerted "Registration successful! Please log in."] /\
  LoginForm.authToken c' = None /\
  LoginForm.app c' = App.initial None /\
  LoginForm.form c' =
  {| LoginForm.isSignUp := false; LoginForm.email := "a@b.com";
     LoginForm.password := ""; LoginForm.fullName := "Asha Rao";
     LoginForm.error := ""; LoginForm.loading := false |}.
Proof.
  exact (sign_up_returns_to_sign_in Demo.granting Demo.signing_up
           Demo.token_T eq_refl eq_refl).
Defined.

Lemma rejected_submission_shows_an_error_witness :
  LoginForm.error
    (LoginForm.form
       (final_state Demo.denying (LoginForm.handleSubmit Demo.signing_up)
                    Demo.signing_up))
  = "Invalid credentials".
Proof.
  destruct (rejected_submission_shows_an_error Demo.denying Demo.signing_up
              Demo.bad_credentials eq_refl)
    as (_ & _ & _ & _ & _ & _ & _ & _ & _ & H & _).
  exact (H _ _ "I"%char "nvalid credentials" eq_refl eq_refl eq_refl).
Defined.

(** ** Sessions *)

Lemma start_ok (authToken : option string) :
  Session.session_ok (Session.start authToken).
Proof.
  split.
  - eexists. split; [left; reflexivity | reflexivity].
  - simpl. split; [reflexivity|].
    destruct authToken as [[|c t]|]; simpl in *; try reflexivity.
    discriminate.
Qed.

Lemma nav_id_listed (item : Sidebar.nav_item) :
  existsb (fun i => String.eqb (Sidebar.nav_id i) (Sidebar.nav_id item))
          Sidebar.navItems = true ->
  exists item', In item' Sidebar.navItems /\
                Sidebar.nav_id item = Sidebar.nav_id item'.
Proof.
  intros H. apply existsb_exists in H. destruct H as (i & Hi & He).
  apply String.eqb_eq in He. now exists i.
Qed.

Lemma step_ok (s : Session.session) (a : Session.action) :
  Session.session_ok s -> Session.session_ok (Session.step s a).
Proof.
  intros [Hsec Hout]. unfold Session.step.
  destruct (Session.enabled s a) eqn:He; [|now split].
  destruct a as [token| |item|pid|]; simpl in He; simpl.
  - split; [exact Hsec | discriminate].
  - split; [exact Hsec | intros _; now split].
  - apply andb_true_iff in He. destruct He as [Ha Hl].
    split; [now apply nav_id_listed | simpl; congruence].
  - apply andb_true_iff in He. destruct He as [He _].
    apply andb_true_iff in He. destruct He as [Ha _].
    split; [exact Hsec | simpl; congruence].
  - apply andb_true_iff in He. destruct He as [Ha _].
    split; [exact Hsec | simpl; congruence].
Qed.

Lemma play_ok (actions : list Session.action) (s : Session.session) :
  Session.session_ok s -> Session.session_ok (Session.play actions s).
Proof.
  unfold Session.play. revert s.
  induction actions as [|a actions IH]; intros s H; simpl; [exact H|].
  now apply IH, step_ok.
Qed.

Lemma one_button_active (item : Sidebar.nav_item) :
  In item Sidebar.navItems ->
  List.length
    (List.filter (Sidebar.is_active (Sidebar.nav_id item)) Sidebar.navItems)
  = 1%nat.
Proof.
  intros [<- | [<- | [<- | [<- | [<- | [<- | []]]]]]]; reflexivity.
Qed.

(** However the page is loaded and whatever the user then does (sign in,
    log out, sidebar entries, "View Details", "Back"): the active section
    is always the id of a sidebar entry, so the router never falls to its
    default branch and exactly one sidebar button is highlighted; and
    whenever the session is signed out, no project is selected and the
    stored token is absent or empty, so the interceptor attaches no
    [Authorization] header. *)
Theorem every_reachable_session_is_consistent
    (authToken : option string) (actions : list Session.action) :
  let s := Session.play actions (Session.start authToken) in
  (exists item,
     In item Sidebar.navItems /\
     App.activeSection (Session.root s) = Sidebar.nav_id item) /\
  List.length
    (List.filter (Sidebar.is_active (App.activeSection (Session.root s)))
                 Sidebar.navItems) = 1%nat /\
  (App.isAuthenticated (Session.root s) = false ->
   App.selectedProjectId (Session.root s) = None /\
   Api.authorization (Session.storage s) = None).
Proof.
  intros s.
  destruct (play_ok actions (Session.start authToken) (start_ok authToken))
    as [(item & Hin & Hsec) Hout].
  fold s in Hsec, Hout. split; [now exists item|]. split; [|exact Hout].
  rewrite Hsec. now apply one_button_active.
Qed.

(** ** Routing *)

(** Clicking a sidebar entry while signed in shows the layout with that
    entry active and the entry's own panel, never the router's default:
    the dashboard and the projects panel on the rows of the hook, and for
    the four resources the generic panel with the matching title and
    endpoint.  Any selected project is deselected. *)
Theorem every_sidebar_entry_has_its_panel
    (st : App.state) (hook : UseData.state project)
    (item : Sidebar.nav_item) :
  In item Sidebar.navItems ->
  App.isAuthenticated st = true ->
  let st' := App.onSectionChange (Sidebar.nav_id item) st in
  App.selectedProjectId st' = None /\
  match App.render st' hook with
  | App.LoginForm => False
  | App.Layout active main =>
      active = Sidebar.nav_id item /\
      match main with
      | App.Dashboard v =>
          Sidebar.nav_id item = "dashboard" /\
          v = DashboardView.render (UseData.data hook) (UseData.loading hook)
                                   (UseData.error hook)
      | App.Projects rows loading error =>
          Sidebar.nav_id item = "projects" /\
          rows = UseData.data hook /\ loading = UseData.loading hook /\
          error = UseData.error hook
      | App.Crud title endpoint _ =>
          In (Sidebar.nav_id item, (title, endpoint))
             [ ("documents", ("Documents", "documents"));
               ("preconstruction", ("Bids", "bids"));
               ("financials", ("Change Orders", "change_orders"));
               ("quality-safety", ("Inspections", "inspections")) ]
      | App.Detail _ | App.LoadingProjectDetails => False
      end
  end.
Proof.
  intros Hin Ha st'. split; [reflexivity|].
  unfold App.render, st'. cbn [App.onSectionChange App.isAuthenticated].
  rewrite Ha. cbn [negb].
  destruct Hin as [<- | [<- | [<- | [<- | [<- | [<- | []]]]]]];
    (split; [reflexivity|]); cbn; auto 10.
Qed.

Lemma financials_listed :
  In {| Sidebar.nav_id := "financials"; Sidebar.label := "Financials";
        Sidebar.icon := "dollar-sign" |} Sidebar.navItems.
Proof. right; right; right; right; left; reflexivity. Qed.

(** The "Financials" entry, clicked while project 7 is selected. *)
Lemma every_sidebar_entry_has_its_panel_witness :
  let st' := App.onSectionChange "financials" Demo.viewing_seven in
  App.selectedProjectId st' = None /\
  match App.render st' UseData.initial with
  | App.LoginForm => False
  | App.Layout active main =>
      active = "financials" /\
      match main with
      | App.Dashboard v =>
          "financials" = "dashboard" /\
          v = DashboardView.render [] true None
      | App.Projects rows loading error =>
          "financials" = "projects" /\
          rows = [] /\ loading = true /\ error = None
      | App.Crud title endpoint _ =>
          In ("financials", (title, endpoint))
             [ ("documents", ("Documents", "documents"));
               ("preconstruction", ("Bids", "bids"));
               ("financials", ("Change Orders", "change_orders"));
               ("quality-safety", ("Inspections", "inspections")) ]
      | App.Detail _ | App.LoadingProjectDetails => False
      end
  end.
Proof.
  exact (every_sidebar_entry_has_its_panel Demo.viewing_seven UseData.initial
           {| Sidebar.nav_id := "financials"; Sidebar.label := "Financials";
              Sidebar.icon := "dollar-sign" |}
           financials_listed eq_refl).
Defined.

(** While signed in with a project selected, the selection decides what is
    shown, whatever the active section: the detail panel of a project of
    the collection with the selected id when there is one, and the loading
    placeholder when there is none.  A selected id of 0 counts as no
    selection. *)
Theorem selected_project_takes_priority
    (st : App.state) (hook : UseData.state project) :
  App.isAuthenticated st = true ->
  (forall sel,
     App.selectedProjectId st = Some sel -> sel <> 0%Z ->
     ((forall p, In p (UseData.data hook) -> id p <> sel) ->
      App.render st hook =
      App.Layout (App.activeSection st) App.LoadingProjectDetails) /\
     ((exists p, In p (UseData.data hook) /\ id p = sel) ->
      exists p,
        In p (UseData.data hook) /\ id p = sel /\
        App.render st hook = App.Layout (App.activeSection st) (App.Detail p))) /\
  (App.selectedProjectId st = Some 0%Z ->
   App.render st hook =
   App.render (App.setSelectedProjectId None st) hook).
Proof.
  intros Ha. split.
  - intros sel Hsel Hnz.
    assert (Hs : App.selected st = Some sel).
    { unfold App.selected. rewrite Hsel. destruct sel; [now destruct Hnz| |];
        reflexivity. }
    unfold App.render, App.renderContent. rewrite Ha, Hs. cbn [negb]. split.
    + intros Hnone.
      destruct (find (fun p => Z.eqb (id p) sel) (UseData.data hook))
        as [p|] eqn:Hf; [|reflexivity].
      apply find_some in Hf. destruct Hf as [Hin He].
      apply Z.eqb_eq in He. now destruct (Hnone p Hin).
    + intros (p & Hin & Hid).
      destruct (find (fun p => Z.eqb (id p) sel) (UseData.data hook))
        as [q|] eqn:Hf.
      * apply find_some in Hf. destruct Hf as [Hq He].
        apply Z.eqb_eq in He. now exists q.
      * pose proof (find_none _ _ Hf p Hin) as Hn. simpl in Hn.
        apply Z.eqb_neq in Hn. now destruct Hn.
  - intros Hsel. unfold App.render, App.renderContent, App.selected.
    now rewrite Hsel.
Qed.

Lemma bridge_is_loaded :
  exists p, In p (UseData.data Demo.loaded) /\ id p = 2%Z.
Proof. exists Sample.bridge. split; [right; left; reflexivity | reflexivity]. Qed.

(** Project 2 selected while the documents section is active and the
    portfolio is loaded: its detail panel is shown. *)
Lemma selected_project_takes_priority_witness :
  exists p,
    In p (UseData.data Demo.loaded) /\ id p = 2%Z /\
    App.render Demo.viewing_two Demo.loaded
    = App.Layout "documents" (App.Detail p).
Proof.
  destruct (selected_project_takes_priority Demo.viewing_two Demo.loaded
              eq_refl) as [H _].
  destruct (H 2%Z eq_refl) as [_ Hfound]; [discriminate|].
  exact (Hfound bridge_is_loaded).
Defined.

(** ** More on the fetch hook *)

(** Every run of the hook's effect ends with the loading flag cleared and
    makes at most one HTTP call, a body-less GET of the endpoint.  With no
    endpoint ([null] or the empty string) nothing observable happens and
    the rows and the error of an earlier fetch stay as they are.  A fetch
    that resolves replaces the rows by the response and clears an earlier
    error. *)
Theorem fetch_settles {Row : Type} (endpoint : option string)
    (w : world unit (list Row)) (st : UseData.state Row) :
  let st' := final_state w (UseData.effect endpoint) st in
  let calls := List.filter is_call (trace w (UseData.effect endpoint) st) in
  UseData.loading st' = false /\
  (calls = [] \/
   exists e,
     endpoint = Some e /\ e <> "" /\
     calls = [Called {| req_method := GET; req_url := e; req_body := None |}]) /\
  (endpoint = None \/ endpoint = Some "" ->
   trace w (UseData.effect endpoint) st = [] /\
   UseData.data st' = UseData.data st /\
   UseData.error st' = UseData.error st) /\
  (forall e rows,
     endpoint = Some e -> e <> "" ->
     server w (UseData.get e) = Resolved rows ->
     UseData.data st' = rows /\ UseData.error st' = None).
Proof.
  cbv zeta. unfold final_state, trace.
  destruct endpoint as [[|c u]|].
  - cbn. split; [reflexivity|]. split; [now left|]. split.
    + intros _. repeat split.
    + intros e rows [= <-] H. now destruct H.
  - destruct (server w (UseData.get (String c u))) as [rows|err] eqn:Hs.
    + rewrite (fetch_resolved w st c u rows Hs). cbn.
      split; [reflexivity|]. split; [|split].
      * right. exists (String c u). repeat split. discriminate.
      * intros [H | H]; discriminate.
      * intros e rows' [= <-] _ H. rewrite Hs in H. injection H as <-.
        now split.
    + rewrite (fetch_rejected w st c u err Hs). cbn.
      split; [reflexivity|]. split; [|split].
      * right. exists (String c u). repeat split. discriminate.
      * intros [H | H]; discriminate.
      * intros e rows' [= <-] _ H. rewrite Hs in H. discriminate.
  - cbn. split; [reflexivity|]. split; [now left|]. split.
    + intros _. repeat split.
    + intros e rows H. discriminate.
Qed.

(** After a logout the hook is handed [null]: the rows of the signed-in
    session stay in the hook. *)
Lemma fetch_settles_witness :
  trace (Sample.serving []) (UseData.effect None) Demo.loaded = [] /\
  UseData.data
    (final_state (Sample.serving []) (UseData.effect None) Demo.loaded)
  = Sample.portfolio /\
  UseData.error
    (final_state (Sample.serving []) (UseData.effect None) Demo.loaded)
  = None.
Proof.
  exact (proj1 (proj2 (proj2
           (fetch_settles None (Sample.serving []) Demo.loaded)))
           (or_introl eq_refl)).
Defined.

(** ** Rows that are gone *)

(** In both panels a successful edit never inserts and a successful delete
    never removes a bystander: when no item of the collection carries the
    id of the edited item, the collection is left as it is (the echoed row
    is dropped) while the form closes; when no item carries the deleted
    id, the collection is left as it is.  An edit never changes the length
    and a delete never increases it. *)
Theorem updates_of_absent_rows_change_nothing :
  (forall (Item Form : Type) (item_id : Item -> Z) (title endpoint : string)
          (w : world Form Item) (st : CrudView.state Item Form) (R : Item),
     (forall X,
        CrudView.editingItem st = Some X ->
        server w (CrudView.put (endpoint ++ "/" ++ string_of_Z (item_id X))
                               (CrudView.formData st)) = Resolved R ->
        let st' :=
          final_state w (CrudView.handleSubmit item_id title endpoint st) st in
        CrudView.showForm st' = false /\
        List.length (CrudView.data st') = List.length (CrudView.data st) /\
        ((forall y, In y (CrudView.data st) -> item_id y <> item_id X) ->
         CrudView.data st' = CrudView.data st)) /\
     (forall k,
        user_confirms w CrudView.delete_prompt = true ->
        server w (CrudView.delete (endpoint ++ "/" ++ string_of_Z k))
        = Resolved R ->
        let st' :=
          final_state w (CrudView.handleDelete item_id title endpoint k) st in
        (List.length (CrudView.data st') <= List.length (CrudView.data st))%nat /\
        ((forall y, In y (CrudView.data st) -> item_id y <> k) ->
         CrudView.data st' = CrudView.data st))) /\
  (forall (w : world ProjectsView.form project) (st : ProjectsView.state)
          (R : project),
     (forall X,
        ProjectsView.editingProject st = Some X ->
        server w (ProjectsView.put ("/projects/" ++ string_of_Z (id X))
                                   (ProjectsView.projectFormData st))
        = Resolved R ->
        let st' := final_state w (ProjectsView.handleFormSubmit st) st in
        ProjectsView.showForm st' = false /\
        List.length (ProjectsView.projects st')
        = List.length (ProjectsView.projects st) /\
        ((forall y, In y (ProjectsView.projects st) -> id y <> id X) ->
         ProjectsView.projects st' = ProjectsView.projects st)) /\
     (forall k,
        user_confirms w ProjectsView.delete_prompt = true ->
        server w (ProjectsView.delete ("/projects/" ++ string_of_Z k))
        = Resolved R ->
        let st' := final_state w (ProjectsView.handleDeleteProject k) st in
        (List.length (ProjectsView.projects st')
         <= List.length (ProjectsView.projects st))%nat /\
        ((forall y, In y (ProjectsView.projects st) -> id y <> k) ->
         ProjectsView.projects st' = ProjectsView.projects st))).
Proof.
  split.
  - intros Item Form item_id title endpoint w st R. split.
    + intros X He Hs. cbv zeta. unfold final_state.
      rewrite (crud_edit_resolved item_id title endpoint w st X R He Hs).
      cbn [fst snd]. unfold CrudView.data. cbn.
      split; [reflexivity|]. split; [apply replace_by_id_length|].
      apply replace_by_id_others.
    + intros k Hc Hs. cbv zeta. unfold final_state.
      rewrite (crud_delete_resolved item_id title endpoint w st k R Hc Hs).
      cbn [fst snd]. unfold CrudView.data. cbn.
      split; [apply filter_length_le | apply remove_by_id_others].
  - intros w st R. split.
    + intros X He Hs. cbv zeta. unfold final_state.
      rewrite (projects_edit_resolved w st X R He Hs).
      cbn [fst snd]. cbn.
      split; [reflexivity|]. split; [apply (replace_by_id_length id)|].
      apply (replace_by_id_others id).
    + intros k Hc Hs. cbv zeta. unfold final_state.
      rewrite (projects_delete_resolved w st k R Hc Hs).
      cbn [fst snd]. cbn.
      split; [apply filter_length_le | apply (remove_by_id_others id)].
Qed.

Lemma quay_not_listed :
  forall y, In y (ProjectsView.projects Demo.editing_quay) ->
            id y <> id Sample.quay.
Proof. intros y [<- | [<- | [<- | []]]]; discriminate. Qed.

(** The form was opened on a project that has since left the collection:
    the echoed row is not added. *)
Lemma updates_of_absent_rows_change_nothing_witness :
  ProjectsView.projects
    (final_state (Sample.accepting Sample.quay)
       (ProjectsView.handleFormSubmit Demo.editing_quay) Demo.editing_quay)
  = Sample.portfolio.
Proof.
  destruct updates_of_absent_rows_change_nothing as [_ H].
  destruct (H (Sample.accepting Sample.quay) Demo.editing_quay Sample.quay)
    as [He _].
  destruct (He Sample.quay eq_refl eq_refl) as (_ & _ & Hsame).
  exact (Hsame quay_not_listed).
Defined.

(** ** Narrowing the list of projects *)





Example narrowing_sample :
  Search.filteredProjects Demo.excerpt
    (fun p => Unicode.wide (name p)) (fun p => Unicode.wide (location p))
    (fun p => Unicode.wide (status p)) (Some Sample.portfolio)
    (Unicode.code_units "bor") (Unicode.code_units "active")
  = Ok [Sample.tower; Sample.depot] /\
  Search.filteredProjects Demo.excerpt
    (fun p => Unicode.wide (name p)) (fun p => Unicode.wide (location p))
    (fun p => Unicode.wide (status p)) (Some Sample.portfolio)
    (Unicode.code_units "harbor t") (Unicode.code_units "active")
  = Ok [Sample.tower].
Proof. split; vm_compute; reflexivity. Qed.

(** With a capital sigma at the end of the search text a project that has
    dropped out comes back when one more letter is typed. *)
Example sigma_brings_a_project_back :
  Search.filteredProjects Demo.excerpt Search.row_name Search.row_location
    Search.row_status (Some [Demo.sigma_row]) [0x41]%Z
    (Unicode.code_units "all") = Ok [Demo.sigma_row]
  /\ Search.filteredProjects Demo.excerpt Search.row_name
       Search.row_location Search.row_status (Some [Demo.sigma_row])
       [0x41; 0x3A3]%Z (Unicode.code_units "all") = Ok []
  /\ Search.filteredProjects Demo.excerpt Search.row_name
       Search.row_location Search.row_status (Some [Demo.sigma_row])
       [0x41; 0x3A3; 0x42]%Z (Unicode.code_units "all")
     = Ok [Demo.sigma_row].
Proof. repeat split. Qed.

(** ** The tabs of the project detail panel *)

Lemma locale_text_throws (f : number -> string) (x : field number) :
  (exists e, ProjectDetailView.locale_text f x = Throw e)
  <-> DetailTabs.is_missing x = true.
Proof.
  destruct x; simpl; split; intros H; try reflexivity; try discriminate.
  - eexists; reflexivity.
  - eexists; reflexivity.
  - destruct H as [e H]; discriminate.
Qed.

Lemma map_result_throws {A B : Type} (cb : A -> result B) (l : list A) :
  (exists e, DetailTabs.map_result cb l = Throw e)
  <-> Exists (fun x => exists e, cb x = Throw e) l.
Proof.
  induction l as [|x l IH]; simpl.
  - split; [intros [e H]; discriminate | intros H; inversion H].
  - destruct (cb x) as [r|e] eqn:Hx; simpl.
    + destruct (DetailTabs.map_result cb l) as [rs|e'] eqn:Hl; simpl.
      * split; [intros [e H]; discriminate|].
        intros H. apply Exists_cons in H. destruct H as [[e H] | H].
        -- rewrite Hx in H. discriminate.
        -- apply IH in H. destruct H as [e H]. discriminate.
      * split; [|intros _; eexists; reflexivity].
        intros _. apply Exists_cons_tl. apply IH. eexists; reflexivity.
    + split; [|intros _; eexists; reflexivity].
      intros _. apply Exists_cons_hd. eexists; exact Hx.
Qed.

Lemma map_result_length {A B : Type} (cb : A -> result B) (l : list A)
    (rs : list B) :
  DetailTabs.map_result cb l = Ok rs -> List.length rs = List.length l.
Proof.
  revert rs. induction l as [|x l IH]; simpl; intros rs H.
  - injection H as <-. reflexivity.
  - destruct (cb x) as [r|e]; simpl in H; [|discriminate].
    destruct (DetailTabs.map_result cb l) as [rs'|e]; simpl in H;
      [|discriminate].
    injection H as <-. simpl. f_equal. now apply IH.
Qed.

Lemma map_rows_throws (f : number -> string) (cs : list change_order) :
  (exists e, ProjectDetailView.map_rows f cs = Throw e)
  <-> Exists (fun c => DetailTabs.is_missing (co_amount c) = true) cs.
Proof.
  induction cs as [|c cs IH]; simpl.
  - split; [intros [e H]; discriminate | intros H; inversion H].
  - unfold ProjectDetailView.render_change_order.
    destruct (co_amount c) as [| |a] eqn:Ha; simpl.
    + split; [|intros _; eexists; reflexivity].
      intros _. apply Exists_cons_hd. now rewrite Ha.
    + split; [|intros _; eexists; reflexivity].
      intros _. apply Exists_cons_hd. now rewrite Ha.
    + destruct (ProjectDetailView.map_rows f cs) as [rs|e'] eqn:Hl; simpl.
      * split; [intros [e H]; discriminate|].
        intros H. apply Exists_cons in H. destruct H as [H | H].
        -- rewrite Ha in H. discriminate.
        -- apply IH in H. destruct H as [e H]. discriminate.
      * split; [|intros _; eexists; reflexivity].
        intros _. apply Exists_cons_tl. apply IH. eexists; reflexivity.
Qed.

Lemma map_rows_length (f : number -> string) (cs : list change_order)
    (rs : list ProjectDetailView.change_order_row) :
  ProjectDetailView.map_rows f cs = Ok rs ->
  List.length rs = List.length cs.
Proof.
  revert rs. induction cs as [|c cs IH]; simpl; intros rs H.
  - injection H as <-. reflexivity.
  - destruct (ProjectDetailView.render_change_order f c) as [r|e];
      simpl in H; [|discriminate].
    destruct (ProjectDetailView.map_rows f cs) as [rs'|e]; simpl in H;
      [|discriminate].
    injection H as <-. simpl. f_equal. now apply IH.
Qed.

Lemma render_bid_throws (f : number -> string) (b : bid) :
  (exists e, DetailTabs.render_bid f b = Throw e)
  <-> DetailTabs.is_missing (bid_amount b) = true.
Proof.
  unfold DetailTabs.render_bid.
  destruct (bid_amount b); simpl; split; intros H;
    try reflexivity; try discriminate; try (eexists; reflexivity).
  destruct H as [e H]; discriminate.
Qed.

Lemma bids_throw (f : number -> string) (bs : list bid) :
  (exists e, DetailTabs.map_result (DetailTabs.render_bid f) bs = Throw e)
  <-> Exists (fun b => DetailTabs.is_missing (bid_amount b) = true) bs.
Proof.
  rewrite map_result_throws. rewrite !Exists_exists.
  split; intros (b & Hin & H); exists b; (split; [exact Hin|]).
  - now apply (render_bid_throws f b).
  - now apply (render_bid_throws f b).
Qed.

Lemma summary_throws (f : number -> string) (p : project) :
  (exists e, ProjectDetailView.render_financial_summary f p = Throw e)
  <-> DetailTabs.is_missing (budget p) = true
      \/ DetailTabs.is_missing (actual_cost p) = true.
Proof.
  unfold ProjectDetailView.render_financial_summary.
  destruct (budget p), (actual_cost p); simpl; split; intros H;
    try (eexists; reflexivity); try (now left); try (now right);
    try (destruct H as [e H]; discriminate).
  destruct H; discriminate.
Qed.

Lemma tab_render_throws (f : number -> string) (tab : string) (p : project) :
  (exists e, DetailTabs.render f tab p = Throw e)
  <-> (exists e, DetailTabs.renderTabContent f tab p = Throw e).
Proof.
  unfold DetailTabs.render.
  destruct (DetailTabs.renderTabContent f tab p) as [c|e0]; simpl; split;
    intros [e H]; try discriminate; eexists; reflexivity.
Qed.

(** Rendering the detail panel throws exactly when the pane of the active
    tab needs an amount that is absent or [null]: on the bids tab a bid
    without amount, on the financials tab a change order without amount,
    and on the summary (the initial tab, and the [default] of the switch)
    a project without budget or without actual cost.  The documents and
    inspections tabs always render. *)
Theorem detail_panel_throws_exactly_on_a_missing_amount
    (toLocaleString : number -> string) (activeTab : string) (p : project) :
  (exists e, DetailTabs.render toLocaleString activeTab p = Throw e)
  <->
  (activeTab = "bids"
   /\ Exists (fun b => DetailTabs.is_missing (bid_amount b) = true) (bids p))
  \/ (activeTab = "financials"
      /\ Exists (fun c => DetailTabs.is_missing (co_amount c) = true)
                (change_orders p))
  \/ (activeTab <> "documents" /\ activeTab <> "bids"
      /\ activeTab <> "financials" /\ activeTab <> "inspections"
      /\ (DetailTabs.is_missing (budget p) = true
          \/ DetailTabs.is_missing (actual_cost p) = true)).
Proof.
  rewrite tab_render_throws. unfold DetailTabs.renderTabContent.
  destruct (String.eqb_spec activeTab "documents") as [-> | Hd].
  { split.
    - destruct (documents p); intros [e H]; discriminate.
    - intros [[H _] | [[H _] | (H & _)]]; try discriminate. now elim H. }
  destruct (String.eqb_spec activeTab "bids") as [-> | Hb].
  { split.
    - intros H. left. split; [reflexivity|].
      destruct (bids p) as [|b bs] eqn:E.
      + destruct H as [e H]; discriminate.
      + apply bids_throw with (f := toLocaleString).
        destruct (DetailTabs.map_result _ (b :: bs)); simpl in H.
        * destruct H as [e H]; discriminate.
        * eexists; reflexivity.
    - intros [[_ H] | [[H _] | (_ & H & _)]]; try discriminate;
        [|now elim H].
      destruct (bids p) as [|b bs] eqn:E; [inversion H|].
      apply (bids_throw toLocaleString) in H. destruct H as [e H].
      rewrite H. eexists; reflexivity. }
  destruct (String.eqb_spec activeTab "financials") as [-> | Hf].
  { unfold ProjectDetailView.render_financials. split.
    - intros H. right. left. split; [reflexivity|].
      destruct (change_orders p) as [|c cs] eqn:E.
      + destruct H as [e H]; discriminate.
      + apply map_rows_throws with (f := toLocaleString).
        destruct (ProjectDetailView.map_rows _ (c :: cs)); simpl in H.
        * destruct H as [e H]; discriminate.
        * eexists; reflexivity.
    - intros [[H _] | [[_ H] | (_ & _ & H & _)]]; try discriminate;
        [|now elim H].
      destruct (change_orders p) as [|c cs] eqn:E; [inversion H|].
      apply (map_rows_throws toLocaleString) in H. destruct H as [e H].
      rewrite H. eexists; reflexivity. }
  destruct (String.eqb_spec activeTab "inspections") as [-> | Hi].
  { split.
    - destruct (inspections p); intros [e H]; discriminate.
    - intros [[H _] | [[H _] | (_ & _ & _ & H & _)]]; try discriminate.
      now elim H. }
  split.
  - intros H. right. right. repeat (split; [assumption|]).
    apply summary_throws with (f := toLocaleString).
    destruct (ProjectDetailView.render_financial_summary _ p); simpl in H.
    + destruct H as [e H]; discriminate.
    + eexists; reflexivity.
  - intros [[H _] | [[H _] | (_ & _ & _ & _ & H)]]; try contradiction.
    apply (summary_throws toLocaleString) in H. destruct H as [e H].
    rewrite H. eexists; reflexivity.
Qed.

Lemma reachable_tabs (p : project) (tab : string) :
  DetailTabs.reachable p tab ->
  tab = "summary" \/ tab = "documents" \/ tab = "bids"
  \/ tab = "financials" \/ tab = "inspections".
Proof.
  intros H. destruct H as [|st b _ Hin].
  - now left.
  - unfold DetailTabs.click.
    destruct Hin as [<- | [<- | [<- | [<- | [<- | []]]]]]; simpl; tauto.
Qed.

(** On every tab a user can get to, exactly one tab button is highlighted,
    the one of the active tab, and when the panel renders its count badge
    is the number of rows listed below it: the pane shows the empty-state
    message exactly when the badge shows 0.  The summary button carries
    the fixed badge 3. *)
Theorem highlighted_tab_counts_the_rows_shown
    (toLocaleString : number -> string) (p : project) (activeTab : string)
    (v : DetailTabs.panel) :
  DetailTabs.reachable p activeTab ->
  DetailTabs.render toLocaleString activeTab p = Ok v ->
  exists b,
    List.filter DetailTabs.tb_active (DetailTabs.tabs v) = [b]
    /\ DetailTabs.tb_id b = activeTab
    /\ match DetailTabs.rows_shown (DetailTabs.shown v) with
       | Some n =>
           n = DetailTabs.tb_count b /\ activeTab <> "summary"
           /\ (n = 0%nat <->
               exists m, DetailTabs.shown v = DetailTabs.EmptyState m)
       | None => activeTab = "summary" /\ DetailTabs.tb_count b = 3%nat
       end.
Proof.
  intros Hr Hv. apply reachable_tabs in Hr.
  unfold DetailTabs.render in Hv.
  destruct (DetailTabs.renderTabContent toLocaleString activeTab p)
    as [c|e] eqn:Hc; simpl in Hv; [|discriminate].
  injection Hv as <-. cbn [DetailTabs.tabs DetailTabs.shown].
  destruct Hr as [-> | [-> | [-> | [-> | ->]]]];
    cbv beta iota delta [DetailTabs.renderTabContent String.eqb Ascii.eqb
                         Bool.eqb] in Hc;
    cbn.
  - destruct (ProjectDetailView.render_financial_summary toLocaleString p);
      simpl in Hc; [|discriminate].
    injection Hc as <-. eexists. split; [reflexivity|]. cbn. auto.
  - eexists. split; [reflexivity|]. cbn. split; [reflexivity|].
    destruct (documents p) as [|d ds]; injection Hc as <-; cbn.
    + repeat split; try discriminate. eexists; reflexivity.
    + rewrite length_map. repeat split; try discriminate.
      intros [m H]; discriminate.
  - eexists. split; [reflexivity|]. cbn. split; [reflexivity|].
    destruct (bids p) as [|b bs] eqn:E.
    + injection Hc as <-. cbn.
      repeat split; try discriminate. eexists; reflexivity.
    + destruct (DetailTabs.map_result _ (b :: bs)) as [rows|e] eqn:Hm;
        simpl in Hc; [|discriminate].
      injection Hc as <-. cbn. apply map_result_length in Hm.
      rewrite Hm. cbn. repeat split; try discriminate.
      intros [m H]; discriminate.
  - eexists. split; [reflexivity|]. cbn. split; [reflexivity|].
    unfold ProjectDetailView.render_financials in Hc.
    destruct (change_orders p) as [|c0 cs] eqn:E.
    + injection Hc as <-. cbn.
      repeat split; try discriminate. eexists; reflexivity.
    + destruct (ProjectDetailView.map_rows _ (c0 :: cs)) as [rows|e] eqn:Hm;
        simpl in Hc; [|discriminate].
      injection Hc as <-. cbn. apply map_rows_length in Hm.
      rewrite Hm. cbn. repeat split; try discriminate.
      intros [m H]; discriminate.
  - eexists. split; [reflexivity|]. cbn. split; [reflexivity|].
    destruct (inspections p) as [|i rest]; injection Hc as <-; cbn.
    + repeat split; try discriminate. eexists; reflexivity.
    + rewrite length_map. repeat split; try discriminate.
      intros [m H]; discriminate.
Qed.

(** The pier project after a click on the Documents button: the button is
    the highlighted one and its badge shows the two rows listed. *)
Lemma highlighted_tab_counts_the_rows_shown_witness :
  exists b,
    List.filter DetailTabs.tb_active
                (DetailTabs.tab_buttons "documents" Demo.pier) = [b]
    /\ DetailTabs.tb_id b = "documents"
    /\ 2%nat = DetailTabs.tb_count b.
Proof.
  destruct (highlighted_tab_counts_the_rows_shown
              Demo.dash Demo.pier "documents" _
              (DetailTabs.reach_click Demo.pier DetailTabs.initial
                 (DetailTabs.TabButton DetailTabs.initial "documents"
                                       "Documents" 2)
                 (DetailTabs.reach_initial Demo.pier)
                 (or_intror (or_introl eq_refl)))
              eq_refl)
    as (b & H1 & H2 & H3 & _).
  exists b. repeat split; assumption.
Defined.

(** The pier project opens on its summary; its bids tab cannot be shown
    because the second bid has no amount. *)
Example pier_tabs :
  (exists v, DetailTabs.render Demo.dash DetailTabs.initial Demo.pier = Ok v)
  /\ DetailTabs.render Demo.dash "bids" Demo.pier
     = Throw (TypeError
         "Cannot read properties of null (reading 'toLocaleString')").
Proof. split; [eexists|]; reflexivity. Qed.

(** ** The cards of the projects panel *)

Lemma map_result_ok_map {A B C : Type} (cb : A -> result B) (g : B -> C)
    (h : A -> C) (l : list A) (rs : list B) :
  (forall x r, cb x = Ok r -> g r = h x) ->
  DetailTabs.map_result cb l = Ok rs -> map g rs = map h l.
Proof.
  intros Hg. revert rs. induction l as [|x l IH]; simpl; intros rs H.
  - injection H as <-. reflexivity.
  - destruct (cb x) as [r|e] eqn:Hx; simpl in H; [|discriminate].
    destruct (DetailTabs.map_result cb l) as [rs'|e]; simpl in H;
      [|discriminate].
    injection H as <-. simpl. f_equal; [now apply Hg | now apply IH].
Qed.

Lemma render_card_throws (f : number -> string) (p : project) :
  (exists e, ProjectCards.render_card f p = Throw e)
  <-> DetailTabs.is_missing (status p) = true
      \/ DetailTabs.is_missing (budget p) = true.
Proof.
  unfold ProjectCards.render_card.
  destruct (status p), (budget p); simpl; split; intros H;
    try (eexists; reflexivity); try (now left); try (now right);
    try (destruct H as [e H]; discriminate).
  destruct H; discriminate.
Qed.

Lemma render_card_project (f : number -> string) (p : project)
    (c : ProjectCards.card) :
  ProjectCards.render_card f p = Ok c ->
  ProjectCards.card_project c = p /\ ProjectCards.card_key c = id p.
Proof.
  unfold ProjectCards.render_card.
  destruct (ProjectCards.status_text (status p)); simpl; [|discriminate].
  destruct (ProjectDetailView.locale_text f (budget p)); simpl;
    [|discriminate].
  intros [= <-]. split; reflexivity.
Qed.

Lemma cards_throw (f : number -> string) (l : list project) :
  (exists e, DetailTabs.map_result (ProjectCards.render_card f) l = Throw e)
  <-> Exists (fun p => DetailTabs.is_missing (status p) = true
                       \/ DetailTabs.is_missing (budget p) = true) l.
Proof.
  rewrite map_result_throws. rewrite !Exists_exists.
  split; intros (p & Hin & H); exists p; (split; [exact Hin|]).
  - now apply (render_card_throws f p).
  - now apply (render_card_throws f p).
Qed.

(** The projects panel computes its filter before anything else, so a
    project without a name makes every render throw, the loading and the
    error message included.  Otherwise the panel shows the loading message
    while loading, else the non-empty error text, else one card per listed
    project in the order of the list, and the notice that nothing matches
    exactly when the list is empty; rendering the cards throws exactly
    when a listed project has no status or no budget. *)
Theorem projects_panel_render_cases (toLocaleString : number -> string)
    (st : ProjectsView.state) (loading : bool) (error : option string) :
  ((exists p, In p (ProjectsView.projects st)
              /\ (name p = Undefined \/ name p = Null)) ->
   exists e, ProjectCards.render toLocaleString st loading error = Throw e)
  /\
  (forall listed,
     ProjectsView.filteredProjects (Some (ProjectsView.projects st))
       (ProjectsView.searchTerm st) (ProjectsView.filterStatus st)
     = Ok listed ->
     (loading = true ->
      ProjectCards.render toLocaleString st loading error
      = Ok ProjectCards.LoadingMessage)
     /\ (forall c m,
           loading = false -> error = Some (String c m) ->
           ProjectCards.render toLocaleString st loading error
           = Ok (ProjectCards.ErrorMessage (String c m)))
     /\ (loading = false -> error = None \/ error = Some "" ->
         ((exists e,
             ProjectCards.render toLocaleString st loading error = Throw e)
          <-> Exists (fun p => DetailTabs.is_missing (status p) = true
                               \/ DetailTabs.is_missing (budget p) = true)
                     listed)
         /\ (forall v,
               ProjectCards.render toLocaleString st loading error = Ok v ->
               exists cards,
                 v = ProjectCards.Panel (ProjectCards.render_form st) cards
                       (Nat.eqb (List.length listed) 0)
                 /\ map ProjectCards.card_project cards = listed
                 /\ map ProjectCards.card_key cards = map id listed))).
Proof.
  split.
  - intros (p & Hin & Hn). unfold ProjectCards.render.
    destruct (filter_callback_nameless (ProjectsView.searchTerm st)
                (ProjectsView.filterStatus st) p Hn) as [msg Hmsg].
    assert (H : exists e',
               ProjectsView.filteredProjects
                 (Some (ProjectsView.projects st))
                 (ProjectsView.searchTerm st) (ProjectsView.filterStatus st)
               = Throw e').
    { simpl. exact (filter_throws _ _ p _ Hin Hmsg). }
    destruct H as [e' ->]. exists e'. reflexivity.
  - intros listed Hl. unfold ProjectCards.render. rewrite Hl.
    cbn [JS.bind]. split; [|split].
    + intros ->. reflexivity.
    + intros c m -> ->. reflexivity.
    + intros -> He.
      assert (Hr : (match error with
                    | Some (String c m) =>
                        Ok (ProjectCards.ErrorMessage (String c m))
                    | _ =>
                        cards <- DetailTabs.map_result
                                   (ProjectCards.render_card toLocaleString)
                                   listed ;;
                        Ok (ProjectCards.Panel (ProjectCards.render_form st)
                              cards (Nat.eqb (List.length listed) 0))
                    end)
                   = (cards <- DetailTabs.map_result
                                 (ProjectCards.render_card toLocaleString)
                                 listed ;;
                      Ok (ProjectCards.Panel (ProjectCards.render_form st)
                            cards (Nat.eqb (List.length listed) 0)))).
      { destruct He as [-> | ->]; reflexivity. }
      cbv iota. rewrite Hr. clear Hr. split.
      * rewrite <- (cards_throw toLocaleString listed).
        destruct (DetailTabs.map_result _ listed) as [cards|e0]; simpl;
          split; intros [e H]; try discriminate; eexists; reflexivity.
      * intros v Hv.
        destruct (DetailTabs.map_result _ listed) as [cards|e0] eqn:Hm;
          simpl in Hv; [|discriminate].
        injection Hv as <-. exists cards. split; [reflexivity|].
        split.
        -- rewrite <- (map_id listed).
           apply (map_result_ok_map _ _ _ _ _
                    (fun x r H => proj1 (render_card_project _ x r H)) Hm).
        -- apply (map_result_ok_map _ _ _ _ _
                    (fun x r H => proj2 (render_card_project _ x r H)) Hm).
Qed.

(** *** The status badge and the status filter *)

Lemma includes_cons_false (c : ascii) (s : string) :
  includes (String c s) "_" = false ->
  Ascii.eqb c "_" = false /\ includes s "_" = false.
Proof.
  simpl. rewrite andb_true_r. intros H. now apply orb_false_elim in H.
Qed.

Lemma replace_underscore_none (s : string) :
  includes s "_" = false -> ProjectCards.replace_underscore s = s.
Proof.
  induction s as [|c s IH]; intros H; [reflexivity|].
  apply includes_cons_false in H. destruct H as [Hc Hs].
  simpl. rewrite Hc. f_equal. now apply IH.
Qed.

Lemma replace_underscore_first (pre post : string) :
  includes pre "_" = false ->
  ProjectCards.replace_underscore (pre ++ "_" ++ post) = pre ++ " " ++ post.
Proof.
  induction pre as [|c pre IH]; intros H; [reflexivity|].
  apply includes_cons_false in H. destruct H as [Hc Hs].
  simpl. rewrite Hc. f_equal. now apply IH.
Qed.

Lemma first_underscore (s : string) :
  includes s "_" = true ->
  exists pre post, s = pre ++ "_" ++ post /\ includes pre "_" = false.
Proof.
  induction s as [|c s IH]; intros H; [discriminate|].
  destruct (Ascii.eqb c "_") eqn:Hc.
  - apply Ascii.eqb_eq in Hc. subst c. now exists "", s.
  - simpl in H. rewrite Hc in H. simpl in H.
    destruct (IH H) as (pre & post & -> & Hp).
    exists (String c pre), post. split; [reflexivity|].
    simpl. rewrite Hc, andb_false_l. exact Hp.
Qed.

(** The status badge shows the status with its first underscore, and only
    that one, replaced by a space.  The status filter offers all,
    planning, active and completed: under a choice other than all every
    listed project has exactly that status, which the badge prints
    unchanged, so a project on hold is listed under all only. *)
Theorem status_badge_and_status_filter :
  (forall s,
     (includes s "_" = false
      /\ ProjectCards.status_text (Val s) = Ok s)
     \/ (exists pre post,
           s = pre ++ "_" ++ post /\ includes pre "_" = false
           /\ ProjectCards.status_text (Val s) = Ok (pre ++ " " ++ post)))
  /\
  (forall (C : list project) (t o : string) (listed : list project)
          (p : project),
     In o (map fst ProjectCards.status_options) ->
     ProjectsView.filteredProjects (Some C) t o = Ok listed ->
     In p listed ->
     In p C
     /\ (o = "all"
         \/ (status p = Val o
             /\ ProjectCards.status_text (status p) = Ok o
             /\ status p <> Val "on_hold"))).
Proof.
  split.
  - intros s. destruct (includes s "_") eqn:H.
    + right. destruct (first_underscore s H) as (pre & post & -> & Hp).
      exists pre, post. repeat split; [exact Hp|].
      unfold ProjectCards.status_text.
      now rewrite replace_underscore_first.
    + left. split; [reflexivity|]. unfold ProjectCards.status_text.
      now rewrite replace_underscore_none.
  - intros C t o listed p Ho Hl Hp.
    assert (HC : Forall has_name C).
    { apply Forall_forall. intros q Hq. simpl in Hl.
      destruct (filter_ok_inv _ _ _ Hl q Hq) as [b Hb].
      exact (filter_callback_ok_named t o q b Hb). }
    rewrite (filteredProjects_named C t o HC) in Hl. injection Hl as <-.
    apply filter_In in Hp. destruct Hp as [Hin Hk].
    split; [exact Hin|].
    assert (Hn : has_name p) by (rewrite Forall_forall in HC; now apply HC).
    apply (keeps_status t o p Hn) in Hk. destruct Hk as [-> | Hs].
    + now left.
    + simpl in Ho.
      destruct Ho as [<- | [<- | [<- | [<- | []]]]]; [now left| | |];
        right; rewrite Hs; repeat split; discriminate.
Qed.

(** The badge of a project on hold reads "on hold"; and the sample
    portfolio searched for "bor" under the status choice "active" lists
    the tower project, whose status is that choice and not "on_hold". *)
Lemma status_badge_and_status_filter_witness :
  (exists pre post,
     "on_hold" = pre ++ "_" ++ post /\ includes pre "_" = false
     /\ ProjectCards.status_text (Val "on_hold") = Ok (pre ++ " " ++ post))
  /\ In "active" (map fst ProjectCards.status_options)
  /\ ProjectsView.filteredProjects (Some Sample.portfolio) "bor" "active"
     = Ok [Sample.tower; Sample.depot]
  /\ In Sample.tower Sample.portfolio
  /\ status Sample.tower = Val "active"
  /\ ProjectCards.status_text (status Sample.tower) = Ok "active"
  /\ status Sample.tower <> Val "on_hold".
Proof.
  destruct status_badge_and_status_filter as [Hbadge Hfilter].
  split.
  - destruct (Hbadge "on_hold") as [[H _] | H]; [discriminate H | exact H].
  - split; [exact (or_intror (or_intror (or_introl eq_refl)))|].
    split; [reflexivity|].
    destruct (Hfilter Sample.portfolio "bor" "active"
                [Sample.tower; Sample.depot] Sample.tower
                (or_intror (or_intror (or_introl eq_refl))) eq_refl
                (or_introl eq_refl))
      as [Hin [H | H]]; [discriminate H | exact (conj Hin H)].
Defined.

(** A project on hold is listed under "all" and under no other choice of
    the status filter. *)
Example on_hold_is_listed_under_all_only :
  ProjectsView.filteredProjects (Some [Demo.pier]) "" "all" = Ok [Demo.pier]
  /\ forall o,
       In o (map fst ProjectCards.status_options) -> o <> "all" ->
       ProjectsView.filteredProjects (Some [Demo.pier]) "" o = Ok [].
Proof.
  split; [reflexivity|]. intros o Ho Hall. simpl in Ho.
  destruct Ho as [<- | [<- | [<- | [<- | []]]]];
    [now elim Hall | reflexivity ..].
Qed.

Example on_hold_badge :
  ProjectCards.status_text (status Demo.pier) = Ok "on hold"
  /\ ProjectCards.status_text (Val "not_yet_started") = Ok "not yet_started"
  /\ ProjectCards.getStatusColor (status Demo.pier)
     = "bg-yellow-100 text-yellow-800".
Proof. repeat split. Qed.

(** *** View Details *)

Lemma find_by_id (l : list project) (q : project) :
  In q l ->
  exists p,
    find (fun p => Z.eqb (id p) (id q)) l = Some p
    /\ id p = id q /\ In p l
    /\ (exists before rest,
          l = (before ++ p :: rest)%list
          /\ Forall (fun x => id x <> id q) before)
    /\ (NoDup (map id l) -> p = q).
Proof.
  induction l as [|x l IH]; intros Hin; [contradiction|].
  simpl. destruct (Z.eqb_spec (id x) (id q)) as [E | E].
  - exists x. repeat split; [exact E | now left | |].
    + exists [], l. split; [reflexivity | constructor].
    + intros Hnd. destruct Hin as [-> | Hin]; [reflexivity|].
      inversion Hnd as [|? ? Hx _]. exfalso. apply Hx. rewrite E.
      now apply in_map.
  - destruct Hin as [-> | Hin]; [now elim E|].
    destruct (IH Hin) as (p & Hf & Hid & Hp & (before & rest & -> & Hb) & Hu).
    exists p. repeat split; [exact Hf | exact Hid | now right | |].
    + exists (x :: before), rest. split; [reflexivity | now constructor].
    + intros Hnd. apply Hu. now inversion Hnd.
Qed.

(** The View Details button of a card whose project id is not 0 opens
    the detail panel, never the "Loading project details..." placeholder:
    the panel of the first project of the collection with the card's id,
    which is the card's own project when ids are distinct.  For the id 0
    the click selects nothing: the main area keeps showing the active
    section. *)
Theorem view_details_opens_the_listed_project
    (toLocaleString : number -> string) (st : ProjectsView.state)
    (hook : UseData.state project) (app : App.state)
    (v : ProjectCards.view) (c : ProjectCards.card) :
  ProjectsView.projects st = UseData.data hook ->
  App.isAuthenticated app = true ->
  ProjectCards.render toLocaleString st (UseData.loading hook)
    (UseData.error hook) = Ok v ->
  In c (ProjectCards.cards_of v) ->
  let app' := ProjectCards.view_details (ProjectCards.card_key c) app in
  (ProjectCards.card_key c <> 0%Z ->
   exists p,
     App.render app' hook = App.Layout (App.activeSection app) (App.Detail p)
     /\ id p = ProjectCards.card_key c
     /\ In p (ProjectsView.projects st)
     /\ (exists before rest,
           ProjectsView.projects st = (before ++ p :: rest)%list
           /\ Forall (fun x => id x <> ProjectCards.card_key c) before)
     /\ (NoDup (map id (ProjectsView.projects st)) ->
         p = ProjectCards.card_project c))
  /\ (ProjectCards.card_key c = 0%Z ->
      App.render app' hook
      = App.render (App.setSelectedProjectId None app) hook).
Proof.
  intros Hdata Hauth Hv Hc app'. unfold ProjectCards.render in Hv.
  destruct (ProjectsView.filteredProjects _ _ _) as [listed|e] eqn:Hl;
    simpl in Hv; [|discriminate].
  assert (Hsub : forall q, In q listed -> In q (ProjectsView.projects st)).
  { intros q Hq.
    assert (HC : Forall has_name (ProjectsView.projects st)).
    { apply Forall_forall. intros r Hr. simpl in Hl.
      destruct (filter_ok_inv _ _ _ Hl r Hr) as [b Hb].
      exact (filter_callback_ok_named _ _ r b Hb). }
    rewrite (filteredProjects_named _ _ _ HC) in Hl. injection Hl as <-.
    now apply filter_In in Hq. }
  assert (Hcard : In (ProjectCards.card_project c) listed
                  /\ ProjectCards.card_key c
                     = id (ProjectCards.card_project c)).
  { destruct (UseData.loading hook); [injection Hv as <-; contradiction|].
    assert (Hm : exists cards,
               DetailTabs.map_result
                 (ProjectCards.render_card toLocaleString) listed = Ok cards
               /\ In c cards).
    { destruct (UseData.error hook) as [[|a m]|];
        try (injection Hv as <-; contradiction);
        (destruct (DetailTabs.map_result _ listed) as [cards|e] eqn:Hm;
         simpl in Hv; [|discriminate]);
        injection Hv as <-; exists cards; split; auto. }
    destruct Hm as (cards & Hm & Hin). clear Hv Hl Hsub.
    revert cards Hm Hin. induction listed as [|x l IH]; simpl;
      intros cards Hm Hin.
    - injection Hm as <-. contradiction.
    - destruct (ProjectCards.render_card toLocaleString x) as [r|e] eqn:Hx;
        simpl in Hm; [|discriminate].
      destruct (DetailTabs.map_result _ l) as [rs|e]; simpl in Hm;
        [|discriminate].
      injection Hm as <-. destruct Hin as [<- | Hin].
      + destruct (render_card_project _ _ _ Hx) as [-> ->]. auto.
      + destruct (IH rs eq_refl Hin) as [H1 H2]. auto. }
  destruct Hcard as [Hin Hkey]. apply Hsub in Hin.
  split.
  - intros Hnz.
    destruct (find_by_id _ _ Hin) as (p & Hf & Hid & Hp & Hfirst & Hu).
    exists p. rewrite Hkey. repeat split; try assumption.
    assert (Hsel : forall k,
               k <> 0%Z ->
               App.render (ProjectCards.view_details k app) hook
               = App.Layout (App.activeSection app)
                   (match find (fun p => Z.eqb (id p) k)
                                (UseData.data hook) with
                    | Some p => App.Detail p
                    | None => App.LoadingProjectDetails
                    end)).
    { intros k Hk. unfold App.render, ProjectCards.view_details. cbn.
      rewrite Hauth. cbn. unfold App.renderContent, App.selected. cbn.
      destruct k; [now elim Hk | reflexivity | reflexivity]. }
    unfold app'. rewrite (Hsel _ Hnz), <- Hdata, Hkey, Hf. reflexivity.
  - intros Hz. unfold App.render, app', ProjectCards.view_details.
    rewrite Hz. reflexivity.
Qed.

Lemma two_projects_distinct :
  NoDup (map id (ProjectsView.projects Demo.two_projects)).
Proof.
  constructor; [intros [H | []]; discriminate H|].
  constructor; [intros []|]. constructor.
Qed.

(** View Details on the card of the bridge project: the panel opens on
    the bridge project, the first and only row with the id 2. *)
Lemma view_details_opens_the_listed_project_witness :
  exists p,
    App.render (ProjectCards.view_details 2 Demo.on_projects) Demo.two_loaded
    = App.Layout "projects" (App.Detail p)
    /\ id p = 2%Z
    /\ (exists before rest,
          ProjectsView.projects Demo.two_projects
          = (before ++ p :: rest)%list
          /\ Forall (fun x => id x <> 2%Z) before)
    /\ p = Sample.bridge.
Proof.
  destruct (proj1 (view_details_opens_the_listed_project
                     Demo.dash Demo.two_projects Demo.two_loaded
                     Demo.on_projects _ _ eq_refl eq_refl eq_refl
                     (or_intror (or_introl eq_refl)))
                  ltac:(discriminate))
    as (p & H1 & H2 & _ & H3 & H4).
  exists p. repeat split; try assumption.
  exact (H4 two_projects_distinct).
Defined.

(** ** The form and the list of the generic panel *)

Section CrudForms.
Context {Item : Type}.
Variable item_id : Item -> Z.
Variable properties : Item -> CrudPanel.obj.
Variable toLocaleString : number -> string.
Variables title endpoint : string.
Variable fields : list App.field_descriptor.
Variable projects : option (list project).

Lemma reduce_blank (l : list App.field_descriptor) (acc : CrudPanel.obj)
    (k : string) :
  fold_left (fun acc field =>
               CrudPanel.set_prop (App.field_name field) (CrudPanel.VStr "")
                                  acc)
            l acc k
  = if existsb (String.eqb k) (map App.field_name l)
    then Some (CrudPanel.VStr "")
    else acc k.
Proof.
  revert acc. induction l as [|f l IH]; intros acc; simpl; [reflexivity|].
  rewrite IH. unfold CrudPanel.set_prop.
  destruct (String.eqb k (App.field_name f)); simpl;
    destruct (existsb _ _); reflexivity.
Qed.

Lemma control_keys :
  map CrudPanel.control_key (CrudPanel.form_controls fields projects)
  = (map App.field_name fields
     ++ match projects with Some _ => ["project_id"] | None => [] end)%list.
Proof.
  unfold CrudPanel.form_controls. rewrite map_app, map_map. simpl.
  f_equal. now destruct projects.
Qed.

Lemma initialData_lookup (k : string) :
  CrudPanel.initialData fields projects k
  = if existsb (String.eqb k)
         (map CrudPanel.control_key (CrudPanel.form_controls fields projects))
    then Some (CrudPanel.VStr "")
    else None.
Proof.
  rewrite control_keys, existsb_app. unfold CrudPanel.initialData.
  destruct projects as [ps|]; simpl.
  - unfold CrudPanel.set_prop at 1. rewrite reduce_blank.
    destruct (String.eqb k "project_id"); simpl;
      [now rewrite orb_true_r|].
    rewrite orb_false_r. reflexivity.
  - rewrite reduce_blank, orb_false_r. reflexivity.
Qed.

Lemma typing_all_frame_crud (edits : list (CrudPanel.control * string))
    (st : CrudView.state Item CrudPanel.obj) :
  CrudView.showForm (CrudPanel.typing_all edits st) = CrudView.showForm st
  /\ CrudView.editingItem (CrudPanel.typing_all edits st)
     = CrudView.editingItem st
  /\ CrudView.fetched (CrudPanel.typing_all edits st) = CrudView.fetched st.
Proof.
  revert st. induction edits as [|e edits IH]; intros st; simpl; [auto|].
  destruct (IH (CrudPanel.typing e st)) as (H1 & H2 & H3).
  unfold CrudPanel.typing_all in *. rewrite H1, H2, H3. auto.
Qed.

Lemma typing_all_lookup (k : string)
    (edits : list (CrudPanel.control * string))
    (st0 st : CrudView.state Item CrudPanel.obj) (acc : option string) :
  CrudView.formData st k
  = match acc with
    | Some t => Some (CrudPanel.VStr t)
    | None => CrudView.formData st0 k
    end ->
  CrudView.formData (CrudPanel.typing_all edits st) k
  = match fold_left (fun acc e =>
                       if String.eqb k (CrudPanel.control_key (fst e))
                       then Some (snd e) else acc)
                    edits acc with
    | Some t => Some (CrudPanel.VStr t)
    | None => CrudView.formData st0 k
    end.
Proof.
  revert st acc. induction edits as [|e edits IH]; intros st acc H; simpl;
    [exact H|].
  apply IH. cbn. unfold CrudPanel.onChange, CrudPanel.set_prop.
  destruct (String.eqb k (CrudPanel.control_key (fst e))); [reflexivity|].
  exact H.
Qed.

Lemma last_typed_key (k : string) (edits : list (CrudPanel.control * string))
    (t : string) :
  CrudPanel.last_typed k edits = Some t ->
  exists c, In c (map fst edits) /\ CrudPanel.control_key c = k.
Proof.
  unfold CrudPanel.last_typed.
  assert (G : forall acc,
             fold_left (fun acc e =>
                          if String.eqb k (CrudPanel.control_key (fst e))
                          then Some (snd e) else acc)
                       edits acc = Some t ->
             acc = Some t
             \/ exists c, In c (map fst edits)
                          /\ CrudPanel.control_key c = k).
  { induction edits as [|e edits IH]; intros acc H; simpl in *; [now left|].
    destruct (IH _ H) as [Ha | (c & Hc & Hk)].
    - destruct (String.eqb_spec k (CrudPanel.control_key (fst e))) as [E|E].
      + right. exists (fst e). split; [now left | now symmetry].
      + now left.
    - right. exists c. split; [now right | exact Hk]. }
  intros H. destruct (G None H) as [Hn | Hc]; [discriminate | exact Hc].
Qed.

Lemma crud_submit_calls_once (w : world CrudPanel.obj Item)
    (st : CrudView.state Item CrudPanel.obj) :
  exists rest,
    trace w (CrudView.handleSubmit item_id title endpoint st) st =
    Called
      (match CrudView.editingItem st with
       | Some i =>
           CrudView.put (endpoint ++ "/" ++ string_of_Z (item_id i))
                        (CrudView.formData st)
       | None => CrudView.post endpoint (CrudView.formData st)
       end) :: rest /\
    existsb is_call rest = false.
Proof.
  unfold trace.
  destruct (CrudView.editingItem st) as [X|] eqn:He.
  - destruct (server w (CrudView.put
                          (endpoint ++ "/" ++ string_of_Z (item_id X))
                          (CrudView.formData st))) as [R|err] eqn:Hs.
    + rewrite (crud_edit_resolved item_id title endpoint w st X R He Hs).
      now eexists.
    + rewrite (crud_edit_rejected item_id title endpoint w st X err He Hs).
      now eexists.
  - destruct (server w (CrudView.post endpoint (CrudView.formData st)))
      as [R|err] eqn:Hs.
    + rewrite (crud_create_resolved item_id title endpoint w st R He Hs).
      now eexists.
    + rewrite (crud_create_rejected item_id title endpoint w st err He Hs).
      now eexists.
Qed.

Lemma crud_row_renders (item : Item) :
  exists r,
    CrudPanel.render_row item_id properties toLocaleString item = Ok r
    /\ CrudPanel.row_key r = item_id item
    /\ (CrudPanel.row_amount r = None
        <-> CrudPanel.not_nullish (properties item "amount") = false)
    /\ ((exists v, CrudPanel.row_status r = CrudPanel.Shown v)
        <-> CrudPanel.truthy (properties item "status") = true).
Proof.
  unfold CrudPanel.render_row.
  assert (Hs : (exists v,
                  match properties item "status" with
                  | Some v =>
                      if CrudPanel.truthy (Some v) then CrudPanel.Shown v
                      else CrudPanel.Bare (Some v)
                  | None => CrudPanel.Bare None
                  end = CrudPanel.Shown v)
               <-> CrudPanel.truthy (properties item "status") = true).
  { destruct (properties item "status") as [v|].
    - destruct (CrudPanel.truthy (Some v)); split; intros H;
        try reflexivity; try discriminate.
      + now exists v.
      + destruct H; discriminate.
    - split; [intros [v H]; discriminate | discriminate]. }
  destruct (properties item "amount") as [[s|x|[|]|]|]; cbn;
    eexists; (split; [reflexivity|]); cbn;
    (split; [reflexivity|]); (split; [|exact Hs]);
    split; intros H; try reflexivity; discriminate.
Qed.

End CrudForms.

(** In the generic panel the form object is made of text only.  After
    [openForm()] and any changes made through the rendered controls the
    object holds exactly the field names, and [project_id] when the
    project list is passed, each with the text last given to its control
    or the empty string; an amount typed into a numeric field is sent as
    text.  After [openForm(item)] it holds the row's own properties, the
    changed ones replaced by text.  In both cases the form is open on
    that item, the list is untouched, and submitting makes exactly one
    HTTP call carrying the object: a POST to the endpoint, or a PUT to
    the endpoint followed by the row's id. *)
Theorem crud_form_sends_what_was_typed {Item : Type}
    (item_id : Item -> Z) (properties : Item -> CrudPanel.obj)
    (title endpoint : string) (fields : list App.field_descriptor)
    (projects : option (list project))
    (st0 : CrudView.state Item CrudPanel.obj) (X : option Item)
    (edits : list (CrudPanel.control * string))
    (w : world CrudPanel.obj Item) :
  CrudPanel.through_the_form fields projects edits ->
  let keys :=
    map CrudPanel.control_key (CrudPanel.form_controls fields projects) in
  let st :=
    CrudPanel.typing_all edits
      (CrudPanel.openForm properties fields projects X st0) in
  CrudView.showForm st = true
  /\ CrudView.editingItem st = X
  /\ CrudView.data st = CrudView.data st0
  /\ (forall k,
        CrudView.formData st k
        = match CrudPanel.last_typed k edits, X with
          | Some t, _ => Some (CrudPanel.VStr t)
          | None, Some i => properties i k
          | None, None =>
              if existsb (String.eqb k) keys then Some (CrudPanel.VStr "")
              else None
          end)
  /\ (X = None ->
      forall k v,
        CrudView.formData st k = Some v ->
        In k keys /\ exists t, v = CrudPanel.VStr t)
  /\ (exists rest,
        trace w (CrudView.handleSubmit item_id title endpoint st) st
        = Called
            (match X with
             | Some i =>
                 CrudView.put (endpoint ++ "/" ++ string_of_Z (item_id i))
                              (CrudView.formData st)
             | None => CrudView.post endpoint (CrudView.formData st)
             end) :: rest
        /\ existsb is_call rest = false).
Proof.
  intros Hform keys st.
  destruct (typing_all_frame_crud edits
              (CrudPanel.openForm properties fields projects X st0))
    as (H1 & H2 & H3).
  fold st in H1, H2, H3. cbn in H1, H2, H3.
  assert (Hlook : forall k,
             CrudView.formData st k
             = match CrudPanel.last_typed k edits, X with
               | Some t, _ => Some (CrudPanel.VStr t)
               | None, Some i => properties i k
               | None, None =>
                   if existsb (String.eqb k) keys
                   then Some (CrudPanel.VStr "")
                   else None
               end).
  { intros k. unfold st, CrudPanel.last_typed.
    rewrite (typing_all_lookup k edits
               (CrudPanel.openForm properties fields projects X st0)
               (CrudPanel.openForm properties fields projects X st0)
               None eq_refl).
    destruct (fold_left _ edits None); [reflexivity|].
    destruct X as [i|]; cbn; [reflexivity|].
    apply initialData_lookup. }
  split; [exact H1|]. split; [exact H2|].
  split; [unfold CrudView.data; now rewrite H3|].
  split; [exact Hlook|]. split.
  - intros -> k v Hv. rewrite Hlook in Hv.
    destruct (CrudPanel.last_typed k edits) as [t|] eqn:Ht.
    + injection Hv as <-. split; [|now exists t].
      destruct (last_typed_key k edits t Ht) as (c & Hc & <-).
      unfold keys. apply in_map.
      apply in_map_iff in Hc. destruct Hc as (e & <- & He).
      unfold CrudPanel.through_the_form in Hform.
      rewrite Forall_forall in Hform. now apply Hform.
    + destruct (existsb (String.eqb k) keys) eqn:Hk; [|discriminate].
      injection Hv as <-. split; [|now exists ""].
      apply existsb_exists in Hk. destruct Hk as (k' & Hin & Hk').
      apply String.eqb_eq in Hk'. now subst k'.
  - destruct (crud_submit_calls_once item_id title endpoint w st)
      as (rest & Ht & Hr).
    rewrite H2 in Ht. now exists rest.
Qed.

(** The list of the generic panel renders whatever rows the server sent:
    every row renders, with its own id on the buttons, an amount line
    exactly when the row has an amount that is neither absent nor [null],
    and a status line exactly when its status is truthy; the component
    never throws, and when the list is shown it has one row per item in
    order and the notice that nothing was found exactly when there is no
    item. *)
Theorem crud_list_always_renders {Item : Type}
    (item_id : Item -> Z) (properties : Item -> CrudPanel.obj)
    (toLocaleString : number -> string) (title : string)
    (fields : list App.field_descriptor) (projects : option (list project))
    (st : CrudView.state Item CrudPanel.obj) :
  (forall item,
     exists r,
       CrudPanel.render_row item_id properties toLocaleString item = Ok r
       /\ CrudPanel.row_key r = item_id item
       /\ (CrudPanel.row_amount r = None
           <-> CrudPanel.not_nullish (properties item "amount") = false)
       /\ ((exists v, CrudPanel.row_status r = CrudPanel.Shown v)
           <-> CrudPanel.truthy (properties item "status") = true))
  /\ exists v,
       CrudPanel.render item_id properties toLocaleString title fields
                        projects st = Ok v
       /\ (UseData.loading (CrudView.fetched st) = false ->
           UseData.error (CrudView.fetched st) = None
           \/ UseData.error (CrudView.fetched st) = Some "" ->
           exists new_label form rows notice,
             v = CrudPanel.Panel title new_label form rows notice
             /\ map CrudPanel.row_key rows = map item_id (CrudView.data st)
             /\ (notice = None <-> CrudView.data st <> [])).
Proof.
  split; [apply crud_row_renders|].
  assert (Hrows : exists rows,
             DetailTabs.map_result
               (CrudPanel.render_row item_id properties toLocaleString)
               (CrudView.data st) = Ok rows).
  { destruct (DetailTabs.map_result _ (CrudView.data st)) as [rows|e] eqn:Hm;
      [now exists rows|].
    assert (He : exists e',
               DetailTabs.map_result
                 (CrudPanel.render_row item_id properties toLocaleString)
                 (CrudView.data st) = Throw e') by now exists e.
    apply map_result_throws in He. apply Exists_exists in He.
    destruct He as (x & _ & e' & Hx).
    destruct (crud_row_renders item_id properties toLocaleString x)
      as (r & Hr & _).
    rewrite Hr in Hx. discriminate. }
  destruct Hrows as [rows Hrows].
  assert (Hkeys : map CrudPanel.row_key rows = map item_id (CrudView.data st)).
  { apply (map_result_ok_map _ _ _ _ _ (fun x r H => ltac:(
             destruct (crud_row_renders item_id properties toLocaleString x)
               as (r' & Hr' & Hk & _);
             rewrite Hr' in H; injection H as <-; exact Hk)) Hrows). }
  unfold CrudPanel.render. rewrite Hrows. cbn [JS.bind].
  destruct (UseData.loading (CrudView.fetched st)).
  - eexists. split; [reflexivity|]. discriminate.
  - destruct (UseData.error (CrudView.fetched st)) as [[|c m]|].
    + eexists. split; [reflexivity|]. intros _ _.
      do 4 eexists. split; [reflexivity|]. split; [exact Hkeys|].
      destruct (CrudView.data st); simpl; split; intros H;
        try discriminate; try reflexivity; now elim H.
    + eexists. split; [reflexivity|]. intros _ [H | H]; discriminate.
    + eexists. split; [reflexivity|]. intros _ _.
      do 4 eexists. split; [reflexivity|]. split; [exact Hkeys|].
      destruct (CrudView.data st); simpl; split; intros H;
        try discriminate; try reflexivity; now elim H.
Qed.

Lemma amount_typed_through_the_form :
  CrudPanel.through_the_form Demo.bid_fields (Some []) Demo.amount_typed.
Proof.
  apply Forall_cons; [|apply Forall_nil]. right. left. reflexivity.
Qed.

(** A new bid with the amount 120000 typed in: the amount is held as
    text, the untouched project select as the empty string, and no id. *)
Lemma crud_form_sends_what_was_typed_witness :
  let st :=
    CrudPanel.typing_all Demo.amount_typed
      (CrudPanel.openForm snd Demo.bid_fields (Some []) None
                          Demo.bids_panel) in
  CrudView.formData st "amount" = Some (CrudPanel.VStr "120000")
  /\ CrudView.formData st "project_id" = Some (CrudPanel.VStr "")
  /\ CrudView.formData st "id" = None.
Proof.
  destruct (crud_form_sends_what_was_typed
              fst snd "Bids" "bids" Demo.bid_fields (Some [])
              Demo.bids_panel None Demo.amount_typed Demo.echoing
              amount_typed_through_the_form)
    as (_ & _ & _ & H & _).
  exact (conj (H "amount") (conj (H "project_id") (H "id"))).
Defined.

(** ** The status chart of the dashboard *)

From Stdlib Require Import Sorting.Permutation Sorting.Sorted.

Local Open Scope Z_scope.

Lemma array_index_text (k : string) (i : Z) :
  StatusChart.array_index k = Some i -> k = string_of_Z i.
Proof.
  unfold StatusChart.array_index. destruct k as [|c k]; [discriminate|].
  destruct (String.eqb (snd (Number.span_digits (String c k))) "");
    [|discriminate].
  destruct (Number.digits_value 0 (String c k) <=? 4294967294);
    [|discriminate].
  destruct (String.eqb_spec
              (string_of_Z (Number.digits_value 0 (String c k)))
              (String c k)) as [E|E]; [|discriminate].
  simpl. intros [= <-]. now symmetry.
Qed.

Lemma get_own_none (k : string) (acc : StatusChart.counts) :
  StatusChart.get_own k acc = None <-> ~ In k (map fst acc).
Proof.
  induction acc as [|[k' v'] acc IH]; simpl; [tauto|].
  destruct (String.eqb_spec k k') as [E|E].
  - split; [discriminate|]. intros H. elim H. left. now symmetry.
  - rewrite IH. split; intros H; [intros [H'|H']; [now elim E|now elim H]|].
    intros H'. apply H. now right.
Qed.

Lemma get_own_some (k : string) (v : StatusChart.entry)
    (acc : StatusChart.counts) :
  NoDup (map fst acc) ->
  (StatusChart.get_own k acc = Some v <-> In (k, v) acc).
Proof.
  induction acc as [|[k' v'] acc IH]; simpl; intros Hnd.
  - split; [discriminate | tauto].
  - inversion Hnd as [|? ? Hx Hnd']; subst.
    destruct (String.eqb_spec k k') as [E|E].
    + subst k'. split.
      * intros [= ->]. now left.
      * intros [[= ->] | H]; [reflexivity|].
        elim Hx. change k with (fst (k, v)). now apply in_map.
    + rewrite (IH Hnd'). split; [now right|].
      intros [[= <- _] | H]; [now elim E | exact H].
Qed.

Lemma update_keys (k : string) (v : StatusChart.entry)
    (acc : StatusChart.counts) :
  map fst (StatusChart.update k v acc) = map fst acc.
Proof.
  induction acc as [|[k' v'] acc IH]; simpl; [reflexivity|].
  destruct (String.eqb k k'); simpl; [reflexivity | now rewrite IH].
Qed.

Lemma update_In (k : string) (v : StatusChart.entry)
    (acc : StatusChart.counts) (k' : string) (v' : StatusChart.entry) :
  NoDup (map fst acc) ->
  In (k', v') (StatusChart.update k v acc) ->
  (k' = k /\ v' = v) \/ (k' <> k /\ In (k', v') acc).
Proof.
  induction acc as [|[a va] acc IH]; simpl; intros Hnd; [tauto|].
  inversion Hnd as [|? ? Hx Hnd']; subst.
  destruct (String.eqb_spec k a) as [E|E]; simpl.
  - subst a. intros [[= <- <-] | H]; [now left|].
    right. split; [|now right].
    intros ->. apply Hx. change k with (fst (k, v')). now apply in_map.
  - intros [[= <- <-] | H].
    + right. split; [congruence | now left].
    + destruct (IH Hnd' H) as [H' | [H1 H2]]; [now left|].
      right. split; [exact H1 | now right].
Qed.

Lemma insert_index_perm (i : Z) (k : string) (v : StatusChart.entry)
    (acc : StatusChart.counts) :
  Permutation (StatusChart.insert_index i k v acc) ((k, v) :: acc).
Proof.
  induction acc as [|[a va] acc IH]; simpl; [reflexivity|].
  destruct (StatusChart.array_index a) as [j|]; [|reflexivity].
  destruct (j <? i); [|reflexivity].
  rewrite IH. apply perm_swap.
Qed.

Lemma create_perm (k : string) (v : StatusChart.entry)
    (acc : StatusChart.counts) :
  Permutation (StatusChart.create k v acc) ((k, v) :: acc).
Proof.
  unfold StatusChart.create. destruct (StatusChart.array_index k) as [i|].
  - apply insert_index_perm.
  - symmetry. apply Permutation_cons_append.
Qed.

Lemma index_lt_trans (a b c : string) :
  StatusChart.index_lt a b -> StatusChart.index_lt b c ->
  StatusChart.index_lt a c.
Proof.
  unfold StatusChart.index_lt.
  destruct (StatusChart.array_index a), (StatusChart.array_index b),
    (StatusChart.array_index c); try tauto. lia.
Qed.

Lemma insert_index_keys (i : Z) (k : string) (v : StatusChart.entry)
    (idx named : list string) (acc : StatusChart.counts) :
  StatusChart.array_index k = Some i ->
  map fst acc = (idx ++ named)%list ->
  Forall (fun x => StatusChart.is_index x = true) idx ->
  Forall (fun x => StatusChart.is_index x = false) named ->
  StronglySorted StatusChart.index_lt idx ->
  ~ In k idx ->
  exists idx',
    map fst (StatusChart.insert_index i k v acc) = (idx' ++ named)%list
    /\ Forall (fun x => StatusChart.is_index x = true) idx'
    /\ StronglySorted StatusChart.index_lt idx'
    /\ (forall x, In x idx' <-> x = k \/ In x idx).
Proof.
  intros Hk. revert acc.
  assert (Hik : StatusChart.is_index k = true)
    by (unfold StatusChart.is_index; now rewrite Hk).
  induction idx as [|a idx IH]; intros acc Hacc Hidx Hnamed Hs Hnin.
  - exists [k]. simpl in Hacc.
    assert (E : StatusChart.insert_index i k v acc = (k, v) :: acc).
    { destruct acc as [|[a va] acc]; [reflexivity|]. simpl.
      destruct named as [|n named]; [discriminate|].
      simpl in Hacc. injection Hacc as -> _.
      inversion Hnamed as [|? ? Hn _]; subst.
      unfold StatusChart.is_index in Hn.
      now destruct (StatusChart.array_index n). }
    rewrite E. simpl. rewrite Hacc. repeat split.
    + now constructor.
    + repeat constructor.
    + intros [<- | []]. now left.
    + intros [-> | []]. now left.
  - destruct acc as [|[a' va] acc]; [discriminate|].
    simpl in Hacc. injection Hacc as -> Hacc.
    inversion Hidx as [|? ? Ha Hidx']; subst.
    inversion Hs as [|? ? Hs' Hlt]; subst.
    unfold StatusChart.is_index in Ha.
    destruct (StatusChart.array_index a) as [j|] eqn:Ej; [|discriminate].
    simpl. rewrite Ej.
    destruct (Z.ltb_spec j i) as [L|L].
    + destruct (IH acc Hacc Hidx' Hnamed Hs') as (idx' & H1 & H2 & H3 & H4).
      { intros H. apply Hnin. now right. }
      exists (a :: idx'). simpl. rewrite H1. repeat split.
      * constructor; [|exact H2]. unfold StatusChart.is_index.
        now rewrite Ej.
      * constructor; [exact H3|]. apply Forall_forall. intros x Hx.
        apply H4 in Hx. destruct Hx as [-> | Hx].
        -- unfold StatusChart.index_lt. now rewrite Ej, Hk.
        -- rewrite Forall_forall in Hlt. now apply Hlt.
      * intros [<- | Hx]; [right; now left|].
        apply H4 in Hx. destruct Hx as [-> | Hx]; [now left|].
        right. now right.
      * intros [-> | [<- | Hx]].
        -- right. apply H4. now left.
        -- now left.
        -- right. apply H4. now right.
    + assert (Hne : i <> j).
      { intros <-. apply Hnin. left.
        apply array_index_text in Hk. apply array_index_text in Ej.
        congruence. }
      assert (Hka : StatusChart.index_lt k a).
      { unfold StatusChart.index_lt. rewrite Hk, Ej. lia. }
      exists (k :: a :: idx). simpl. rewrite Hacc. repeat split.
      * constructor; [exact Hik|]. constructor; [|exact Hidx'].
        unfold StatusChart.is_index. now rewrite Ej.
      * constructor; [exact Hs|]. constructor; [exact Hka|].
        apply Forall_forall. intros x Hx. rewrite Forall_forall in Hlt.
        apply (index_lt_trans k a x Hka). now apply Hlt.
      * intros [<- | Hx]; [now left | now right].
      * intros [-> | Hx]; [now left | now right].
Qed.

Lemma occurrences_snoc (k : string) (l : list project) (p : project) :
  StatusChart.occurrences k (l ++ [p])
  = StatusChart.occurrences k l
    + (if String.eqb (StatusChart.status_key p) k then 1 else 0).
Proof.
  unfold StatusChart.occurrences. rewrite filter_app, length_app. simpl.
  destruct (String.eqb (StatusChart.status_key p) k); simpl; lia.
Qed.

Lemma occurrences_cons (k : string) (l : list project) (p : project) :
  StatusChart.occurrences k (p :: l)
  = StatusChart.occurrences k l
    + (if String.eqb (StatusChart.status_key p) k then 1 else 0).
Proof.
  unfold StatusChart.occurrences. cbn [List.filter].
  destruct (String.eqb (StatusChart.status_key p) k);
    cbn [List.length]; lia.
Qed.

Lemma occurrences_le (k : string) (l : list project) :
  0 <= StatusChart.occurrences k l <= Z.of_nat (List.length l).
Proof.
  unfold StatusChart.occurrences.
  pose proof (filter_length_le
                (fun p => String.eqb (StatusChart.status_key p) k) l).
  lia.
Qed.

Lemma occurrences_pos (k : string) (l : list project) :
  1 <= StatusChart.occurrences k l <->
  exists p, In p l /\ StatusChart.status_key p = k.
Proof.
  unfold StatusChart.occurrences. split.
  - intros H.
    destruct (List.filter
                (fun p => String.eqb (StatusChart.status_key p) k) l)
      as [|p r] eqn:E; [simpl in H; lia|].
    assert (Hp : In p (List.filter
                         (fun p => String.eqb (StatusChart.status_key p) k)
                         l)) by (rewrite E; now left).
    apply filter_In in Hp. destruct Hp as [Hin Hk].
    exists p. split; [exact Hin | now apply String.eqb_eq].
  - intros (p & Hin & Hk).
    assert (Hp : In p (List.filter
                         (fun p => String.eqb (StatusChart.status_key p) k)
                         l)).
    { apply filter_In. split; [exact Hin | now apply String.eqb_eq]. }
    destruct (List.filter _ l); [contradiction | simpl; lia].
Qed.

Lemma first_occurrences_In (x : string) (l : list string) :
  In x (StatusChart.first_occurrences l) <-> In x l.
Proof.
  induction l as [|a l IH]; simpl; [tauto|].
  rewrite filter_In, IH, negb_true_iff, String.eqb_neq.
  destruct (string_dec a x) as [E|E]; [tauto|].
  split; [tauto|]. intros [H | H]; [tauto|]. right. split; congruence.
Qed.

Lemma first_occurrences_snoc (x : string) (l : list string) :
  StatusChart.first_occurrences (l ++ [x])
  = if existsb (String.eqb x) l then StatusChart.first_occurrences l
    else (StatusChart.first_occurrences l ++ [x])%list.
Proof.
  induction l as [|a l IH]; simpl; [reflexivity|].
  rewrite IH. destruct (String.eqb_spec x a) as [E|E]; simpl.
  - subst a. destruct (existsb (String.eqb x) l); [reflexivity|].
    rewrite filter_app. simpl. rewrite String.eqb_refl. simpl.
    now rewrite app_nil_r.
  - destruct (existsb (String.eqb x) l); [reflexivity|].
    rewrite filter_app. simpl.
    destruct (String.eqb_spec x a) as [E'|_]; [now elim E|].
    reflexivity.
Qed.

Lemma existsb_eqb_In (x : string) (l : list string) :
  existsb (String.eqb x) l = true <-> In x l.
Proof.
  rewrite existsb_exists. split.
  - intros (y & Hy & E). apply String.eqb_eq in E. now subst.
  - intros H. exists x. split; [exact H | apply String.eqb_refl].
Qed.

Lemma truthy_count (n : Z) :
  1 <= n -> n < 2 ^ 53 -> Number.truthy (Number.of_Z n) = true.
Proof.
  intros H1 H2. destruct n as [|z|z]; try lia.
  rewrite of_Z_pos by (apply size_le_53; lia). reflexivity.
Qed.

(** What the accumulator holds once the projects [l] are counted. *)
Definition counted (l : list project) (acc : StatusChart.counts) : Prop :=
  NoDup (map fst acc)
  /\ (forall k v,
        In (k, v) acc ->
        v = StatusChart.Count (Number.of_Z (StatusChart.occurrences k l))
        /\ 1 <= StatusChart.occurrences k l)
  /\ (forall p, In p l -> In (StatusChart.status_key p) (map fst acc))
  /\ exists idx,
       map fst acc
       = (idx ++ StatusChart.first_occurrences
                   (List.filter (fun k => negb (StatusChart.is_index k))
                                (map StatusChart.status_key l)))%list
       /\ Forall (fun x => StatusChart.is_index x = true) idx
       /\ StronglySorted StatusChart.index_lt idx.

Lemma named_not_index (l : list string) :
  Forall (fun x => StatusChart.is_index x = false)
    (StatusChart.first_occurrences
       (List.filter (fun k => negb (StatusChart.is_index k)) l)).
Proof.
  apply Forall_forall. intros x Hx.
  apply (proj1 (first_occurrences_In _ _)) in Hx.
  apply filter_In in Hx. destruct Hx as [_ Hx].
  now apply negb_true_iff in Hx.
Qed.

Lemma counted_step (native_text : string -> string) (l : list project)
    (acc : StatusChart.counts) (p : project) :
  counted l acc ->
  ~ In (StatusChart.status_key p)
       ("__proto__" :: StatusChart.prototype_functions) ->
  Z.of_nat (List.length l) + 1 < 2 ^ 53 ->
  counted (l ++ [p]) (StatusChart.count_status native_text acc p).
Proof.
  intros (Hnd & Hval & Hcov & idx & Hkeys & Hidx & Hsort) Hproto Hlen.
  set (k := StatusChart.status_key p) in *.
  assert (Hnamed := named_not_index (map StatusChart.status_key l)).
  unfold StatusChart.count_status. fold k.
  destruct (StatusChart.get_own k acc) as [v|] eqn:Hget.
  - (* the status has been counted before *)
    apply (get_own_some k v acc Hnd) in Hget.
    destruct (Hval k v Hget) as [-> Hocc].
    pose proof (occurrences_le k l) as Hle.
    rewrite truthy_count by lia.
    unfold StatusChart.one. rewrite add_of_Z by lia.
    assert (Hin : In k (map fst acc)).
    { change k with (fst (k, StatusChart.Count
                               (Number.of_Z (StatusChart.occurrences k l)))).
      now apply in_map. }
    split; [now rewrite update_keys|]. split; [|split].
    + intros k' v' H'. rewrite occurrences_snoc. fold k.
      destruct (update_In _ _ _ _ _ Hnd H') as [[-> ->] | [Hne H'']].
      * rewrite String.eqb_refl. split; [reflexivity | lia].
      * destruct (String.eqb_spec k k') as [E|_]; [now elim Hne|].
        rewrite Z.add_0_r. now apply Hval.
    + intros q Hq. rewrite update_keys. apply in_app_or in Hq.
      destruct Hq as [Hq | [<- | []]]; [now apply Hcov | exact Hin].
    + exists idx. rewrite update_keys. split; [|now split].
      rewrite Hkeys. f_equal. rewrite map_app, filter_app. simpl. fold k.
      destruct (StatusChart.is_index k) eqn:Ei; simpl;
        [now rewrite app_nil_r|].
      rewrite first_occurrences_snoc.
      assert (In k (List.filter (fun k => negb (StatusChart.is_index k))
                                (map StatusChart.status_key l))) as Hk.
      { rewrite Hkeys in Hin. apply in_app_or in Hin.
        destruct Hin as [Hin | Hin].
        - rewrite Forall_forall in Hidx. apply Hidx in Hin. congruence.
        - exact (proj1 (first_occurrences_In _ _) Hin). }
      apply existsb_eqb_In in Hk. now rewrite Hk.
  - (* a status seen for the first time *)
    apply get_own_none in Hget.
    assert (Hzero : StatusChart.occurrences k l = 0).
    { pose proof (occurrences_le k l) as Hle.
      destruct (Z.eq_dec (StatusChart.occurrences k l) 0) as [E|E];
        [exact E|].
      assert (H1 : 1 <= StatusChart.occurrences k l) by lia.
      apply occurrences_pos in H1. destruct H1 as (q & Hq & Hk).
      elim Hget. rewrite <- Hk. now apply Hcov. }
    destruct (String.eqb_spec k "__proto__") as [E|_].
    { elim Hproto. left. now symmetry. }
    destruct (existsb (String.eqb k) StatusChart.prototype_functions)
      eqn:Ep.
    { apply existsb_eqb_In in Ep. elim Hproto. now right. }
    change (Number.add Number.zero StatusChart.one) with (Number.of_Z 1).
    pose proof (create_perm k (StatusChart.Count (Number.of_Z 1)) acc)
      as Hperm.
    split; [|split; [|split]].
    + apply (Permutation_NoDup
               (Permutation_sym (Permutation_map fst Hperm))).
      simpl. now constructor.
    + intros k' v' H'. rewrite occurrences_snoc. fold k.
      apply (Permutation_in _ Hperm) in H'.
      destruct H' as [[= <- <-] | H'].
      * rewrite String.eqb_refl, Hzero. split; [reflexivity | lia].
      * destruct (String.eqb_spec k k') as [E|_].
        -- subst k'. elim Hget.
           change k with (fst (k, v')). now apply in_map.
        -- rewrite Z.add_0_r. now apply Hval.
    + intros q Hq.
      apply (Permutation_in _
               (Permutation_sym (Permutation_map fst Hperm))).
      simpl. apply in_app_or in Hq.
      destruct Hq as [Hq | [<- | []]]; [right; now apply Hcov | now left].
    + rewrite map_app, filter_app. simpl. fold k.
      unfold StatusChart.create.
      destruct (StatusChart.array_index k) as [i|] eqn:Ei.
      * assert (Ek : StatusChart.is_index k = true)
          by (unfold StatusChart.is_index; now rewrite Ei).
        rewrite Ek. simpl. rewrite app_nil_r.
        destruct (insert_index_keys i k (StatusChart.Count (Number.of_Z 1))
                    idx _ acc Ei Hkeys Hidx Hnamed Hsort)
          as (idx' & H1 & H2 & H3 & _).
        { intros H. apply Hget. rewrite Hkeys. apply in_or_app. now left. }
        exists idx'. now repeat split.
      * assert (Ek : StatusChart.is_index k = false)
          by (unfold StatusChart.is_index; now rewrite Ei).
        rewrite Ek. simpl. exists idx. split; [|now split].
        rewrite map_app, Hkeys. simpl. rewrite <- app_assoc. f_equal.
        rewrite first_occurrences_snoc.
        destruct (existsb (String.eqb k) (List.filter _ _)) eqn:Ex;
          [|reflexivity].
        apply existsb_eqb_In in Ex. elim Hget. rewrite Hkeys.
        apply in_or_app. right.
        exact (proj2 (first_occurrences_In _ _) Ex).
Qed.

Lemma counted_all (native_text : string -> string) (l : list project) :
  Forall (fun p => ~ In (StatusChart.status_key p)
                        ("__proto__" :: StatusChart.prototype_functions)) l ->
  Z.of_nat (List.length l) < 2 ^ 53 ->
  counted l (StatusChart.statusCounts native_text l).
Proof.
  unfold StatusChart.statusCounts.
  induction l as [|p l IH] using rev_ind; intros Hall Hlen.
  - simpl. repeat split.
    + constructor.
    + contradiction.
    + contradiction.
    + contradiction.
    + exists []. repeat split; constructor.
  - rewrite fold_left_app. simpl. rewrite length_app in Hlen. simpl in Hlen.
    apply Forall_app in Hall. destruct Hall as [Hl Hp].
    inversion Hp as [|? ? Hp' _]; subst.
    apply counted_step; [apply IH; [exact Hl | lia] | exact Hp' | lia].
Qed.

Lemma occurrences_partition (keys : list string) (l : list project) :
  NoDup keys ->
  (forall p, In p l -> In (StatusChart.status_key p) keys) ->
  fold_right (fun k s => StatusChart.occurrences k l + s) 0 keys
  = Z.of_nat (List.length l).
Proof.
  intros Hnd. induction l as [|p l IH]; intros Hcov.
  - clear. induction keys as [|k keys IHk]; cbn [fold_right];
      [reflexivity|].
    rewrite IHk. reflexivity.
  - assert (Hl : forall q, In q l -> In (StatusChart.status_key q) keys)
      by (intros q Hq; apply Hcov; now right).
    specialize (IH Hl).
    assert (Hp : In (StatusChart.status_key p) keys)
      by (apply Hcov; now left).
    assert (G : forall ks,
               NoDup ks ->
               fold_right
                 (fun k s => StatusChart.occurrences k (p :: l) + s) 0 ks
               = fold_right (fun k s => StatusChart.occurrences k l + s) 0 ks
                 + (if existsb (String.eqb (StatusChart.status_key p)) ks
                    then 1 else 0)).
    { clear. induction ks as [|k ks IHk]; intros Hnd;
        cbn [fold_right existsb]; [reflexivity|].
      inversion Hnd as [|? ? Hx Hnd']; subst.
      rewrite (IHk Hnd'), occurrences_cons.
      destruct (String.eqb_spec (StatusChart.status_key p) k) as [E|E];
        cbn [orb]; [|lia].
      destruct (existsb (String.eqb (StatusChart.status_key p)) ks) eqn:Ex;
        [|lia].
      apply existsb_eqb_In in Ex. rewrite E in Ex. contradiction. }
    rewrite (G keys Hnd), IH.
    apply existsb_eqb_In in Hp. rewrite Hp.
    cbn [List.length]. rewrite Nat2Z.inj_succ. lia.
Qed.

Lemma combine_fst_snd {A B : Type} (l : list (A * B)) :
  combine (map fst l) (map snd l) = l.
Proof.
  induction l as [|[a b] l IH]; simpl; [reflexivity | now rewrite IH].
Qed.


(** When no project's status is the name of a member of
    [Object.prototype], the pie chart of the dashboard has one slice per
    distinct status, a project without status (absent, [null] or empty)
    counting as "Unknown": the labels are distinct, they are exactly the
    statuses that occur, each slice is the number of projects with that
    status, and the slices add up to the number of projects.  Statuses
    that read as array indices come first in ascending order, the others
    follow in the order of their first occurrence. *)
Theorem status_chart_counts_every_project
    (native_text : string -> string) (projects : list project) :
  Forall (fun p => ~ In (StatusChart.status_key p)
                        ("__proto__" :: StatusChart.prototype_functions))
         projects ->
  Z.of_nat (List.length projects) < 2 ^ 53 ->
  let labels := StatusChart.labels native_text projects in
  NoDup labels
  /\ List.length (StatusChart.data native_text projects) = List.length labels
  /\ (forall k,
        In k labels <->
        exists p, In p projects /\ StatusChart.status_key p = k)
  /\ (forall k v,
        In (k, v) (combine labels (StatusChart.data native_text projects)) ->
        v = StatusChart.Count
              (Number.of_Z (StatusChart.occurrences k projects)))
  /\ fold_right (fun k s => StatusChart.occurrences k projects + s) 0 labels
     = Z.of_nat (List.length projects)
  /\ exists indices,
       labels
       = (indices
          ++ StatusChart.first_occurrences
               (List.filter (fun k => negb (StatusChart.is_index k))
                            (map StatusChart.status_key projects)))%list
       /\ Forall (fun k => StatusChart.is_index k = true) indices
       /\ StronglySorted StatusChart.index_lt indices.
Proof.
  intros Hall Hlen labels.
  destruct (counted_all native_text projects Hall Hlen)
    as (Hnd & Hval & Hcov & Hord).
  unfold labels, StatusChart.labels, StatusChart.data.
  rewrite combine_fst_snd.
  split; [exact Hnd|]. split; [now rewrite !length_map|].
  split; [|split; [|split]].
  - intros k. split.
    + intros Hk. apply in_map_iff in Hk. destruct Hk as ([k' v] & <- & Hin).
      apply occurrences_pos. simpl. now apply (Hval k' v).
    + intros (p & Hp & <-). now apply Hcov.
  - intros k v Hin. now apply (Hval k v).
  - apply occurrences_partition; assumption.
  - exact Hord.
Qed.

Lemma ones_snoc (n : nat) :
  StatusChart.ones n ++ "1" = StatusChart.ones (S n).
Proof.
  induction n as [|n IH]; [reflexivity|].
  cbn [StatusChart.ones]. simpl. f_equal. exact IH.
Qed.

Lemma text_grows (a : string) (n : nat) :
  match a ++ StatusChart.ones (S n) with
  | EmptyString =>
      StatusChart.Count (Number.add Number.zero StatusChart.one)
  | _ => StatusChart.Text ((a ++ StatusChart.ones (S n)) ++ "1")
  end
  = StatusChart.Text (a ++ StatusChart.ones (S (S n))).
Proof.
  rewrite <- (ones_snoc (S n)).
  destruct a as [|c a]; simpl; [reflexivity|].
  now rewrite append_assoc.
Qed.

Lemma proto_is_no_function :
  ~ In "__proto__" StatusChart.prototype_functions.
Proof.
  simpl. intros H.
  repeat (destruct H as [H | H]; [discriminate H|]). exact H.
Qed.

Lemma prototype_statuses (native_text : string -> string)
    (l : list project) :
  let acc := StatusChart.statusCounts native_text l in
  NoDup (map fst acc)
  /\ (forall k v,
        In (k, v) acc ->
        k <> "__proto__"
        /\ (In k StatusChart.prototype_functions ->
            v = StatusChart.Text
                  (native_text k
                   ++ StatusChart.ones
                        (Z.to_nat (StatusChart.occurrences k l)))
            /\ 1 <= StatusChart.occurrences k l))
  /\ (forall p,
        In p l ->
        In (StatusChart.status_key p) StatusChart.prototype_functions ->
        In (StatusChart.status_key p) (map fst acc)).
Proof.
  unfold StatusChart.statusCounts.
  induction l as [|p l IH] using rev_ind.
  - simpl. split; [constructor|]. split; contradiction.
  - rewrite fold_left_app. cbn [fold_left].
    destruct IH as (Hnd & Hinv & Hcov).
    set (acc := fold_left (StatusChart.count_status native_text) l []) in *.
    unfold StatusChart.count_status.
    set (k := StatusChart.status_key p).
    assert (Hother : forall k0,
               k0 <> k ->
               StatusChart.occurrences k0 (l ++ [p])
               = StatusChart.occurrences k0 l).
    { intros k0 Hk0. rewrite occurrences_snoc. fold k.
      destruct (String.eqb_spec k k0) as [E|_]; [now elim Hk0 | lia]. }
    assert (Hself : StatusChart.occurrences k (l ++ [p])
                    = StatusChart.occurrences k l + 1).
    { rewrite occurrences_snoc. fold k. now rewrite String.eqb_refl. }
    pose proof (occurrences_le k l) as Hle.
    destruct (StatusChart.get_own k acc) as [v|] eqn:Hget.
    + apply (get_own_some k v acc Hnd) in Hget.
      destruct (Hinv k v Hget) as [Hk Hp].
      assert (Hin : In k (map fst acc)).
      { change k with (fst (k, v)). now apply in_map. }
      assert (G : forall v',
                 (In k StatusChart.prototype_functions ->
                  v' = StatusChart.Text
                         (native_text k
                          ++ StatusChart.ones
                               (Z.to_nat
                                  (StatusChart.occurrences k l + 1)))) ->
                 NoDup (map fst (StatusChart.update k v' acc))
                 /\ (forall k0 v0,
                       In (k0, v0) (StatusChart.update k v' acc) ->
                       k0 <> "__proto__"
                       /\ (In k0 StatusChart.prototype_functions ->
                           v0 = StatusChart.Text
                                  (native_text k0
                                   ++ StatusChart.ones
                                        (Z.to_nat
                                           (StatusChart.occurrences k0
                                              (l ++ [p]))))
                           /\ 1 <= StatusChart.occurrences k0 (l ++ [p])))
                 /\ (forall q,
                       In q (l ++ [p]) ->
                       In (StatusChart.status_key q)
                          StatusChart.prototype_functions ->
                       In (StatusChart.status_key q)
                          (map fst (StatusChart.update k v' acc)))).
      { intros v' Hv'. rewrite update_keys.
        split; [exact Hnd|]. split.
        - intros k0 v0 H0.
          destruct (update_In _ _ _ _ _ Hnd H0) as [[-> ->] | [Hne H1]].
          + split; [exact Hk|]. intros Hf. rewrite Hself.
            split; [now apply Hv' | lia].
          + rewrite (Hother k0 Hne). now apply Hinv.
        - intros q Hq Hf. apply in_app_or in Hq.
          destruct Hq as [Hq | [<- | []]]; [now apply Hcov | exact Hin]. }
      destruct v as [n|s]; apply G; intros Hf;
        destruct (Hp Hf) as [Hv Hocc]; [discriminate Hv|].
      injection Hv as ->.
      replace (Z.to_nat (StatusChart.occurrences k l + 1))
        with (S (Z.to_nat (StatusChart.occurrences k l)))
        by (rewrite Z2Nat.inj_add by lia; simpl; lia).
      destruct (Z.to_nat (StatusChart.occurrences k l)) as [|m] eqn:Em;
        [lia|].
      exact (text_grows (native_text k) m).
    + apply get_own_none in Hget.
      destruct (String.eqb_spec k "__proto__") as [E|E].
      { split; [exact Hnd|]. split.
        - intros k0 v0 H0. destruct (Hinv k0 v0 H0) as [Hk0 Hp0].
          rewrite Hother by congruence. now split.
        - intros q Hq Hf. apply in_app_or in Hq.
          destruct Hq as [Hq | [<- | []]]; [now apply Hcov|].
          fold k in Hf. rewrite E in Hf. now apply proto_is_no_function in Hf. }
      assert (Hzero : In k StatusChart.prototype_functions ->
                      StatusChart.occurrences k l = 0).
      { intros Hf.
        destruct (Z.eq_dec (StatusChart.occurrences k l) 0) as [Z0|Z0];
          [exact Z0|].
        assert (H1 : 1 <= StatusChart.occurrences k l) by lia.
        apply occurrences_pos in H1. destruct H1 as (q & Hq & Hkq).
        elim Hget. rewrite <- Hkq. apply Hcov; [exact Hq|].
        now rewrite Hkq. }
      assert (G : forall v',
                 (In k StatusChart.prototype_functions ->
                  v' = StatusChart.Text (native_text k ++ "1")) ->
                 NoDup (map fst (StatusChart.create k v' acc))
                 /\ (forall k0 v0,
                       In (k0, v0) (StatusChart.create k v' acc) ->
                       k0 <> "__proto__"
                       /\ (In k0 StatusChart.prototype_functions ->
                           v0 = StatusChart.Text
                                  (native_text k0
                                   ++ StatusChart.ones
                                        (Z.to_nat
                                           (StatusChart.occurrences k0
                                              (l ++ [p]))))
                           /\ 1 <= StatusChart.occurrences k0 (l ++ [p])))
                 /\ (forall q,
                       In q (l ++ [p]) ->
                       In (StatusChart.status_key q)
                          StatusChart.prototype_functions ->
                       In (StatusChart.status_key q)
                          (map fst (StatusChart.create k v' acc)))).
      { intros v' Hv'. pose proof (create_perm k v' acc) as Hperm.
        split; [|split].
        - apply (Permutation_NoDup
                   (Permutation_sym (Permutation_map fst Hperm))).
          simpl. now constructor.
        - intros k0 v0 H0. apply (Permutation_in _ Hperm) in H0.
          destruct H0 as [[= <- <-] | H0].
          + split; [exact E|]. intros Hf.
            rewrite Hself, (Hzero Hf). split; [now apply Hv' | lia].
          + destruct (String.eqb_spec k0 k) as [Ek|Ek].
            * subst k0. elim Hget. change k with (fst (k, v0)).
              now apply in_map.
            * rewrite (Hother k0 Ek). now apply Hinv.
        - intros q Hq Hf.
          apply (Permutation_in _
                   (Permutation_sym (Permutation_map fst Hperm))).
          simpl. apply in_app_or in Hq.
          destruct Hq as [Hq | [<- | []]];
            [right; now apply Hcov | now left]. }
      destruct (existsb (String.eqb k) StatusChart.prototype_functions)
        eqn:Ep; apply G; intros Hf.
      * reflexivity.
      * apply existsb_eqb_In in Hf. congruence.
Qed.

(** A status that is the name of a member of [Object.prototype] is not
    counted: [__proto__] never becomes a label, so its projects are in no
    slice; the name of an inherited function becomes a label exactly when
    a project has it as status, and its slice is then not a number but a
    text: the function's text followed by one "1" for each project with
    that status. *)
Theorem prototype_named_statuses_are_not_counted
    (native_text : string -> string) (projects : list project) :
  ~ In "__proto__" (StatusChart.labels native_text projects)
  /\ forall k,
       In k StatusChart.prototype_functions ->
       (In k (StatusChart.labels native_text projects)
        <-> exists p, In p projects /\ StatusChart.status_key p = k)
       /\ forall v,
            In (k, v) (combine (StatusChart.labels native_text projects)
                               (StatusChart.data native_text projects)) ->
            1 <= StatusChart.occurrences k projects
            /\ v = StatusChart.Text
                     (native_text k
                      ++ StatusChart.ones
                           (Z.to_nat
                              (StatusChart.occurrences k projects))).
Proof.
  destruct (prototype_statuses native_text projects) as (_ & H & Hcov).
  unfold StatusChart.labels, StatusChart.data. rewrite combine_fst_snd.
  split.
  - intros Hin. apply in_map_iff in Hin. destruct Hin as ([k v] & Hk & Hin).
    simpl in Hk. subst k. now destruct (H _ _ Hin).
  - intros k Hk. split.
    + split.
      * intros Hin. apply in_map_iff in Hin.
        destruct Hin as ([k' v] & Hk' & Hin). simpl in Hk'. subst k'.
        apply occurrences_pos. now destruct (proj2 (H k v Hin) Hk).
      * intros (p & Hp & <-). now apply Hcov.
    + intros v Hin. destruct (proj2 (H k v Hin) Hk) as [-> Hocc].
      now split.
Qed.

Lemma mixed_statuses_plain :
  Forall (fun p => ~ In (StatusChart.status_key p)
                        ("__proto__" :: StatusChart.prototype_functions))
         Demo.mixed.
Proof.
  repeat (apply Forall_cons;
          [intros H; simpl in H;
           repeat (destruct H as [H | H]; [discriminate|]); exact H|]).
  apply Forall_nil.
Qed.

(** Seven projects, two of them without status: the labels are distinct
    and the slices add up to seven. *)
Lemma status_chart_counts_every_project_witness :
  NoDup (StatusChart.labels Demo.engine_text Demo.mixed)
  /\ fold_right (fun k s => StatusChart.occurrences k Demo.mixed + s) 0
                (StatusChart.labels Demo.engine_text Demo.mixed)
     = 7.
Proof.
  destruct (status_chart_counts_every_project Demo.engine_text Demo.mixed
              mixed_statuses_plain eq_refl)
    as (Hnd & _ & _ & _ & Hsum & _).
  exact (conj Hnd Hsum).
Defined.

Example status_chart_sample :
  StatusChart.labels Demo.engine_text Demo.mixed
  = ["3"; "7"; "10"; "active"; "Unknown"]
  /\ StatusChart.data Demo.engine_text Demo.mixed
     = map (fun n => StatusChart.Count (Number.of_Z n)) [1; 1; 1; 2; 2].
Proof. split; vm_compute; reflexivity. Qed.

Example prototype_named_sample :
  StatusChart.statusCounts Demo.engine_text
    [ Demo.with_status (Val "toString"); Demo.with_status (Val "__proto__");
      Demo.with_status (Val "toString") ]
  = [ ("toString",
       StatusChart.Text "function toString() { [native code] }11") ].
Proof. vm_compute. reflexivity. Qed.

Local Close Scope Z_scope.

(** ** From the login form to the dashboard *)

Lemma error_message_not_empty (endpoint : string) (err : http_error) :
  exists c m, UseData.error_message endpoint err = String c m.
Proof.
  unfold UseData.error_message.
  destruct (UseData.status_is err 401); [now eexists; eexists|].
  destruct (UseData.status_is err 422); now eexists; eexists.
Qed.

(** A page loaded without a token shows the login form and fetches
    nothing.  After a sign-in the server accepts, the root component
    fetches [projects] once; the main area then shows the dashboard: the
    overview of the rows the server returned, or the hook's message when
    the fetch is rejected.  Rendered before that fetch has run, the
    component does not show the loading message but an overview of no
    projects, because the signed-out effect has cleared the loading
    flag. *)
Theorem after_sign_in_the_dashboard_shows_what_was_fetched
    (w : world LoginForm.payload LoginForm.response_data)
    (w' : world unit (list project))
    (f : LoginForm.state) (data : LoginForm.response_data) :
  LoginForm.isSignUp f = false ->
  server w (LoginForm.submission f) = Resolved data ->
  let c0 :=
    {| LoginForm.form := f; LoginForm.authToken := None;
       LoginForm.app := App.initial None |} in
  let hook0 :=
    final_state w' (App.projects_fetch (App.initial None)) UseData.initial in
  let app1 := LoginForm.app (final_state w (LoginForm.handleSubmit c0) c0) in
  let hook1 := final_state w' (App.projects_fetch app1) hook0 in
  App.render (App.initial None) UseData.initial = App.LoginForm
  /\ App.render (App.initial None) hook0 = App.LoginForm
  /\ trace w' (App.projects_fetch (App.initial None)) UseData.initial = []
  /\ List.filter is_call (trace w' (App.projects_fetch app1) hook0)
     = [Called (UseData.get "projects")]
  /\ App.render app1 hook0
     = App.Layout "dashboard"
         (App.Dashboard (DashboardView.Overview 0 "$0.0M" "$0.0M"))
  /\ (forall rows,
        server w' (UseData.get "projects") = Resolved rows ->
        App.render app1 hook1
        = App.Layout "dashboard"
            (App.Dashboard
               (DashboardView.Overview (List.length rows)
                  (DashboardView.in_millions (DashboardView.totalBudget rows))
                  (DashboardView.in_millions
                     (DashboardView.actualCosts rows)))))
  /\ (forall err,
        server w' (UseData.get "projects") = Rejected err ->
        App.render app1 hook1
        = App.Layout "dashboard"
            (App.Dashboard
               (DashboardView.ErrorMessage
                  (UseData.error_message "projects" err)))).
Proof.
  intros Hm Hs c0 hook0 app1 hook1.
  assert (Happ : app1 = App.handleLogin (App.initial None)).
  { unfold app1, final_state.
    rewrite (login_resolved w c0 data Hm Hs). reflexivity. }
  assert (Hh0 : hook0 = {| UseData.data := []; UseData.loading := false;
                           UseData.error := None |}) by reflexivity.
  split; [reflexivity|]. split; [reflexivity|]. split; [reflexivity|].
  unfold hook1. rewrite Happ, Hh0.
  change (App.projects_fetch (App.handleLogin (App.initial None)))
    with (UseData.effect (Row := project) (Some "projects")).
  split; [|split; [vm_compute; reflexivity|split]].
  - unfold trace.
    destruct (server w' (UseData.get "projects")) as [rows|err] eqn:Hf.
    + now rewrite (fetch_resolved w' _ "p"%char "rojects" rows Hf).
    + now rewrite (fetch_rejected w' _ "p"%char "rojects" err Hf).
  - intros rows Hf. unfold final_state.
    rewrite (fetch_resolved w' _ "p"%char "rojects" rows Hf). reflexivity.
  - intros err Hf. unfold final_state.
    rewrite (fetch_rejected w' _ "p"%char "rojects" err Hf).
    cbn [fst snd]. unfold App.render. cbn [App.isAuthenticated App.handleLogin negb].
    unfold App.renderContent. cbn.
    destruct (error_message_not_empty "projects" err) as (c & m & E).
    unfold DashboardView.render. cbn [UseData.loading UseData.error UseData.data].
    now rewrite E.
Qed.

(** The walkthrough: a@b.com signs in and the server returns the sample
    portfolio. *)
Lemma after_sign_in_the_dashboard_shows_what_was_fetched_witness :
  App.render
    (LoginForm.app
       (final_state Demo.granting
          (LoginForm.handleSubmit Demo.signing_in) Demo.signing_in))
    (final_state (Sample.serving Sample.portfolio)
       (App.projects_fetch
          (LoginForm.app
             (final_state Demo.granting
                (LoginForm.handleSubmit Demo.signing_in) Demo.signing_in)))
       (final_state (Sample.serving Sample.portfolio)
          (App.projects_fetch (App.initial None)) UseData.initial))
  = App.Layout "dashboard"
      (App.Dashboard (DashboardView.Overview 3 "$2.5M" "$1.2M")).
Proof.
  destruct (after_sign_in_the_dashboard_shows_what_was_fetched
              Demo.granting (Sample.serving Sample.portfolio)
              (LoginForm.form Demo.signing_in) Demo.token_T
              eq_refl eq_refl)
    as (_ & _ & _ & _ & _ & H & _).
  exact (H Sample.portfolio eq_refl).
Defined.

(** ** The dashboard after a change in the projects panel *)

Local Open Scope Z_scope.

Lemma filter_whole (get : project -> field number) (keep : project -> bool)
    (ps : list project) (zs : list Z) :
  Forall2 (fun p z => whole_amount (get p) z) ps zs ->
  Forall2 (fun p z => whole_amount (get p) z) (List.filter keep ps)
          (kept_amounts keep ps zs)
  /\ total (kept_amounts keep ps zs) <= total zs.
Proof.
  unfold kept_amounts.
  induction 1 as [|p z ps zs Hp _ (H1 & H2)]; simpl.
  - split; [constructor | lia].
  - fold (total zs). pose proof Hp as [Hz _]. destruct (keep p); simpl.
    + split; [now constructor|].
      fold (total (map snd (List.filter (fun pz => keep (fst pz))
                                        (combine ps zs)))).
      lia.
    + split; [exact H1 | lia].
Qed.

Lemma overview_of_whole (ps : list project) (budgets costs : list Z) :
  Forall2 (fun p z => whole_amount (budget p) z) ps budgets ->
  Forall2 (fun p z => whole_amount (actual_cost p) z) ps costs ->
  total budgets < 2 ^ 53 ->
  total costs < 2 ^ 53 ->
  DashboardView.render ps false None
  = DashboardView.Overview (List.length ps)
      (DashboardView.in_millions (Number.of_Z (total budgets)))
      (DashboardView.in_millions (Number.of_Z (total costs))).
Proof.
  intros Hb Hc Sb Sc.
  unfold DashboardView.render, DashboardView.totalBudget,
    DashboardView.actualCosts.
  change Number.zero with (Number.of_Z 0).
  rewrite (fold_add_whole budget ps budgets 0 Hb) by lia.
  rewrite (fold_add_whole actual_cost ps costs 0 Hc) by lia.
  reflexivity.
Qed.

(** The dashboard reads the collection the projects panel changes, so it
    follows the panel without a new fetch.  With whole amounts throughout:
    after a project is created the dashboard counts one project more and
    each total has grown by the amount of the row the server returned;
    after a confirmed delete of the id [k] the collection is made of the
    projects whose id is not [k], the dashboard counts exactly those and
    each total is the sum of their amounts, which is at most the total
    before. *)
Theorem dashboard_follows_the_projects_panel
    (w : world ProjectsView.form project) (st : ProjectsView.state)
    (budgets costs : list Z) :
  Forall2 (fun p z => whole_amount (budget p) z)
          (ProjectsView.projects st) budgets ->
  Forall2 (fun p z => whole_amount (actual_cost p) z)
          (ProjectsView.projects st) costs ->
  total budgets < 2 ^ 53 ->
  total costs < 2 ^ 53 ->
  (forall R b c,
     whole_amount (budget R) b -> whole_amount (actual_cost R) c ->
     b + total budgets < 2 ^ 53 -> c + total costs < 2 ^ 53 ->
     ProjectsView.editingProject st = None ->
     server w (ProjectsView.post "/projects" (ProjectsView.projectFormData st))
     = Resolved R ->
     let st' := final_state w (ProjectsView.handleFormSubmit st) st in
     DashboardView.render (ProjectsView.projects st') false None
     = DashboardView.Overview (S (List.length (ProjectsView.projects st)))
         (DashboardView.in_millions (Number.of_Z (b + total budgets)))
         (DashboardView.in_millions (Number.of_Z (c + total costs))))
  /\
  (forall k R,
     user_confirms w ProjectsView.delete_prompt = true ->
     server w (ProjectsView.delete ("/projects/" ++ string_of_Z k))
     = Resolved R ->
     let st' := final_state w (ProjectsView.handleDeleteProject k) st in
     let remains := fun p : project => negb (Z.eqb (id p) k) in
     ProjectsView.projects st'
     = List.filter remains (ProjectsView.projects st)
     /\ DashboardView.render (ProjectsView.projects st') false None
        = DashboardView.Overview
            (List.length (List.filter remains (ProjectsView.projects st)))
            (DashboardView.in_millions
               (Number.of_Z
                  (total (kept_amounts remains (ProjectsView.projects st)
                                       budgets))))
            (DashboardView.in_millions
               (Number.of_Z
                  (total (kept_amounts remains (ProjectsView.projects st)
                                       costs))))
     /\ Forall2 (fun p z => whole_amount (budget p) z)
                (ProjectsView.projects st')
                (kept_amounts remains (ProjectsView.projects st) budgets)
     /\ Forall2 (fun p z => whole_amount (actual_cost p) z)
                (ProjectsView.projects st')
                (kept_amounts remains (ProjectsView.projects st) costs)
     /\ total (kept_amounts remains (ProjectsView.projects st) budgets)
        <= total budgets
     /\ total (kept_amounts remains (ProjectsView.projects st) costs)
        <= total costs).
Proof.
  intros Hb Hc Sb Sc. split.
  - intros R b c HRb HRc Sb' Sc' He Hs st'.
    unfold st', final_state.
    rewrite (projects_create_resolved w st R He Hs). cbn [fst snd].
    cbn [ProjectsView.projects ProjectsView.setShowForm
         ProjectsView.setProjects].
    rewrite (overview_of_whole (R :: ProjectsView.projects st)
               (b :: budgets) (c :: costs)).
    + reflexivity.
    + now constructor.
    + now constructor.
    + simpl. fold (total budgets). lia.
    + simpl. fold (total costs). lia.
  - intros k R Hconf Hs st' remains.
    unfold st', final_state.
    rewrite (projects_delete_resolved w st k R Hconf Hs). cbn [fst snd].
    cbn [ProjectsView.projects ProjectsView.setProjects].
    unfold ProjectsView.remove_by_id. fold remains.
    destruct (filter_whole budget remains _ _ Hb) as [Hb' Lb].
    destruct (filter_whole actual_cost remains _ _ Hc) as [Hc' Lc].
    split; [reflexivity|].
    split; [apply overview_of_whole; try assumption; lia|].
    repeat split; assumption.
Qed.

(** On the sample portfolio: the create form submitted, the server
    returning the quay project (budget 0, no actual cost); and the bridge
    project deleted, which leaves two projects with budgets of 1,500,000
    and 0 and costs of 700,000 and 0. *)
Lemma dashboard_follows_the_projects_panel_witness :
  DashboardView.render
    (ProjectsView.projects
       (final_state (Sample.accepting Sample.quay)
          (ProjectsView.handleFormSubmit Sample.creating) Sample.creating))
    false None
  = DashboardView.Overview 4
      (DashboardView.in_millions (Number.of_Z (0 + 2500000)))
      (DashboardView.in_millions (Number.of_Z (0 + 1200000)))
  /\ ProjectsView.projects
       (final_state (Sample.accepting Sample.quay)
          (ProjectsView.handleDeleteProject 2) Sample.creating)
     = [Sample.tower; Sample.depot]
  /\ DashboardView.render
       (ProjectsView.projects
          (final_state (Sample.accepting Sample.quay)
             (ProjectsView.handleDeleteProject 2) Sample.creating))
       false None
     = DashboardView.Overview 2
         (DashboardView.in_millions (Number.of_Z 1500000))
         (DashboardView.in_millions (Number.of_Z 700000)).
Proof.
  destruct (dashboard_follows_the_projects_panel
              (Sample.accepting Sample.quay) Sample.creating
              [1500000; 1000000; 0] [700000; 500000; 0]
              portfolio_budgets portfolio_costs eq_refl eq_refl)
    as [Hcreate Hdelete].
  split.
  - exact (Hcreate Sample.quay 0 0
             (conj (Z.le_refl 0) (or_introl eq_refl))
             (conj (Z.le_refl 0)
                   (or_intror (conj eq_refl (or_intror eq_refl))))
             eq_refl eq_refl eq_refl eq_refl).
  - destruct (Hdelete 2 Sample.quay eq_refl eq_refl) as (H1 & H2 & _).
    exact (conj H1 H2).
Defined.

Local Close Scope Z_scope.
